(** * HMC_T1: the acquisition server's sample ring and its query layer

    A shallow embedding of the parts of [daq_server.py] and [hmc_master.py]
    that keep, search and serve the rolling sample history, and of the
    calibration arithmetic of the process controller.

    Conventions of the embedding.
    - A Python float is a [float]: a finite value, held as an exact rational
      of [Q], or [NaN].  Rounding and infinities are not modelled.
    - A Python exception is a value of [exn]; code that may raise returns a
      [result], and code that also mutates shared state runs in the
      state-and-exception monad [SE]: [M] over the global buffers [bufidx]
      and [bufadc], [H] over the whole state a command handler can touch.
    - Python integers used as subscripts are [Z]; subscripting and slicing
      follow Python (negative subscripts count from the end, slices clip). *)

From Stdlib Require Import QArith Lqa Ascii String.
From stdpp Require Import base option list strings pretty gmap.

Open Scope string_scope.
Open Scope list_scope.
Open Scope Z_scope.

(** ** Floats *)

Inductive float : Type :=
| Fin (q : Q)
| NaN.

Definition fadd (a b : float) : float :=
  match a, b with
  | Fin x, Fin y => Fin (x + y)
  | _, _ => NaN
  end.

Definition fsub (a b : float) : float :=
  match a, b with
  | Fin x, Fin y => Fin (x - y)
  | _, _ => NaN
  end.

Definition fmul (a b : float) : float :=
  match a, b with
  | Fin x, Fin y => Fin (x * y)
  | _, _ => NaN
  end.

(** Equality with [NaN] is false, as every comparison with it. *)
Definition feq (a b : float) : bool :=
  match a, b with
  | Fin x, Fin y => Qeq_bool x y
  | _, _ => false
  end.

(** Comparisons with [NaN] are false, as in IEEE arithmetic. *)
Definition Qlt_bool (x y : Q) : bool := negb (Qle_bool y x).

Definition fle (a b : float) : bool :=
  match a, b with
  | Fin x, Fin y => Qle_bool x y
  | _, _ => false
  end.

Definition flt (a b : float) : bool :=
  match a, b with
  | Fin x, Fin y => Qlt_bool x y
  | _, _ => false
  end.

Definition is_nan (a : float) : bool :=
  match a with
  | NaN => true
  | Fin _ => false
  end.

(** ** Exceptions and results *)

Inductive exn_kind : Type :=
| IndexError
| KeyError
| ValueError
| ZeroDivisionError
| NameError.

Record exn : Type := Exn { exn_kind_of : exn_kind; exn_msg : string }.

Definition exn_kind_eqb (a b : exn_kind) : bool :=
  match a, b with
  | IndexError, IndexError
  | KeyError, KeyError
  | ValueError, ValueError
  | ZeroDivisionError, ZeroDivisionError
  | NameError, NameError => true
  | _, _ => false
  end.

Inductive result (A : Type) : Type :=
| Ok (a : A)
| Raise (e : exn).
Arguments Ok {A} a.
Arguments Raise {A} e.

Definition index_error : exn := Exn IndexError "list index out of range".
Definition zero_division : exn :=
  Exn ZeroDivisionError "float division by zero".

(** [a / b] on Python floats. *)
Definition fdiv (a b : float) : result float :=
  match a, b with
  | Fin x, Fin y =>
      if Qeq_bool y 0 then Raise zero_division else Ok (Fin (x / y))
  | _, _ => Ok NaN
  end.
Definition pop_error : exn := Exn IndexError "pop from empty list".

Definition rbind {A B} (r : result A) (k : A -> result B) : result B :=
  match r with
  | Ok a => k a
  | Raise e => Raise e
  end.

#[global] Instance result_ret : MRet result := fun A a => Ok a.
#[global] Instance result_bind : MBind result := fun A B k r => rbind r k.

(** [[f(x) for x in l]], stopping at the first exception. *)
Fixpoint rmap {A B} (f : A -> result B) (l : list A) : result (list B) :=
  match l with
  | [] => Ok []
  | a :: l' =>
      match f a with
      | Raise e => Raise e
      | Ok b =>
          match rmap f l' with
          | Raise e => Raise e
          | Ok bs => Ok (b :: bs)
          end
      end
  end.

(** ** Python sequences *)

Section PySeq.
Context {A : Type}.

(** [l[i]] *)
Definition py_index (l : list A) (i : Z) : result A :=
  let j := if i <? 0 then i + Z.of_nat (length l) else i in
  if j <? 0 then Raise index_error
  else match l !! Z.to_nat j with
       | Some a => Ok a
       | None => Raise index_error
       end.

(** A slice bound, clipped to the list as Python does. *)
Definition py_bound (n : nat) (i : Z) : nat :=
  if i <? 0 then Z.to_nat (Z.max 0 (i + Z.of_nat n))
  else Z.to_nat (Z.min i (Z.of_nat n)).

(** [l[a:b]] *)
Definition py_slice (l : list A) (a b : Z) : list A :=
  let lo := py_bound (length l) a in
  let hi := py_bound (length l) b in
  take (hi - lo) (drop lo l).

(** [l.pop(0)], as the remaining list. *)
Definition py_pop0 (l : list A) : result (list A) :=
  match l with
  | [] => Raise pop_error
  | _ :: l' => Ok l'
  end.
End PySeq.

(** ** State and exceptions

    A raise keeps the mutations made before it, as in Python. *)

Definition SE (S A : Type) : Type := S -> result A * S.

Section StateExn.
Context {S : Type}.

Definition se_ret {A} (a : A) : SE S A := fun s => (Ok a, s).

Definition se_bind {A B} (m : SE S A) (k : A -> SE S B) : SE S B :=
  fun s =>
    match m s with
    | (Ok a, s') => k a s'
    | (Raise e, s') => (Raise e, s')
    end.

Definition se_raise {A} (e : exn) : SE S A := fun s => (Raise e, s).

Definition se_lift {A} (r : result A) : SE S A := fun s => (r, s).

Definition se_get : SE S S := fun s => (Ok s, s).

Definition se_put (s' : S) : SE S unit := fun _ => (Ok tt, s').

Definition se_modify (f : S -> S) : SE S unit := fun s => (Ok tt, f s).

(** [try: m  except Exception as e: h e] *)
Definition se_try {A} (m : SE S A) (h : exn -> SE S A) : SE S A :=
  fun s =>
    match m s with
    | (Ok a, s') => (Ok a, s')
    | (Raise e, s') => h e s'
    end.

(** A computation that leaves the state as it found it, whatever it
    returns. *)
Definition reads {A} (m : SE S A) : Prop := forall s, (m s).2 = s.
End StateExn.

#[global] Instance SE_ret {S} : MRet (SE S) := fun A a => se_ret a.
#[global] Instance SE_bind {S} : MBind (SE S) := fun A B k m => se_bind m k.

(** ** The global buffers

    [bufidx] holds one two-element list [[recno, wavetime]] per sample and
    [bufadc] the channel values of the same sample, at the same subscript. *)

Record buffers : Type := Buffers {
  bufidx : list (list float);
  bufadc : list (list float)
}.

Definition set_bufidx (l : list (list float)) (s : buffers) : buffers :=
  Buffers l (bufadc s).

Abbreviation M := (SE buffers).

Definition on_bufidx {A}
    (f : list (list float) -> result A * list (list float)) : M A :=
  fun s => let '(r, l) := f (bufidx s) in (r, set_bufidx l s).

(** [bufidx[i][1]] *)
Definition time_at (l : list (list float)) (i : Z) : result float :=
  e ← py_index l i; py_index e 1.

(** ** The supervisor's append (main, the data_Q branch of the top loop) *)

Definition int_float (z : Z) : float := Fin (inject_Z z).

Definition main_append (bufsize : Q) (recno : Z) (wavetime : Q)
    (record : list float) : M unit :=
  s ← se_get;
  let idx := bufidx s ++ [[int_float recno; Fin wavetime]] in
  let adc := bufadc s ++ [record] in
  se_put (Buffers idx adc);;
  last ← se_lift (time_at idx (-1));
  first ← se_lift (time_at idx 0);
  if flt (Fin bufsize) (fsub last first) then
    idx' ← se_lift (py_pop0 idx);
    se_put (Buffers idx' adc);;
    adc' ← se_lift (py_pop0 adc);
    se_put (Buffers idx' adc')
  else mret tt.

(** The ring after the supervisor has taken a run of samples off [data_Q];
    an exception in one step is printed and the loop goes on. *)
Fixpoint main_feed (bufsize : Q) (samples : list (Z * Q * list float))
    (s : buffers) : buffers :=
  match samples with
  | [] => s
  | (recno, wavetime, record) :: rest =>
      main_feed bufsize rest (main_append bufsize recno wavetime record s).2
  end.

(** ** Time-index lookup *)

(** [while len(bufidx[0]) < 2: bufidx.pop(0)] *)
Fixpoint strip_head (l : list (list float))
    : result unit * list (list float) :=
  match l with
  | [] => (Raise index_error, [])
  | e :: l' => if (length e <? 2)%nat then strip_head l' else (Ok tt, l)
  end.

(** [while len(bufidx[-1]) < 2: bufidx.pop(-1)]: the same walk from the
    other end. *)
Definition strip_tail (l : list (list float))
    : result unit * list (list float) :=
  let '(r, l') := strip_head (reverse l) in (r, reverse l').

(** The [for p in range(len(bufidx))] loop; [fuel] counts the subscripts
    still to visit, the range being fixed before the first pop. *)
Fixpoint scan (t : float) (p fuel : nat) (l : list (list float))
    : result Z * list (list float) :=
  match fuel with
  | O => (Ok (Z.of_nat (length l) - 1), l)
  | S fuel' =>
      match l !! p with
      | None => (Raise index_error, l)
      | Some e =>
          if (1 <? length e)%nat then
            match py_index e 1 with
            | Raise x => (Raise x, l)
            | Ok tp =>
                if fle t tp then (Ok (Z.of_nat p), l)
                else scan t (S p) fuel' l
            end
          else scan t (S p) fuel' (delete p l)
      end
  end.

Definition find_time_index_body (t : float) : M Z :=
  on_bufidx strip_head;;
  on_bufidx strip_tail;;
  s ← se_get;
  first ← se_lift (time_at (bufidx s) 0);
  last ← se_lift (time_at (bufidx s) (-1));
  if fle first t && fle t last then
    on_bufidx (fun l => scan t 0 (length l) l)
  else if flt t first then mret 0
  else mret (Z.of_nat (length (bufidx s)) - 1).

Definition find_time_index (t : float) : M Z :=
  se_try (find_time_index_body t)
         (fun e => if exn_kind_eqb (exn_kind_of e) IndexError then mret 0
                   else se_raise e).

(** ** Median over a window *)

Fixpoint insert_sorted (x : Q) (l : list Q) : list Q :=
  match l with
  | [] => [x]
  | y :: l' => if Qle_bool x y then x :: l else y :: insert_sorted x l'
  end.

Definition sort_values (l : list Q) : list Q := foldr insert_sorted [] l.

Definition finite (a : float) : option Q :=
  match a with
  | Fin q => Some q
  | NaN => None
  end.

(** [np.median]: [NaN] for an empty array or one that holds a [NaN],
    the middle element of the sorted values for an odd count, the mean of
    the two middle elements for an even one. *)
Definition np_median (X : list float) : float :=
  match mapM finite X with
  | None => NaN
  | Some qs =>
      let sorted := sort_values qs in
      let n := length sorted in
      if Nat.even n then
        match sorted !! (n / 2 - 1)%nat, sorted !! (n / 2)%nat with
        | Some a, Some b => Fin ((a + b) / 2)
        | _, _ => NaN
        end
      else
        match sorted !! (n / 2)%nat with
        | Some a => Fin a
        | None => NaN
        end
  end.

Definition median_avg (s : Z) (p1 : Z) (period : float) : M float :=
  b ← se_get;
  tp ← se_lift (time_at (bufidx b) p1);
  p0 ← find_time_index (fsub tp period);
  let p0 := if p0 =? -1 then 0 else p0 in
  b' ← se_get;
  X ← se_lift (rmap (fun t => py_index t s) (py_slice (bufadc b') p0 (p1 + 1)));
  mret (np_median X).

(** ** Strings *)

Definition newline : string := String (ascii_of_nat 10) EmptyString.

(** [sep.join(l)] *)
Fixpoint join (sep : string) (l : list string) : string :=
  match l with
  | [] => ""
  | [x] => x
  | x :: l' => x +:+ sep +:+ join sep l'
  end.

Definition upper_char (c : ascii) : ascii :=
  let n := nat_of_ascii c in
  if ((97 <=? n) && (n <=? 122))%nat then ascii_of_nat (n - 32) else c.

(** [s.upper()], on ASCII text. *)
Fixpoint upper (s : string) : string :=
  match s with
  | EmptyString => EmptyString
  | String c s' => String (upper_char c) (upper s')
  end.

Definition is_space (c : ascii) : bool :=
  let n := nat_of_ascii c in
  ((n =? 32) || ((9 <=? n) && (n <=? 13)) || ((28 <=? n) && (n <=? 31)))%nat.

(** [s.replace(a, b)] for single characters. *)
Fixpoint replace_char (a b : ascii) (s : string) : string :=
  match s with
  | EmptyString => EmptyString
  | String c s' =>
      String (if Ascii.eqb c a then b else c) (replace_char a b s')
  end.

(** [s.replace(a, '')] for a single character. *)
Fixpoint remove_char (a : ascii) (s : string) : string :=
  match s with
  | EmptyString => EmptyString
  | String c s' =>
      if Ascii.eqb c a then remove_char a s' else String c (remove_char a s')
  end.

(** [s.split()]: the maximal runs of non-blank characters; [cur] is the run
    being read, last character first. *)
Fixpoint split_from (cur : list ascii) (s : string) : list string :=
  let flush rest :=
    match cur with
    | [] => rest
    | _ => string_of_list_ascii (rev cur) :: rest
    end in
  match s with
  | EmptyString => flush []
  | String c s' =>
      if is_space c then flush (split_from [] s')
      else split_from (c :: cur) s'
  end.

Definition split (s : string) : list string := split_from [] s.

Fixpoint lstrip (s : string) : string :=
  match s with
  | EmptyString => EmptyString
  | String c s' => if is_space c then lstrip s' else s
  end.

Definition string_rev (s : string) : string :=
  string_of_list_ascii (rev (list_ascii_of_string s)).

(** [s.strip()] *)
Definition strip (s : string) : string :=
  string_rev (lstrip (string_rev (lstrip s))).

(** [pat in s] *)
Fixpoint contains (pat s : string) : bool :=
  String.prefix pat s ||
  match s with
  | EmptyString => false
  | String _ s' => contains pat s'
  end.

Fixpoint drop_chars (n : nat) (s : string) : string :=
  match n, s with
  | O, _ => s
  | S _, EmptyString => EmptyString
  | S n', String _ s' => drop_chars n' s'
  end.

(** [s.replace(pat, rep)] for a non-empty [pat]; [fuel] bounds the number
    of steps by the length of [s]. *)
Fixpoint replace_from (fuel : nat) (pat rep s : string) : string :=
  match fuel with
  | O => s
  | S fuel' =>
      match s with
      | EmptyString => EmptyString
      | String c s' =>
          if String.prefix pat s then
            rep +:+ replace_from fuel' pat rep
                      (drop_chars (String.length pat) s)
          else String c (replace_from fuel' pat rep s')
      end
  end.

Definition replace (pat rep s : string) : string :=
  replace_from (String.length s) pat rep s.

(** The request tokens: [cmdstr.upper().replace(',', ' ').split()]. *)
Definition tokens (cmdstr : string) : list string :=
  split (replace_char "," " " (upper cmdstr)).

(** ** The sensor catalog *)

Record Sensor : Type := {
  name : string;
  plot : string;
  label : string;
  _unit : string;
  _fmt : string;
  val : float -> result float
}.

(** The base class: [val] is the raw reading. *)
Definition Sensor_base (name plot label unit fmt : string) : Sensor :=
  {| name := name; plot := plot; label := label; _unit := unit; _fmt := fmt;
     val := fun vadc => Ok vadc |}.

Definition math_domain_error : exn := Exn ValueError "math domain error".

(** [Sensor_PT100.val] with the coefficients of [set_coeffs]; [sqrt] is
    [math.sqrt] on its domain, and a negative argument raises as
    [math.sqrt] does. *)
Definition PT100_discriminant (v : Q) : Q :=
  (let a := 3.9083e-3 in
   let b := - 5.775e-7 in
   let vref := 1 in
   let Ec := 0.997663 in
   let Eo := 1e-3 in
   let vc := (v - Eo) * Ec in
   a * a - (4 * b * (1 - vc / vref)))%Q.

Definition Sensor_PT100 (sqrt : Q -> Q) (name plot label unit fmt : string)
    : Sensor :=
  {| name := name; plot := plot; label := label; _unit := unit; _fmt := fmt;
     val := fun vadc =>
       match vadc with
       | NaN => Ok NaN
       | Fin v =>
           let a := 3.9083e-3 in
           let b := - 5.775e-7 in
           let d := PT100_discriminant v in
           if Qlt_bool d 0 then Raise math_domain_error
           else Ok (Fin ((- a + sqrt d) / (2 * b)))
       end |}%Q.

(** [Sensor_O2_Me2_O2.val] *)
Definition Sensor_O2_Me2_O2 (name plot label unit fmt : string) : Sensor :=
  {| name := name; plot := plot; label := label; _unit := unit; _fmt := fmt;
     val := fun vadc =>
       match vadc with
       | NaN => Ok NaN
       | Fin v => Ok (Fin (((v - 1.151e-3) * 20.9) / (1.29 - 1.151e-3)))
       end |}%Q.

(** ** The state a command handler works on

    A request is the [Namespace(cmd, resp_Qn, wait)] a handler puts on
    [cmd_Q].  [cmd_Q] is kept as the log of the requests submitted to the
    DAQ worker, oldest first; [sent] and [sock_closed] are the handler's own
    client socket, and [handler_cmd] its own [cmd] object, which it mutates
    and reuses from one request to the next. *)

Record request : Type := Request {
  cmd : string;
  resp_Qn : Z;
  wait : float
}.

Record server : Type := Server {
  bufs : buffers;
  cmd_Q : list request;
  msg_Q : list string;
  err_Q : list string;
  free_Qn : list Z;
  daq_cmd_clients : list Z;
  evt_terminate : bool;
  sent : list string;
  sock_closed : bool;
  handler_cmd : request
}.

Abbreviation H := (SE server).

Definition on_bufs {A} (m : M A) : H A :=
  fun w =>
    let '(r, b) := m (bufs w) in
    (r,
     Server b (cmd_Q w) (msg_Q w) (err_Q w) (free_Qn w) (daq_cmd_clients w)
            (evt_terminate w) (sent w) (sock_closed w) (handler_cmd w)).

(** [client_socket.sendall(text.encode(...))] *)
Definition sendall (text : string) : H unit :=
  se_modify (fun w =>
    Server (bufs w) (cmd_Q w) (msg_Q w) (err_Q w) (free_Qn w)
           (daq_cmd_clients w) (evt_terminate w) (sent w ++ [text])
           (sock_closed w) (handler_cmd w)).

Definition msg_put (text : string) : H unit :=
  se_modify (fun w =>
    Server (bufs w) (cmd_Q w) (msg_Q w ++ [text]) (err_Q w) (free_Qn w)
           (daq_cmd_clients w) (evt_terminate w) (sent w) (sock_closed w)
           (handler_cmd w)).

Definition err_put (text : string) : H unit :=
  se_modify (fun w =>
    Server (bufs w) (cmd_Q w) (msg_Q w) (err_Q w ++ [text]) (free_Qn w)
           (daq_cmd_clients w) (evt_terminate w) (sent w) (sock_closed w)
           (handler_cmd w)).

Definition cmd_put (c : request) : H unit :=
  se_modify (fun w =>
    Server (bufs w) (cmd_Q w ++ [c]) (msg_Q w) (err_Q w) (free_Qn w)
           (daq_cmd_clients w) (evt_terminate w) (sent w) (sock_closed w)
           (handler_cmd w)).

Definition set_terminate : H unit :=
  se_modify (fun w =>
    Server (bufs w) (cmd_Q w) (msg_Q w) (err_Q w) (free_Qn w)
           (daq_cmd_clients w) true (sent w) (sock_closed w) (handler_cmd w)).

Definition set_pool (free clients : list Z) : H unit :=
  se_modify (fun w =>
    Server (bufs w) (cmd_Q w) (msg_Q w) (err_Q w) free clients
           (evt_terminate w) (sent w) (sock_closed w) (handler_cmd w)).

Definition close_socket : H unit :=
  se_modify (fun w =>
    Server (bufs w) (cmd_Q w) (msg_Q w) (err_Q w) (free_Qn w)
           (daq_cmd_clients w) (evt_terminate w) (sent w) true
           (handler_cmd w)).

Definition set_cmd (c : request) : H unit :=
  se_modify (fun w =>
    Server (bufs w) (cmd_Q w) (msg_Q w) (err_Q w) (free_Qn w)
           (daq_cmd_clients w) (evt_terminate w) (sent w) (sock_closed w) c).

(** [l.remove(x)]: the first occurrence goes. *)
Fixpoint list_remove (x : Z) (l : list Z) : list Z :=
  match l with
  | [] => []
  | y :: l' => if x =? y then l' else y :: list_remove x l'
  end.

(** ** The query layer and the handlers' branches

    What the server takes from outside the repository is a parameter:
    - [sensors], the catalog [Sensor._sensors];
    - [py_format f x], the text [f.format(x)] of a float under a template;
    - [py_float s], Python's [float(s)], [None] standing for [ValueError];
    - [find_peaks y height distance], [scipy.signal.find_peaks]. *)

Section Server.
Variable sensors : list Sensor.
Variable py_format : string -> float -> string.
Variable py_float : string -> option float.
Variable find_peaks : list float -> float -> Q -> result (list Z).

Definition conv_float (x : string) : float :=
  match py_float
          (remove_char "s" (remove_char "V" (remove_char "%"
             (remove_char "C" x)))) with
  | Some v => v
  | None => NaN
  end.

Definition labels : list string := map label sensors.

(** [tuple(Sensor.labels()).index(l)], when [l in Sensor.labels()]. *)
Fixpoint label_index_from (i : nat) (ls : list string) (l : string)
    : option nat :=
  match ls with
  | [] => None
  | x :: ls' =>
      if String.eqb l x then Some i else label_index_from (S i) ls' l
  end.

Definition label_index (l : string) : option nat :=
  label_index_from 0 labels l.

(** [Sensor.format] *)
Definition format (s : Sensor) (vadc : float) : result string :=
  v ← val s vadc; mret (py_format (_fmt s) v +:+ _unit s).

(** [tuple(s.format(record[i]) for i, s in enumerate(Sensor.sensors()))] *)
Definition format_strings (record : list float) : result (list string) :=
  rmap (fun '(i, s) => v ← py_index record (Z.of_nat i); format s v)
       (imap pair sensors).

Definition time_prefix (wavetime : float) : string :=
  py_format "{:.6f}" wavetime +:+ "s,".

(** The line the supervisor puts on every subscriber queue. *)
Definition outrec (wavetime : float) (record : list float)
    : result string :=
  strings ← format_strings record;
  mret (time_prefix wavetime +:+ join "," strings).

(** One turn of the supervisor's [data_Q] loop: the ring is updated, and
    the sample is streamed unless the turn raised. *)
Definition main_step (bufsize : Q) (sample : Z * Q * list float)
    (s : buffers) : buffers * option string :=
  let '(recno, wavetime, record) := sample in
  match main_append bufsize recno wavetime record s with
  | (Raise _, s') => (s', None)
  | (Ok _, s') =>
      match outrec (Fin wavetime) record with
      | Ok line => (s', Some line)
      | Raise _ => (s', None)
      end
  end.

Definition err_reply (e : exn) : string := "ERR: " +:+ exn_msg e.

(** *** [:DATA:READ?] (data_handler) *)

Definition datarec (row : list float * list float) : result string :=
  let '(idx, record) := row in
  wavetime ← py_index idx 1;
  strings ← format_strings record;
  mret (time_prefix wavetime +:+ join "," strings +:+ newline).

(** The texts sent on the socket, in order. *)
Definition data_read (fields : list string) : M (list string) :=
  se_try
    (b ← se_get;
     let p1 := Z.of_nat (length (bufidx b)) in
     let p0 := p1 - 1 in
     '(p0, p1) ← (if (1 <? length fields)%nat then
                    f1 ← se_lift (py_index fields 1);
                    p ← find_time_index (conv_float f1);
                    mret (p, p + 1)
                  else mret (p0, p1));
     p1 ← (if (2 <? length fields)%nat then
             f2 ← se_lift (py_index fields 2);
             p ← find_time_index (conv_float f2);
             mret (p + 1)
           else mret p1);
     b' ← se_get;
     databuf ← se_lift (rmap datarec (zip (py_slice (bufidx b') p0 p1)
                                          (py_slice (bufadc b') p0 p1)));
     mret (databuf ++ ["OK"]))
    (fun e => mret [err_reply e]).

(** *** [:CMD:TIME:RST] (cmd_handler), the part under [buf_lock] *)

(** [for i in range(len(bufidx)): bufidx[i][1] -= toffs] *)
Fixpoint shift_times (toffs : float) (l : list (list float))
    : result unit * list (list float) :=
  match l with
  | [] => (Ok tt, [])
  | e :: l' =>
      match py_index e 1 with
      | Raise x => (Raise x, l)
      | Ok t =>
          let '(r, l'') := shift_times toffs l' in
          (r, <[1%nat := fsub t toffs]> e :: l'')
      end
  end.

(** [try: toffs = float(resp)  except: toffs = 0.0] *)
Definition time_offset (resp : string) : float :=
  match py_float resp with
  | Some v => v
  | None => Fin 0
  end.

Definition time_rst (resp : string) : M unit :=
  on_bufidx (shift_times (time_offset resp)).

(** *** [:CMD:READ?] (cmd_handler) *)

Definition sensor_at (sns : nat) : result Sensor :=
  py_index sensors (Z.of_nat sns).

Definition cmd_read (fields : list string) : M string :=
  se_try
    (f1 ← se_lift (py_index fields 1);
     response ← (if String.eqb f1 "ALL" then
                   b ← se_get;
                   wavetime ← se_lift (time_at (bufidx b) (-1));
                   record ← se_lift (py_index (bufadc b) (-1));
                   strings ← se_lift (format_strings record);
                   mret (time_prefix wavetime +:+ join "," strings)
                 else mret "ERR");
     match label_index f1 with
     | None => mret response
     | Some sns =>
         b ← se_get;
         t ← (if (2 <? length fields)%nat then
                f2 ← se_lift (py_index fields 2);
                if String.eqb (upper f2) "MAX" then
                  se_lift (time_at (bufidx b) (-1))
                else if String.eqb (upper f2) "MIN" then
                  se_lift (time_at (bufidx b) 0)
                else mret (conv_float f2)
              else se_lift (time_at (bufidx b) (-1)));
         first ← se_lift (time_at (bufidx b) 0);
         in_range ← (if fle first t then
                       last ← se_lift (time_at (bufidx b) (-1));
                       mret (fle t last)
                     else mret false);
         if in_range : bool then
           pos ← find_time_index t;
           s ← se_lift (sensor_at sns);
           if (3 <? length fields)%nat then
             f3 ← se_lift (py_index fields 3);
             m ← median_avg (Z.of_nat sns) pos (conv_float f3);
             se_lift (format s m)
           else
             b' ← se_get;
             v ← se_lift (record ← py_index (bufadc b') pos;
                          py_index record (Z.of_nat sns));
             se_lift (format s v)
         else mret response
     end)
    (fun e => mret (err_reply e)).

(** *** [:CMD:BASE:DRIFT?] (cmd_handler) *)

Definition cmd_drift (fields : list string) : M string :=
  se_try
    (f1 ← se_lift (py_index fields 1);
     match label_index f1 with
     | None => mret "ERR"
     | Some sns =>
         interval ← (if (2 <? length fields)%nat then
                       f2 ← se_lift (py_index fields 2);
                       mret (conv_float f2)
                     else mret (Fin 60));
         let interval := if feq interval (Fin 0) then Fin 60 else interval in
         b ← se_get;
         t1 ← se_lift (time_at (bufidx b) (-1));
         let t0 := fsub t1 interval in
         first ← se_lift (time_at (bufidx b) 0);
         let t0 := if flt t0 first then first else t0 in
         p0 ← find_time_index t0;
         p1 ← find_time_index t1;
         s ← se_lift (sensor_at sns);
         m0 ← median_avg (Z.of_nat sns) p0 (Fin 1);
         b0 ← se_lift (val s m0);
         m1 ← median_avg (Z.of_nat sns) p1 (Fin 1);
         b1 ← se_lift (val s m1);
         let drift := fsub b1 b0 in
         q ← se_lift (fdiv drift interval);
         mret (py_format "{}" (fmul q (Fin 60)))
     end)
    (fun e => mret (err_reply e)).

(** *** [:CMD:PEAK?] (cmd_handler) *)

(** [for i in peaks: ...], with its [break]. *)
Fixpoint peak_loop (x y : list float) (peaks : list Z)
    (pktim pkval : float) : result (float * float) :=
  match peaks with
  | [] => Ok (pktim, pkval)
  | i :: rest =>
      yi ← py_index y i;
      if flt pkval yi then
        xi ← py_index x i;
        peak_loop x y rest xi yi
      else if flt (Fin 1000e-6) (fsub pkval yi) then Ok (pktim, pkval)
      else peak_loop x y rest pktim pkval
  end.

Definition cmd_peak (fields : list string) : M string :=
  se_try
    (f1 ← se_lift (py_index fields 1);
     match label_index f1 with
     | None => mret "ERR"
     | Some sns =>
         if (3 <? length fields)%nat then
           f2 ← se_lift (py_index fields 2);
           f3 ← se_lift (py_index fields 3);
           let t0 := conv_float f2 in
           let interval := conv_float f3 in
           b ← se_get;
           let t1 := fadd t0 interval in
           first ← se_lift (time_at (bufidx b) 0);
           let t0 := if flt t0 first then first else t0 in
           last ← se_lift (time_at (bufidx b) (-1));
           let t1 := if flt last t1 then last else t1 in
           p0 ← find_time_index t0;
           p1 ← find_time_index t1;
           s ← se_lift (sensor_at sns);
           m ← median_avg (Z.of_nat sns) p0 (Fin 1);
           v ← se_lift (val s m);
           let b0 := fadd v (Fin 1e-3) in
           b' ← se_get;
           x ← se_lift (rmap (fun t => py_index t 1)
                             (py_slice (bufidx b') p0 (p1 + 1)));
           y ← se_lift (rmap (fun t => r ← py_index t (Z.of_nat sns);
                                       val s r)
                             (py_slice (bufadc b') p0 (p1 + 1)));
           peaks ← se_lift (find_peaks y b0 (inject_Z (p1 - p0) / 2));
           if (0 <? length peaks)%nat then
             pk ← se_lift (peak_loop x y peaks (Fin 0) (Fin (-1e6)));
             if flt b0 pk.2 then
               mret (py_format "{}" pk.1 +:+ "," +:+ py_format "{}" pk.2)
             else mret "ERR"
           else mret "ERR"
         else mret "ERR"
     end)
    (fun e => mret (err_reply e)).

(** *** The command handler (cmd_handler)

    [daq log] is the text the DAQ worker puts on the handler's response
    queue for the newest request of [log], the requests submitted so far.
    Sleeps pass no time here; they only raise on a bad length. *)

Variable arg_verbose arg_silent : bool.
Variable arg_bufsize : float.
Variable script_ver : string.
Variable daq : list request -> string.

Definition when (c : bool) (m : H unit) : H unit :=
  if c then m else mret tt.

(** [cmd_Q.put(cmd)] then [pool_Q[cmd.resp_Qn].get()] *)
Definition submit : H string :=
  w ← se_get;
  cmd_put (handler_cmd w);;
  w' ← se_get;
  mret (daq (cmd_Q w')).

Definition set_cmd_text (text : string) : H unit :=
  w ← se_get;
  set_cmd (Request text (resp_Qn (handler_cmd w)) (wait (handler_cmd w))).

Definition set_cmd_wait (d : float) : H unit :=
  w ← se_get;
  set_cmd (Request (cmd (handler_cmd w)) (resp_Qn (handler_cmd w)) d).

Definition send_cmd (cmdstr : string) : H string :=
  set_cmd_text cmdstr;;
  set_cmd_wait (Fin 0);;
  submit.

(** [float(s)] *)
Definition to_float (s : string) : result float :=
  match py_float s with
  | Some v => Ok v
  | None =>
      Raise (Exn ValueError
               ("could not convert string to float: '" +:+ s +:+ "'"))
  end.

(** [time.sleep(d)] *)
Definition py_sleep (d : float) : result unit :=
  match d with
  | NaN => Raise (Exn ValueError "Invalid value NaN (not a number)")
  | Fin q =>
      if Qlt_bool q 0 then
        Raise (Exn ValueError "sleep length must be non-negative")
      else Ok tt
  end.

Definition cmd_drop (fields : list string) : H string :=
  se_try
    (speed ← (if (1 <? length fields)%nat then
                f1 ← se_lift (py_index fields 1);
                se_lift (to_float f1)
              else mret (Fin 0));
     send_cmd ":pwm1:val min";;
     rmin ← send_cmd ":pwm1:min?";
     min ← se_lift (to_float rmin);
     rmax ← send_cmd ":pwm1:max?";
     max ← se_lift (to_float rmax);
     send_cmd (":pwm1:move max, " +:+ py_format "{}" speed);;
     (if feq speed (Fin 0) then mret tt
      else
        w ← se_lift (fdiv (fsub max min) speed);
        se_lift (py_sleep (fadd w (Fin 0.5))));;
     send_cmd ":pwm1:move min, max";;
     mret "OK")
    (fun e => mret (err_reply e)).

Definition forward (text : string) : H unit :=
  set_cmd_text text;;
  resp ← submit;
  sendall resp.

(** The body of the handler's loop for one received text, up to the
    handlers of [OSError] and [Exception], which are in [serve_loop]. *)
Definition serve_request (addr data : string) : H unit :=
  let cmdstr := strip data in
  let fields := tokens cmdstr in
  f0 ← se_lift (py_index fields 0);
  if String.eqb ":CMD:HMC:SHUTDOWN" f0 then
    when arg_verbose
      (msg_put ("Client " +:+ addr +:+ ": Received " +:+ f0
                +:+ "! Terminating the application."));;
    sendall "ABORT";;
    set_terminate
  else if String.eqb ":CMD:DROP" f0 then
    response ← cmd_drop fields; sendall response
  else if String.eqb ":CMD:VERS?" f0 then sendall script_ver
  else if String.eqb ":CMD:BUFSZ?" f0 then
    sendall (py_format "{}" arg_bufsize)
  else if String.eqb ":CMD:TIME:MIN?" f0 then
    w ← se_get;
    tmin ← se_lift (time_at (bufidx (bufs w)) 0);
    sendall (py_format "{}" tmin)
  else if String.eqb ":CMD:TIME:MAX?" f0 then
    w ← se_get;
    tmax ← se_lift (time_at (bufidx (bufs w)) (-1));
    sendall (py_format "{}" tmax)
  else if String.eqb ":CMD:NAMES?" f0 then
    sendall ("TIME," +:+ join "," labels)
  else if String.eqb ":CMD:TIME:RST" f0 then
    set_cmd_text (upper cmdstr);;
    resp ← submit;
    on_bufs (time_rst resp);;
    sendall resp
  else if String.eqb ":CMD:READ?" f0 then
    response ← on_bufs (cmd_read fields); sendall response
  else if String.eqb ":CMD:BASE:DRIFT?" f0 then
    response ← on_bufs (cmd_drift fields); sendall response
  else if String.eqb ":CMD:PEAK?" f0 then
    response ← on_bufs (cmd_peak fields); sendall response
  else if String.eqb ":TRIG:CONT:READ?" f0 then
    forward (replace ":CONT" "" (upper cmdstr))
  else if contains "*RST" f0 || contains ":SAV" f0 || contains ":RCL" f0
  then
    set_cmd_text cmdstr;;
    set_cmd_wait (Fin 2);;
    resp ← submit;
    sendall resp
  else forward cmdstr.

(** [while not evt_terminate.is_set(): ...] over the texts the client
    sends, one per [recv]; the end of [inbox], or an empty text, is the
    peer closing the connection. *)
Fixpoint serve_loop (addr : string) (inbox : list string) : H unit :=
  w ← se_get;
  if evt_terminate w then mret tt
  else
    match inbox with
    | [] => when arg_verbose (msg_put ("Client " +:+ addr +:+ " disconnected."))
    | data :: rest =>
        if String.eqb data "" then
          when arg_verbose
            (msg_put ("Client " +:+ addr +:+ " disconnected."))
        else
          go_on ← se_try (serve_request addr data;; mret true)
                    (fun e =>
                       when (negb arg_silent)
                         (err_put ("cmd_handelr: Error handling client "
                                   +:+ addr +:+ ": " +:+ exn_msg e));;
                       mret false);
          if go_on : bool then serve_loop addr rest else mret tt
    end.

Definition cmd_handler (client_socket : Z) (addr : string)
    (inbox : list string) : H unit :=
  w ← se_get;
  (match reverse (free_Qn w) with
   | n :: free_rev =>
       set_pool (reverse free_rev) (daq_cmd_clients w ++ [client_socket]);;
       when arg_verbose
         (msg_put ("Accepted cmd connection from " +:+ addr
                   +:+ ", using queue " +:+ pretty n +:+ "."));;
       set_cmd (Request "" n (Fin 0));;
       serve_loop addr inbox;;
       w' ← se_get;
       set_pool (free_Qn w' ++ [n]) (daq_cmd_clients w');;
       when arg_verbose
         (msg_put ("CMD Handler " +:+ addr +:+ ": releasing queue "
                   +:+ pretty n +:+ "."))
   | [] =>
       when (negb arg_silent)
         (err_put ("CMD Handler " +:+ addr
                   +:+ " ERROR: out of queue resources. Closing connection."))
   end);;
  close_socket;;
  w' ← se_get;
  set_pool (free_Qn w') (list_remove client_socket (daq_cmd_clients w'));;
  when arg_verbose (msg_put ("Connection with " +:+ addr +:+ " closed."));;
  when arg_verbose (msg_put ("CMD Handler " +:+ addr +:+ ": thread stopped.")).

End Server.

(** ** Calibration curves of the process controller (hmc_master.py)

    The three fits are module globals, unset until [compute_calib_curves]
    has run.  [polyfit x y deg] is [np.polyfit], a parameter; [polyval] is
    [np.polyval], Horner's scheme over the coefficients, highest degree
    first.  Readings and calibration values are finite here. *)

Module Calib.

Record curves : Type := Curves {
  z_cell_adc2h2 : option (list Q);
  z_tgs_h2_2adc : option (list Q);
  z_tgs_adc2ch4 : option (list Q)
}.

Definition unset : curves := Curves None None None.

(** [cal[k]] *)
Definition cal_get (cal : gmap string Q) (k : string) : result Q :=
  match cal !! k with
  | Some v => Ok v
  | None => Raise (Exn KeyError ("'" +:+ k +:+ "'"))
  end.

Definition global (name : string) (g : option (list Q))
    : result (list Q) :=
  match g with
  | Some z => Ok z
  | None =>
      Raise (Exn NameError ("name '" +:+ name +:+ "' is not defined"))
  end.

Definition horner (p : list Q) (x : Q) : Q :=
  fold_left (fun y pv => y * x + pv)%Q p 0%Q.

Definition polyval (p : list Q) (x : list Q) : list Q :=
  map (horner p) x.

Section Fits.
Variable polyfit : list Q -> list Q -> nat -> result (list Q).

Definition compute_calib_curves (cal : gmap string Q)
    : SE curves unit :=
  se_try
    (c50 ← se_lift (cal_get cal "cell_h2_50ppm");
     c100 ← se_lift (cal_get cal "cell_h2_100ppm");
     let cell_adc_h2 := [0; c50; c100]%Q in
     let cell_ppm_h2 := [0; 50; 100]%Q in
     h50 ← se_lift (cal_get cal "tgs_h2_50ppm");
     comp1 ← se_lift (cal_get cal "tgs_comp");
     h100 ← se_lift (cal_get cal "tgs_h2_100ppm");
     comp2 ← se_lift (cal_get cal "tgs_comp");
     let tgs_adc_h2 := [0; h50 + comp1; h100 + comp2]%Q in
     let tgs_ppm_h2 := [0; 50; 100]%Q in
     m50 ← se_lift (cal_get cal "tgs_ch4_50ppm");
     comp3 ← se_lift (cal_get cal "tgs_comp");
     m100 ← se_lift (cal_get cal "tgs_ch4_100ppm");
     comp4 ← se_lift (cal_get cal "tgs_comp");
     let tgs_adc_ch4 := [0; m50 + comp3; m100 + comp4]%Q in
     let tgs_ppm_ch4 := [0; 50; 100]%Q in
     z1 ← se_lift (polyfit cell_adc_h2 cell_ppm_h2 1);
     se_modify (fun g =>
       Curves (Some z1) (z_tgs_h2_2adc g) (z_tgs_adc2ch4 g));;
     z2 ← se_lift (polyfit tgs_ppm_h2 tgs_adc_h2 2);
     se_modify (fun g =>
       Curves (z_cell_adc2h2 g) (Some z2) (z_tgs_adc2ch4 g));;
     z3 ← se_lift (polyfit tgs_adc_ch4 tgs_ppm_ch4 2);
     se_modify (fun g =>
       Curves (z_cell_adc2h2 g) (z_tgs_h2_2adc g) (Some z3)))
    (fun _ => mret tt).
End Fits.

Definition calc_ppm (g : curves) (h2adc ch4adc : Q) : result (Q * Q) :=
  z1 ← global "z_cell_adc2h2" (z_cell_adc2h2 g);
  let h2ppm := polyval z1 [h2adc] in
  z2 ← global "z_tgs_h2_2adc" (z_tgs_h2_2adc g);
  let h2adj := polyval z2 h2ppm in
  a0 ← py_index h2adj 0;
  let tgs_adjusted := ((ch4adc + 20e-3) - a0)%Q in
  z3 ← global "z_tgs_adc2ch4" (z_tgs_adc2ch4 g);
  let ch4ppm := polyval z3 [tgs_adjusted] in
  r1 ← py_index h2ppm 0;
  r2 ← py_index ch4ppm 0;
  mret (r1, r2).

(** The value of a polynomial given by its coefficients, highest degree
    first: what the specification calls [eval]. *)
Fixpoint Qpow (x : Q) (n : nat) : Q :=
  match n with
  | O => 1
  | S n' => x * Qpow x n'
  end%Q.

Fixpoint eval (p : list Q) (x : Q) : Q :=
  match p with
  | [] => 0
  | c :: p' => c * Qpow x (length p') + eval p' x
  end%Q.

(** A dictionary shaped like the calibration file, whose three point
    sets are collinear, and a stand-in for [np.polyfit] that is exact on
    three collinear points starting at the origin; both serve the
    examples. *)
Definition example_cal : gmap string Q :=
  list_to_map
    [("tgs_comp", 0.01); ("cell_h2_100ppm", 2); ("cell_h2_50ppm", 1);
     ("tgs_h2_100ppm", 0.39); ("tgs_h2_50ppm", 0.19);
     ("tgs_ch4_100ppm", 1.99); ("tgs_ch4_50ppm", 0.99)]%Q.

Definition example_polyfit (x y : list Q) (deg : nat)
    : result (list Q) :=
  match deg, x, y with
  | 1%nat, [_; x1; _], [_; y1; _] => Ok [y1 / x1; 0]%Q
  | 2%nat, [_; x1; _], [_; y1; _] => Ok [0; y1 / x1; 0]%Q
  | _, _, _ => Raise (Exn ValueError "expected three points")
  end.

End Calib.

(** ** The configured catalog (create_sensors)

    [Sensor_T10k.val] needs [math.log] and [math.exp], taken as [ln] and
    [exp]; the other classes of the catalog keep the base [val]. *)

Definition Sensor_ADC := Sensor_base.
Definition Sensor_CH4_TGS2611 := Sensor_base.
Definition Sensor_H2_Fuel_Cell := Sensor_base.
Definition Sensor_AHT := Sensor_base.

Definition Sensor_T10k (ln exp : Q -> Q) (name plot label unit fmt : string)
    : Sensor :=
  {| name := name; plot := plot; label := label; _unit := unit; _fmt := fmt;
     val := fun vadc =>
       match vadc with
       | NaN => Ok NaN
       | Fin v =>
           let beta := 4010 in
           let vref := 1 * exp (- beta / 298.15) in
           let v := if Qle_bool v 0 then 1e-6 else v in
           if Qeq_bool vref 0 then Raise zero_division
           else if Qle_bool (v / vref) 0 then Raise math_domain_error
           else
             let d := ln (v / vref) in
             if Qeq_bool d 0 then Raise zero_division
             else Ok (Fin (beta / d - 273.15))
       end |}%Q.

Definition create_sensors (sqrt ln exp : Q -> Q) : list Sensor :=
  [ Sensor_CH4_TGS2611 "ch0" "main" "CH4" "V" "{:.6f}";
    Sensor_T10k ln exp "ch1" "temp" "CH4_TEMP" "C" "{:.2f}";
    Sensor_O2_Me2_O2 "ch2" "prct" "O2" "%" "{:.2f}";
    Sensor_H2_Fuel_Cell "ch3" "main" "H2" "V" "{:.6f}";
    Sensor_T10k ln exp "ch4" "temp" "HOTSIDE_TEMP" "C" "{:.2f}";
    Sensor_PT100 sqrt "ch5" "temp" "PT100" "C" "{:.2f}";
    Sensor_T10k ln exp "ch6" "temp" "COLDSIDE_TEMP" "C" "{:.2f}";
    Sensor_T10k ln exp "ch7" "temp" "HOTPLATE_TEMP" "C" "{:.2f}";
    Sensor_AHT "temp" "temp" "AHT10_TEMP" "C" "{:.2f}";
    Sensor_AHT "rhum" "prct" "AHT10_RHUM" "%" "{:.2f}";
    Sensor_ADC "pwm1" "prct" "SERVO" "%" "{:.2f}";
    Sensor_ADC "pwm2" "prct" "CH4_PID" "%" "{:.2f}";
    Sensor_ADC "pwm3" "prct" "COLDPLATE_PID" "%" "{:.2f}";
    Sensor_ADC "pwm4" "prct" "HOTPLATE_PID" "%" "{:.2f}" ].

(** ** Rings of sample records

    The specification's view of the ring: a sequence of records
    [(seq, t, values)].  [to_buffers] lays it out as the supervisor does. *)

Record sample : Type := Sample {
  seq : Z;
  stamp : Q;
  values : list float
}.

Definition idx_of (r : sample) : list float :=
  [int_float (seq r); Fin (stamp r)].

Definition to_buffers (ring : list sample) : buffers :=
  Buffers (map idx_of ring) (map values ring).

(** The time stamp of an index entry, [e[1]]. *)
Definition stamp_of (e : list float) : float := default NaN (e !! 1%nat).

Definition well_formed (e : list float) : Prop := (2 <= length e)%nat.

Definition ring_stamps (ring : list sample) : list float :=
  map (fun r => Fin (stamp r)) ring.

Definition non_decreasing (stamps : list float) : Prop :=
  forall (i j : nat) (u v : float),
    (i <= j)%nat -> stamps !! i = Some u -> stamps !! j = Some v ->
    fle u v = true.

Definition increasing (stamps : list float) : Prop :=
  forall (i j : nat) (u v : float),
    (i < j)%nat -> stamps !! i = Some u -> stamps !! j = Some v ->
    flt u v = true.

(** The subscript the lookup is specified to give: the smallest one whose
    time stamp is at or after [t] when [t] lies within the ring, the first
    when [t] is before it, the last otherwise. *)
Definition first_at_or_after (t : float) (stamps : list float) : nat :=
  match list_find (fun u => fle t u = true) stamps with
  | Some (i, _) => i
  | None => (length stamps - 1)%nat
  end.

Definition time_index (stamps : list float) (t : float) : nat :=
  match head stamps, last stamps with
  | Some first, Some lst =>
      if fle first t && fle t lst then first_at_or_after t stamps
      else if flt t first then 0%nat
      else (length stamps - 1)%nat
  | _, _ => 0%nat
  end.

(** The records at subscripts [p0 .. p1], both included. *)
Definition window {A} (l : list A) (p0 p1 : nat) : list A :=
  take (S p1 - p0) (drop p0 l).

(** The ring after one append of the supervisor: the oldest record goes
    when the new span exceeds [bufsize], and only that one. *)
Definition append_evict (bufsize : Q) (ring : list sample) (r : sample)
    : list sample :=
  match ring ++ [r] with
  | [] => []
  | oldest :: rest =>
      if Qlt_bool bufsize (stamp r - stamp oldest) then rest
      else oldest :: rest
  end.

Definition shift_sample (delta : Q) (r : sample) : sample :=
  Sample (seq r) (stamp r - delta) (values r).

(** The line [:DATA:READ?] writes for a record of the ring. *)
Definition sample_line (sensors : list Sensor)
    (py_format : string -> float -> string) (r : sample) : result string :=
  datarec sensors py_format (idx_of r, values r).

(** The records whose time stamp lies in [[a, b]], in ring order. *)
Definition records_between (a b : float) (ring : list sample)
    : list sample :=
  filter (fun r => fle a (Fin (stamp r)) && fle (Fin (stamp r)) b = true)
         ring.

(** What [:DATA:READ?] sends once its lines are built: the lines and a
    closing [OK], or the error alone. *)
Definition reply_lines (lines : result (list string)) : list string :=
  match lines with
  | Ok ls => ls ++ ["OK"]
  | Raise e => ["ERR: " +:+ exn_msg e]
  end.

(** ** The peak search, read off a ring of records

    The steps of [:CMD:PEAK?] as the specification words them, without the
    buffers: the window, the height, the spacing, the running maximum. *)

(** The raw value of channel [sns] in a record. *)
Definition channel (sns : nat) (r : sample) : result float :=
  py_index (values r) (Z.of_nat sns).

(** The value of channel [sns] in a record, in the sensor's units. *)
Definition converted (s : Sensor) (sns : nat) (r : sample) : result float :=
  v ← channel sns r; val s v.

(** [median(channel, end_index, period)]: the median of the channel over
    the records from the subscript found for [t_end - period] to
    [end_index]. *)
Definition median_window (ring : list sample) (sns p1 : nat)
    (period : float) : result float :=
  match ring !! p1 with
  | None => Raise index_error
  | Some r =>
      X ← rmap (channel sns)
               (window ring
                  (time_index (ring_stamps ring)
                              (fsub (Fin (stamp r)) period)) p1);
      mret (np_median X)
  end.

(** What the search is run on: the times and the converted values of the
    window [[t0, t0 + interval]] clamped to the ring, the minimum height
    (the converted one-second median at the window's start, plus 1e-3) and
    the minimum spacing (half the window's length in samples). *)
Definition peak_inputs (sensors : list Sensor) (ring : list sample)
    (sns : nat) (t0 interval : float)
    : result (list float * list float * float * Q) :=
  match head ring, last ring with
  | Some r0, Some rn =>
      let first := Fin (stamp r0) in
      let lst := Fin (stamp rn) in
      let t1 := fadd t0 interval in
      let t0 := if flt t0 first then first else t0 in
      let t1 := if flt lst t1 then lst else t1 in
      let p0 := time_index (ring_stamps ring) t0 in
      let p1 := time_index (ring_stamps ring) t1 in
      s ← py_index sensors (Z.of_nat sns);
      m ← median_window ring sns p0 (Fin 1);
      base ← val s m;
      let w := window ring p0 p1 in
      ys ← rmap (converted s sns) w;
      mret (map (fun r => Fin (stamp r)) w, ys, fadd base (Fin 1e-3),
            (inject_Z (Z.of_nat p1 - Z.of_nat p0) / 2)%Q)
  | _, _ => Raise index_error
  end.

(** The running maximum over the peaks, given as (time, value) pairs in
    the order found: a higher peak replaces the maximum, and the walk stops
    at the first peak more than 1e-3 below it. *)
Fixpoint running_peak (best : float * float) (peaks : list (float * float))
    : float * float :=
  match peaks with
  | [] => best
  | pk :: rest =>
      if flt best.2 pk.2 then running_peak pk rest
      else if flt (Fin 1000e-6) (fsub best.2 pk.2) then best
      else running_peak best rest
  end.

(** The outcome of the search: the peak to report, if any. *)
Definition peak_pick
    (find_peaks : list float -> float -> Q -> result (list Z))
    (inputs : list float * list float * float * Q)
    : result (option (float * float)) :=
  let '(xs, ys, height, distance) := inputs in
  peaks ← find_peaks ys height distance;
  match peaks with
  | [] => mret None
  | _ :: _ =>
      pk ← peak_loop xs ys peaks (Fin 0) (Fin (-1e6));
      mret (if flt height pk.2 then Some pk else None)
  end.

(** The (time, value) pair of the sample at subscript [i] of the window. *)
Definition peak_point (xs ys : list float) (i : Z) : result (float * float) :=
  y ← py_index ys i; x ← py_index xs i; mret (x, y).

Definition peak_reply (py_format : string -> float -> string)
    (outcome : result (option (float * float))) : string :=
  match outcome with
  | Ok (Some pk) => py_format "{}" pk.1 +:+ "," +:+ py_format "{}" pk.2
  | Ok None => "ERR"
  | Raise e => "ERR: " +:+ exn_msg e
  end.

(** A sample standing strictly above some earlier and some later sample. *)
Definition stands_out (ys : list float) (i : Z) : Prop :=
  exists (j k : nat) (yj yi yk : float),
    (Z.of_nat j < i < Z.of_nat k) /\
    ys !! j = Some yj /\ ys !! Z.to_nat i = Some yi /\ ys !! k = Some yk /\
    flt yj yi = true /\ flt yk yi = true.

Definition monotone (ys : list float) : Prop :=
  non_decreasing ys \/
  (forall (i j : nat) (u v : float),
      (i <= j)%nat -> ys !! i = Some u -> ys !! j = Some v ->
      fle v u = true).

(** ** Stand-ins for the parameters, for the examples

    [example_format] writes a finite value as its fraction after the
    template, [example_float] reads the few numerals the examples use, and
    the three functions below take the place of [math.sqrt], [math.log]
    and [math.exp]. *)

Definition example_format (f : string) (x : float) : string :=
  match x with
  | NaN => "nan"
  | Fin q => f +:+ pretty (Qnum q) +:+ "/" +:+ pretty (Zpos (Qden q))
  end.

Definition example_float (s : string) : option float :=
  if String.eqb s "0" then Some (Fin 0)
  else if String.eqb s "0.5" then Some (Fin 0.5)
  else if String.eqb s "1" then Some (Fin 1)
  else if String.eqb s "2" then Some (Fin 2)
  else if String.eqb s "10" then Some (Fin 10)
  else if String.eqb s "50.0" then Some (Fin 50)
  else None.

Definition example_sqrt (x : Q) : Q := ((x + 1) / 2)%Q.
Definition example_ln (x : Q) : Q := (x - 1)%Q.
Definition example_exp (x : Q) : Q := (1.44e-6)%Q.

Definition example_sensors : list Sensor :=
  create_sensors example_sqrt example_ln example_exp.

(** A peak search that reports the interior samples standing strictly
    above both neighbours and at or above [height]; it ignores [distance]. *)
Fixpoint example_peaks_from (i : Z) (height : float) (y : list float)
    : list Z :=
  match y with
  | a :: ((b :: c :: _) as y') =>
      if flt a b && flt c b && fle height b then
        (i + 1) :: example_peaks_from (i + 1) height y'
      else example_peaks_from (i + 1) height y'
  | _ => []
  end.

Definition example_find_peaks (y : list float) (height : float)
    (distance : Q) : result (list Z) :=
  Ok (example_peaks_from 0 height y).

(** Three samples of the fourteen channels, one second apart. *)
Definition example_values (ch4 h2 pt100 : Q) : list float :=
  [Fin ch4; Fin 1; Fin 1.29; Fin h2; Fin 1; Fin pt100; Fin 1; Fin 1;
   Fin 25; Fin 40; Fin 0; Fin 0; Fin 0; Fin 0].

Definition example_ring : list sample :=
  [ Sample 0 0 (example_values 0.5 0.1 1.1);
    Sample 1 1 (example_values 0.6 0.9 1.1);
    Sample 2 2 (example_values 0.7 0.1 1.1) ].

(** The same ring with the PT100 input of the newest sample at 10 V. *)
Definition example_ring_open_rtd : list sample :=
  [ Sample 0 0 (example_values 0.5 0.1 1.1);
    Sample 1 1 (example_values 0.6 0.9 1.1);
    Sample 2 2 (example_values 0.7 0.1 10) ].

Definition example_server (free : list Z) : server :=
  Server (to_buffers example_ring) [] [] [] free [] false [] false
         (Request "" 0 (Fin 0)).

(** ** What a handler leaves alone

    [respects R m]: whatever [m] returns, the state it leaves is related by
    [R] to the state it found.  The relations below name the parts of the
    server state a step may be required to keep. *)

Definition respects {S A} (R : S -> S -> Prop) (m : SE S A) : Prop :=
  forall s, R s (m s).2.

(** Nothing was sent on the client socket. *)
Definition same_sent (w w' : server) : Prop := sent w' = sent w.

(** The pool of response slots, the list of clients and the socket are as
    they were. *)
Definition same_pool (w w' : server) : Prop :=
  free_Qn w' = free_Qn w /\
  daq_cmd_clients w' = daq_cmd_clients w /\
  sock_closed w' = sock_closed w.

(** Nothing was submitted to the DAQ worker, and the handler's [cmd] object
    is as it was. *)
Definition same_worker_queue (w w' : server) : Prop :=
  cmd_Q w' = cmd_Q w /\ handler_cmd w' = handler_cmd w.

(** The handler's [cmd] object still names the same response slot, and
    every request submitted meanwhile names that slot. *)
Definition own_slot (w w' : server) : Prop :=
  resp_Qn (handler_cmd w') = resp_Qn (handler_cmd w) /\
  exists new : list request,
    cmd_Q w' = cmd_Q w ++ new /\
    Forall (fun c => resp_Qn c = resp_Qn (handler_cmd w)) new.

(** The termination event is as it was. *)
Definition same_terminate (w w' : server) : Prop :=
  evt_terminate w' = evt_terminate w.

(** A step of a handler that answers its client once when it ends
    normally, and not at all when it raises. *)
Definition replies_once (m : H unit) : Prop :=
  forall w,
    match m w with
    | (Ok _, w') => exists x, sent w' = sent w ++ [x]
    | (Raise _, w') => sent w' = sent w
    end.

(** The first tokens the command handler serves itself, or rewrites, and
    the test it makes for the commands it forwards with a 2 s delay; any
    other text goes to the DAQ worker as it is. *)
Definition local_commands : list string :=
  [":CMD:HMC:SHUTDOWN"; ":CMD:DROP"; ":CMD:VERS?"; ":CMD:BUFSZ?";
   ":CMD:TIME:MIN?"; ":CMD:TIME:MAX?"; ":CMD:NAMES?"; ":CMD:TIME:RST";
   ":CMD:READ?"; ":CMD:BASE:DRIFT?"; ":CMD:PEAK?"; ":TRIG:CONT:READ?"].

Definition slow_command (f0 : string) : bool :=
  contains "*RST" f0 || contains ":SAV" f0 || contains ":RCL" f0.

(** The requests the command handler answers from its own state. *)
Definition server_side_commands : list string :=
  [":CMD:HMC:SHUTDOWN"; ":CMD:VERS?"; ":CMD:BUFSZ?"; ":CMD:TIME:MIN?";
   ":CMD:TIME:MAX?"; ":CMD:NAMES?"; ":CMD:READ?"; ":CMD:BASE:DRIFT?";
   ":CMD:PEAK?"].

(** * Properties *)

(** ** Floats and Python subscripts *)

Lemma fle_Fin (a b : Q) : fle (Fin a) (Fin b) = true <-> (a <= b)%Q.
Proof. simpl. apply Qle_bool_iff. Qed.

Lemma flt_Fin (a b : Q) : flt (Fin a) (Fin b) = true <-> (a < b)%Q.
Proof.
  simpl. unfold Qlt_bool. rewrite negb_true_iff.
  split.
  - intros E. apply Qnot_le_lt. intros L. apply Qle_bool_iff in L. congruence.
  - intros L. destruct (Qle_bool b a) eqn:E; [|reflexivity].
    apply Qle_bool_iff in E. exfalso. exact (Qlt_not_le _ _ L E).
Qed.

Lemma flt_fle_false (a b : float) : flt a b = true -> fle b a = false.
Proof.
  destruct a as [x|], b as [y|]; simpl; try discriminate.
  unfold Qlt_bool. now rewrite negb_true_iff.
Qed.

Lemma fle_trans (a b c : float) :
  fle a b = true -> fle b c = true -> fle a c = true.
Proof.
  destruct a as [x|], b as [y|], c as [z|]; simpl; try discriminate.
  rewrite !Qle_bool_iff. apply Qle_trans.
Qed.

Lemma flt_fle_trans (a b c : float) :
  flt a b = true -> fle b c = true -> flt a c = true.
Proof.
  destruct a as [x|], b as [y|], c as [z|]; try discriminate.
  rewrite !flt_Fin, fle_Fin. apply Qlt_le_trans.
Qed.

Lemma py_index_nat {A} (l : list A) (i : nat) :
  py_index l (Z.of_nat i) =
  match l !! i with Some a => Ok a | None => Raise index_error end.
Proof.
  unfold py_index.
  destruct (Z.ltb_spec (Z.of_nat i) 0) as [Hneg|_]; [lia|].
  destruct (Z.ltb_spec (Z.of_nat i) 0) as [Hneg|_]; [lia|].
  now rewrite Nat2Z.id.
Qed.

Lemma py_index_0 {A} (l : list A) :
  py_index l 0 =
  match head l with Some a => Ok a | None => Raise index_error end.
Proof. now destruct l. Qed.

Lemma py_index_last {A} (l : list A) :
  py_index l (-1) =
  match last l with Some a => Ok a | None => Raise index_error end.
Proof.
  unfold py_index. change (-1 <? 0) with true. cbv iota.
  rewrite last_lookup.
  destruct l as [|a l]; [reflexivity|].
  destruct (Z.ltb_spec (-1 + Z.of_nat (length (a :: l))) 0) as [Hneg|_].
  - simpl in Hneg. lia.
  - replace (Z.to_nat (-1 + Z.of_nat (length (a :: l))))
      with (Nat.pred (length (a :: l))) by (simpl; lia).
    reflexivity.
Qed.

Lemma py_index_stamp (e : list float) :
  well_formed e -> py_index e 1 = Ok (stamp_of e).
Proof.
  unfold well_formed, stamp_of. intros Hwf.
  change 1 with (Z.of_nat 1). rewrite py_index_nat.
  destruct (e !! 1%nat) eqn:E; [reflexivity|].
  apply lookup_ge_None in E. lia.
Qed.

Lemma time_at_nat (l : list (list float)) (i : nat) (e : list float) :
  l !! i = Some e -> well_formed e ->
  time_at l (Z.of_nat i) = Ok (stamp_of e).
Proof.
  intros Hi Hwf. unfold time_at. rewrite py_index_nat, Hi. simpl.
  now apply py_index_stamp.
Qed.

Lemma time_at_head (l : list (list float)) (e : list float) :
  head l = Some e -> well_formed e -> time_at l 0 = Ok (stamp_of e).
Proof.
  intros Hh Hwf. unfold time_at. rewrite py_index_0, Hh. simpl.
  now apply py_index_stamp.
Qed.

Lemma time_at_last (l : list (list float)) (e : list float) :
  last l = Some e -> well_formed e -> time_at l (-1) = Ok (stamp_of e).
Proof.
  intros Hl Hwf. unfold time_at. rewrite py_index_last, Hl. simpl.
  now apply py_index_stamp.
Qed.

(** ** The lookup on well-formed entries *)

Lemma strip_head_wf (l : list (list float)) (e : list float) :
  head l = Some e -> well_formed e -> strip_head l = (Ok tt, l).
Proof.
  destruct l as [|x l]; [discriminate|]. intros [= ->] Hwf. simpl.
  destruct (Nat.ltb_spec (length e) 2) as [Hlt|_]; [|reflexivity].
  unfold well_formed in Hwf. lia.
Qed.

Lemma strip_tail_wf (l : list (list float)) (e : list float) :
  last l = Some e -> well_formed e -> strip_tail l = (Ok tt, l).
Proof.
  intros Hl Hwf. apply last_Some in Hl as [l' ->].
  unfold strip_tail. rewrite reverse_snoc.
  rewrite (strip_head_wf _ e); [|reflexivity|assumption].
  now rewrite <- reverse_snoc, reverse_involutive.
Qed.

Lemma first_at_or_after_found (t : float) (stamps : list float) (p : nat)
    (u : float) :
  stamps !! p = Some u -> fle t u = true ->
  (forall j v, (j < p)%nat -> stamps !! j = Some v -> fle t v = false) ->
  first_at_or_after t stamps = p.
Proof.
  intros Hp Hu Hbefore. unfold first_at_or_after.
  destruct (list_find _ stamps) as [[i v]|] eqn:E.
  - apply list_find_Some in E as (Hi & Hv & Hmin).
    destruct (Nat.lt_trichotomy i p) as [Hlt|[->|Hgt]]; [|reflexivity|].
    + rewrite (Hbefore _ _ Hlt Hi) in Hv. discriminate.
    + exfalso. exact (Hmin _ _ Hp Hgt Hu).
  - apply list_find_None in E.
    rewrite Forall_forall in E.
    exfalso. apply (E u); [|assumption].
    apply list_elem_of_lookup. eauto.
Qed.

Lemma first_at_or_after_none (t : float) (stamps : list float) :
  (forall j v, stamps !! j = Some v -> fle t v = false) ->
  first_at_or_after t stamps = (length stamps - 1)%nat.
Proof.
  intros Hall. unfold first_at_or_after.
  destruct (list_find _ stamps) as [[i v]|] eqn:E; [|reflexivity].
  apply list_find_Some in E as (Hi & Hv & _).
  rewrite (Hall _ _ Hi) in Hv. discriminate.
Qed.

Lemma scan_wf (t : float) (l : list (list float)) :
  Forall well_formed l -> l <> [] ->
  forall fuel p : nat,
    (p + fuel)%nat = length l ->
    (forall j v, (j < p)%nat -> map stamp_of l !! j = Some v ->
                 fle t v = false) ->
    scan t p fuel l =
    (Ok (Z.of_nat (first_at_or_after t (map stamp_of l))), l).
Proof.
  intros Hwf Hne fuel. induction fuel as [|fuel IH]; intros p Hlen Hbefore.
  - simpl. rewrite first_at_or_after_none.
    + rewrite length_map. destruct l; [congruence|]. simpl. f_equal. f_equal. lia.
    + intros j v Hj. apply (Hbefore j v); [|assumption].
      apply lookup_lt_Some in Hj. rewrite length_map in Hj. lia.
  - simpl. destruct (l !! p) as [e|] eqn:Hp.
    + assert (He : well_formed e)
        by (rewrite Forall_forall in Hwf; apply Hwf;
            apply list_elem_of_lookup; eauto).
      destruct (Nat.ltb_spec 1 (length e)) as [_|Hshort];
        [|unfold well_formed in He; lia].
      rewrite (py_index_stamp _ He).
      destruct (fle t (stamp_of e)) eqn:Hcmp.
      * rewrite (first_at_or_after_found t _ p (stamp_of e)); auto.
        now rewrite list_lookup_fmap, Hp.
      * apply IH; [lia|].
        intros j v Hj Hv.
        destruct (Nat.eq_dec j p) as [->|Hneq].
        -- rewrite list_lookup_fmap, Hp in Hv. now injection Hv as <-.
        -- apply (Hbefore j v); [lia|assumption].
    + apply lookup_ge_None in Hp. lia.
Qed.

Lemma find_time_index_wf (t : float) (l : list (list float))
    (adc : list (list float)) :
  Forall well_formed l ->
  find_time_index t (Buffers l adc) =
  (Ok (Z.of_nat (time_index (map stamp_of l) t)), Buffers l adc).
Proof.
  intros Hwf.
  destruct l as [|e0 l'] eqn:El; [reflexivity|].
  rewrite <- El in *.
  assert (Hne : l <> []) by (rewrite El; discriminate).
  assert (Hh : head l = Some e0) by now rewrite El.
  destruct (last l) as [en|] eqn:Hl;
    [|rewrite El in Hl; apply last_None in Hl; discriminate].
  assert (H0 : well_formed e0).
  { rewrite Forall_forall in Hwf. apply Hwf. rewrite El. left. }
  assert (Hn : well_formed en).
  { rewrite Forall_forall in Hwf. apply Hwf.
    apply last_Some in Hl as [l'' ->]. apply elem_of_app. right. left. }
  unfold find_time_index, find_time_index_body, se_try.
  unfold mbind, SE_bind, se_bind, on_bufidx, se_get, se_lift. simpl bufidx.
  rewrite (strip_head_wf _ _ Hh H0). simpl.
  rewrite (strip_tail_wf _ _ Hl Hn). simpl.
  rewrite (time_at_head _ _ Hh H0), (time_at_last _ _ Hl Hn).
  unfold time_index.
  assert (Hh' : head (map stamp_of l) = Some (stamp_of e0))
    by (rewrite El; reflexivity).
  assert (Hl' : last (map stamp_of l) = Some (stamp_of en)).
  { apply last_Some in Hl as [l'' ->]. rewrite map_app. simpl.
    apply last_snoc. }
  rewrite Hh', Hl'.
  destruct (fle (stamp_of e0) t && fle t (stamp_of en)).
  - simpl bufidx. rewrite (scan_wf t l Hwf Hne (length l) 0%nat);
      [reflexivity|lia|intros j v Hj; lia].
  - destruct (flt t (stamp_of e0)); simpl.
    + reflexivity.
    + unfold mret, SE_ret, se_ret. rewrite length_map.
      destruct l; [congruence|]. simpl. do 2 f_equal. lia.
Qed.

(** ** Rings laid out by the supervisor *)

Lemma to_buffers_wf (ring : list sample) :
  Forall well_formed (map idx_of ring).
Proof.
  apply Forall_forall. intros e He.
  apply list_elem_of_fmap in He as (r & -> & _).
  unfold well_formed, idx_of. simpl. lia.
Qed.

Lemma stamps_to_buffers (ring : list sample) :
  map stamp_of (map idx_of ring) = ring_stamps ring.
Proof. unfold ring_stamps. rewrite map_map. reflexivity. Qed.

Lemma find_time_index_ring (t : float) (ring : list sample) :
  find_time_index t (to_buffers ring) =
  (Ok (Z.of_nat (time_index (ring_stamps ring) t)), to_buffers ring).
Proof.
  unfold to_buffers. rewrite find_time_index_wf by apply to_buffers_wf.
  now rewrite stamps_to_buffers.
Qed.

Lemma first_at_or_after_lt (t : float) (stamps : list float) :
  stamps <> [] -> (first_at_or_after t stamps < length stamps)%nat.
Proof.
  intros Hne. unfold first_at_or_after.
  destruct (list_find _ stamps) as [[i v]|] eqn:E.
  - apply list_find_Some in E as (Hi & _). now apply lookup_lt_Some in Hi.
  - destruct stamps; [congruence|]. simpl. lia.
Qed.

Lemma time_index_lt (stamps : list float) (t : float) :
  stamps <> [] -> (time_index stamps t < length stamps)%nat.
Proof.
  intros Hne. unfold time_index.
  destruct (head stamps) as [first|] eqn:Hh;
    [|destruct stamps; [congruence|discriminate]].
  destruct (last stamps) as [lst|] eqn:Hl;
    [|apply last_None in Hl; congruence].
  destruct (fle first t && fle t lst).
  - now apply first_at_or_after_lt.
  - destruct stamps; [congruence|]. destruct (flt t first); simpl; lia.
Qed.

Lemma main_append_ring (bufsize : Q) (ring : list sample) (r : sample) :
  main_append bufsize (seq r) (stamp r) (values r) (to_buffers ring) =
  (Ok tt, to_buffers (append_evict bufsize ring r)).
Proof.
  unfold main_append, append_evict, to_buffers.
  unfold mbind, SE_bind, se_bind, se_get, se_put, se_lift. simpl.
  change [int_float (seq r); Fin (stamp r)] with (idx_of r).
  replace (map idx_of ring ++ [idx_of r]) with (map idx_of (ring ++ [r]))
    by (now rewrite map_app).
  replace (map values ring ++ [values r]) with (map values (ring ++ [r]))
    by (now rewrite map_app).
  assert (Hlast : last (map idx_of (ring ++ [r])) = Some (idx_of r))
    by (rewrite map_app; apply last_snoc).
  rewrite (time_at_last _ _ Hlast) by (unfold well_formed; simpl; lia).
  destruct (ring ++ [r]) as [|oldest rest] eqn:E.
  { now destruct ring. }
  rewrite (time_at_head _ (idx_of oldest)) by
    (try reflexivity; unfold well_formed; simpl; lia).
  change (stamp_of (idx_of r)) with (Fin (stamp r)).
  change (stamp_of (idx_of oldest)) with (Fin (stamp oldest)).
  simpl. destruct (Qlt_bool bufsize (stamp r - stamp oldest)); reflexivity.
Qed.

(** The oldest record is evicted exactly when the span after the append
    exceeds the window. *)
Lemma append_evict_cases (bufsize : Q) (ring : list sample) (r oldest : sample) :
  head (ring ++ [r]) = Some oldest ->
  ((bufsize < stamp r - stamp oldest)%Q /\
     append_evict bufsize ring r = tail (ring ++ [r])) \/
  ((stamp r - stamp oldest <= bufsize)%Q /\
     append_evict bufsize ring r = ring ++ [r]).
Proof.
  unfold append_evict. destruct (ring ++ [r]) as [|x rest]; [discriminate|].
  intros [= ->].
  destruct (Qlt_bool bufsize (stamp r - stamp oldest)) eqn:E.
  - left. split; [|reflexivity]. now apply (flt_Fin bufsize).
  - right. split; [|reflexivity].
    apply Qnot_lt_le. intros L. apply (flt_Fin bufsize) in L.
    simpl in L. congruence.
Qed.

(** *** C1.  The supervisor's append evicts the oldest record when the new
    span exceeds the window, but one record only: fed three samples at
    0 s, 10 s and 100 s with a window of 15 s, the ring is left holding the
    samples at 10 s and 100 s, a span of 90 s. *)
Theorem main_append_leaves_span_over_bufsize :
  let s := main_feed 15 [(0, 0%Q, []); (1, 10%Q, []); (2, 100%Q, [])]
                     (Buffers [] []) in
  bufidx s = [[int_float 1; Fin 10]; [int_float 2; Fin 100]] /\
  (last ← time_at (bufidx s) (-1);
   first ← time_at (bufidx s) 0;
   mret (flt (Fin 15) (fsub last first))) = Ok true.
Proof. split; reflexivity. Qed.

(** *** C3.  On a non-empty ring of well-formed entries with non-decreasing
    time stamps, [find_time_index t] leaves the ring as it is and returns
    the smallest subscript whose time stamp is at or after [t] when [t]
    lies between the first and the last time stamp, 0 when [t] is before
    the first, and the last subscript when [t] is after the last. *)
Theorem find_time_index_smallest_or_clamped
    (l adc : list (list float)) (t first lst : float) :
  Forall well_formed l ->
  non_decreasing (map stamp_of l) ->
  head (map stamp_of l) = Some first ->
  last (map stamp_of l) = Some lst ->
  exists i : nat,
    find_time_index t (Buffers l adc) = (Ok (Z.of_nat i), Buffers l adc) /\
    (fle first t = true -> fle t lst = true ->
       (exists u, map stamp_of l !! i = Some u /\ fle t u = true) /\
       (forall j v, (j < i)%nat -> map stamp_of l !! j = Some v ->
                    fle t v = false)) /\
    (flt t first = true -> i = 0%nat) /\
    (flt lst t = true -> i = (length l - 1)%nat).
Proof.
  intros Hwf Hmono Hh Hl.
  exists (time_index (map stamp_of l) t).
  split; [now apply find_time_index_wf|].
  unfold time_index. rewrite Hh, Hl.
  assert (Hfl : fle first lst = true).
  { rewrite head_lookup in Hh. rewrite last_lookup in Hl.
    apply (Hmono 0%nat (Nat.pred (length (map stamp_of l)))); auto. lia. }
  split; [|split].
  - intros H1 H2. rewrite H1, H2. simpl.
    unfold first_at_or_after.
    destruct (list_find _ (map stamp_of l)) as [[i u]|] eqn:E.
    + apply list_find_Some in E as (Hi & Hu & Hmin). split; [eauto|].
      intros j v Hj Hv. specialize (Hmin j v Hv Hj).
      now destruct (fle t v).
    + apply list_find_None in E. rewrite Forall_forall in E.
      exfalso. apply (E lst); [|assumption].
      now apply last_Some_elem_of.
  - intros Hlt. rewrite (flt_fle_false _ _ Hlt). simpl. now rewrite Hlt.
  - intros Hgt. rewrite (flt_fle_false _ _ Hgt), andb_false_r.
    destruct (flt t first) eqn:Hlt; [|now rewrite length_map].
    pose proof (flt_fle_trans _ _ _ Hlt Hfl) as Hcontra.
    destruct t as [a|], lst as [b|]; try discriminate.
    apply flt_Fin in Hcontra, Hgt. lra.
Qed.

Lemma find_time_index_smallest_or_clamped_witness :
  exists i : nat,
    find_time_index (Fin 0.5) (to_buffers example_ring) =
      (Ok (Z.of_nat i), to_buffers example_ring) /\
    (fle (Fin 0) (Fin 0.5) = true -> fle (Fin 0.5) (Fin 2) = true ->
       (exists u, ring_stamps example_ring !! i = Some u /\
                  fle (Fin 0.5) u = true) /\
       (forall j v, (j < i)%nat -> ring_stamps example_ring !! j = Some v ->
                    fle (Fin 0.5) v = false)) /\
    (flt (Fin 0.5) (Fin 0) = true -> i = 0%nat) /\
    (flt (Fin 2) (Fin 0.5) = true -> i = 2%nat).
Proof.
  apply (find_time_index_smallest_or_clamped
           (map idx_of example_ring) (map values example_ring)
           (Fin 0.5) (Fin 0) (Fin 2)).
  - apply to_buffers_wf.
  - intros i j u v Hij Hi Hj.
    destruct i as [|[|[|i]]]; destruct j as [|[|[|j]]];
      simpl in Hi, Hj; try discriminate; try lia;
      injection Hi as <-; injection Hj as <-; reflexivity.
  - reflexivity.
  - reflexivity.
Defined.

(** ** The lookup never raises *)

Lemma py_index_raise {A} (l : list A) (i : Z) (e : exn) :
  py_index l i = Raise e -> e = index_error.
Proof.
  unfold py_index.
  destruct (_ <? 0); [now intros [= <-]|].
  destruct (l !! _); [discriminate|now intros [= <-]].
Qed.

Lemma time_at_raise (l : list (list float)) (i : Z) (e : exn) :
  time_at l i = Raise e -> e = index_error.
Proof.
  unfold time_at. destruct (py_index l i) as [x|e'] eqn:E; simpl.
  - apply py_index_raise.
  - intros [= <-]. exact (py_index_raise _ _ _ E).
Qed.

Lemma strip_head_raise (l l' : list (list float)) (e : exn) :
  strip_head l = (Raise e, l') -> e = index_error.
Proof.
  induction l as [|x l IH]; simpl.
  - now intros [= <- _].
  - destruct (length x <? 2)%nat; [exact IH|discriminate].
Qed.

Lemma strip_tail_raise (l l' : list (list float)) (e : exn) :
  strip_tail l = (Raise e, l') -> e = index_error.
Proof.
  unfold strip_tail. destruct (strip_head (reverse l)) as [r l0] eqn:E.
  intros [= -> _]. exact (strip_head_raise _ _ _ E).
Qed.

Lemma scan_raise (t : float) (fuel : nat) :
  forall (p : nat) (l l' : list (list float)) (e : exn),
    scan t p fuel l = (Raise e, l') -> e = index_error.
Proof.
  induction fuel as [|fuel IH]; intros p l l' e; simpl; [discriminate|].
  destruct (l !! p) as [x|]; [|now intros [= <- _]].
  destruct (1 <? length x)%nat; [|apply IH].
  destruct (py_index x 1) as [tp|e'] eqn:E.
  - destruct (fle t tp); [discriminate|apply IH].
  - intros [= <- _]. exact (py_index_raise _ _ _ E).
Qed.

Lemma find_time_index_body_raise (t : float) (b b' : buffers) (e : exn) :
  find_time_index_body t b = (Raise e, b') -> e = index_error.
Proof.
  unfold find_time_index_body.
  unfold mbind, mret, SE_bind, SE_ret, se_bind, se_ret, on_bufidx, se_get,
    se_lift.
  destruct (strip_head (bufidx b)) as [[[]|e1] l1] eqn:E1.
  2: { intros [= <- _]. exact (strip_head_raise _ _ _ E1). }
  simpl bufidx.
  destruct (strip_tail l1) as [[[]|e2] l2] eqn:E2.
  2: { intros [= <- _]. exact (strip_tail_raise _ _ _ E2). }
  simpl bufidx.
  destruct (time_at l2 0) as [first|e3] eqn:E3.
  2: { intros [= <- _]. exact (time_at_raise _ _ _ E3). }
  destruct (time_at l2 (-1)) as [lst|e4] eqn:E4.
  2: { intros [= <- _]. exact (time_at_raise _ _ _ E4). }
  destruct (fle first t && fle t lst).
  - simpl bufidx.
    destruct (scan t 0 (length l2) l2) as [[i|e5] l3] eqn:E5; [discriminate|].
    intros [= <- _]. exact (scan_raise _ _ _ _ _ _ E5).
  - destruct (flt t first); discriminate.
Qed.

Lemma find_time_index_total (t : float) (b : buffers) :
  exists (i : Z) (b' : buffers), find_time_index t b = (Ok i, b').
Proof.
  unfold find_time_index, se_try.
  destruct (find_time_index_body t b) as [[i|e] b'] eqn:E; [eauto|].
  apply find_time_index_body_raise in E as ->. simpl. eauto.
Qed.

(** *** C9.  On the empty ring the lookup's body raises [IndexError], which
    [find_time_index] catches: it returns 0 for every [t] and leaves the
    buffers as they are; and the data handler's [:DATA:READ?], the one
    query that reaches the lookup on an empty ring, ends normally with its
    [OK] and no record.  (On any buffers at all the lookup returns a
    subscript: [find_time_index_total].) *)
Theorem find_time_index_empty_ring (t : float) (adc : list (list float)) :
  find_time_index_body t (Buffers [] adc) =
    (Raise index_error, Buffers [] adc) /\
  find_time_index t (Buffers [] adc) = (Ok 0, Buffers [] adc) /\
  (forall (sensors : list Sensor) (py_format : string -> float -> string)
          (py_float : string -> option float) (fields : list string),
      data_read sensors py_format py_float fields (Buffers [] adc) =
      (Ok ["OK"], Buffers [] adc)).
Proof.
  split; [reflexivity|]. split; [reflexivity|].
  intros sensors py_format py_float fields.
  destruct fields as [|f0 [|f1 [|f2 rest]]]; reflexivity.
Qed.

(** ** Time reset *)

Lemma shift_times_ring (delta : Q) (ring : list sample) :
  shift_times (Fin delta) (map idx_of ring) =
  (Ok tt, map idx_of (map (shift_sample delta) ring)).
Proof.
  induction ring as [|r ring IH]; [reflexivity|].
  simpl. rewrite IH. reflexivity.
Qed.

Lemma time_rst_ring (py_float : string -> option float) (resp : string)
    (delta : Q) (ring : list sample) :
  py_float resp = Some (Fin delta) ->
  time_rst py_float resp (to_buffers ring) =
  (Ok tt, to_buffers (map (shift_sample delta) ring)).
Proof.
  intros Hresp. unfold time_rst, time_offset, on_bufidx, to_buffers.
  rewrite Hresp. simpl bufidx. rewrite shift_times_ring.
  unfold set_bufidx. simpl.
  now rewrite (map_map (shift_sample delta) values).
Qed.

(** *** C2.  A request whose first token is [:CMD:TIME:RST] is forwarded to
    the DAQ worker in upper case; when the worker's reply [resp] reads as
    the offset [delta], the handler leaves every record of the ring with
    its time stamp lowered by [delta] (whatever its sign becomes), its
    sequence number and its channel values untouched, and sends the client
    exactly [resp]. *)
Theorem time_rst_shifts_every_stamp
    (sensors : list Sensor) (py_format : string -> float -> string)
    (py_float : string -> option float)
    (find_peaks : list float -> float -> Q -> result (list Z))
    (arg_verbose : bool) (arg_bufsize : float) (script_ver : string)
    (daq : list request -> string) (addr data : string)
    (w : server) (ring : list sample) (delta : Q) :
  bufs w = to_buffers ring ->
  head (tokens (strip data)) = Some ":CMD:TIME:RST" ->
  let req := Request (upper (strip data)) (resp_Qn (handler_cmd w))
                     (wait (handler_cmd w)) in
  let resp := daq (cmd_Q w ++ [req]) in
  py_float resp = Some (Fin delta) ->
  exists w' : server,
    serve_request sensors py_format py_float find_peaks arg_verbose
                  arg_bufsize script_ver daq addr data w = (Ok tt, w') /\
    cmd_Q w' = cmd_Q w ++ [req] /\
    sent w' = sent w ++ [resp] /\
    length (bufidx (bufs w')) = length ring /\
    (forall (i : nat) (r : sample),
        ring !! i = Some r ->
        bufidx (bufs w') !! i =
          Some [int_float (seq r); Fin (stamp r - delta)] /\
        bufadc (bufs w') !! i = Some (values r)) /\
    bufadc (bufs w') = bufadc (bufs w).
Proof.
  intros Hbufs Hhead req resp Hresp.
  destruct w as [b cq mq eq fq cl te sn sc hc]. simpl in *. subst b.
  unfold serve_request.
  destruct (tokens (strip data)) as [|f0 rest]; [discriminate|].
  injection Hhead as ->.
  unfold mbind at 1, SE_bind, se_bind at 1, se_lift. simpl py_index.
  cbn [String.eqb Ascii.eqb Bool.eqb].
  unfold set_cmd_text, submit, set_cmd, cmd_put, sendall, on_bufs.
  unfold mbind, mret, SE_bind, SE_ret, se_bind, se_ret, se_get, se_modify.
  simpl.
  fold req. fold resp.
  rewrite (time_rst_ring py_float resp delta ring Hresp).
  eexists. split; [reflexivity|]. simpl.
  split; [reflexivity|]. split; [reflexivity|].
  split; [now rewrite !length_map|].
  split; [|now rewrite (map_map (shift_sample delta) values)].
  intros i r Hi. rewrite !list_lookup_fmap, Hi. simpl. now split.
Qed.

Lemma time_rst_shifts_every_stamp_witness :
  exists w' : server,
    serve_request example_sensors example_format example_float
                  example_find_peaks true (Fin 1200) "1.0"
                  (fun _ => "50.0") "client" ":cmd:time:rst"
                  (example_server [0]) = (Ok tt, w') /\
    cmd_Q w' = [Request ":CMD:TIME:RST" 0 (Fin 0)] /\
    sent w' = ["50.0"] /\
    length (bufidx (bufs w')) = length example_ring /\
    (forall (i : nat) (r : sample),
        example_ring !! i = Some r ->
        bufidx (bufs w') !! i =
          Some [int_float (seq r); Fin (stamp r - 50)] /\
        bufadc (bufs w') !! i = Some (values r)) /\
    bufadc (bufs w') = bufadc (to_buffers example_ring).
Proof.
  exact (time_rst_shifts_every_stamp
           example_sensors example_format example_float example_find_peaks
           true (Fin 1200) "1.0" (fun _ => "50.0") "client"
           ":cmd:time:rst" (example_server [0]) example_ring 50
           eq_refl eq_refl eq_refl).
Defined.

(** ** Slices and windows *)

Lemma py_bound_nat (n i : nat) : py_bound n (Z.of_nat i) = Nat.min i n.
Proof.
  unfold py_bound.
  destruct (Z.ltb_spec (Z.of_nat i) 0) as [Hneg|_]; lia.
Qed.

Lemma py_slice_window {A} (l : list A) (p0 p1 : nat) :
  (p1 < length l)%nat ->
  py_slice l (Z.of_nat p0) (Z.of_nat p1 + 1) = window l p0 p1.
Proof.
  intros Hp1. unfold py_slice, window.
  replace (Z.of_nat p1 + 1) with (Z.of_nat (S p1)) by lia.
  rewrite !py_bound_nat.
  rewrite (Nat.min_l (S p1)) by lia.
  destruct (Nat.le_gt_cases p0 (length l)) as [Hle|Hgt].
  - now rewrite Nat.min_l.
  - rewrite Nat.min_r by lia.
    rewrite !drop_ge by lia. now rewrite !take_nil.
Qed.

Lemma window_single {A} (l : list A) (p : nat) (a : A) :
  l !! p = Some a -> window l p p = [a].
Proof.
  intros Hp. unfold window. replace (S p - p)%nat with 1%nat by lia.
  rewrite (drop_S _ _ _ Hp). reflexivity.
Qed.

Lemma window_map {A B} (f : A -> B) (l : list A) (p0 p1 : nat) :
  window (map f l) p0 p1 = map f (window l p0 p1).
Proof. unfold window. now rewrite <- fmap_drop, <- fmap_take. Qed.

(** ** The median over a window *)

Lemma np_median_single (x : float) : np_median [x] = x.
Proof. now destruct x. Qed.

(** The median read off a ring of records: the window runs from the
    subscript found for the start time to the end subscript. *)
Lemma median_avg_ring (ring : list sample) (s p1 : nat) (period : float)
    (r : sample) :
  ring !! p1 = Some r ->
  median_avg (Z.of_nat s) (Z.of_nat p1) period (to_buffers ring) =
  (X ← rmap (fun v => py_index v (Z.of_nat s))
            (map values
               (window ring
                  (time_index (ring_stamps ring)
                              (fsub (Fin (stamp r)) period)) p1));
   mret (np_median X),
   to_buffers ring).
Proof.
  intros Hp1. unfold median_avg.
  unfold mbind at 1, SE_bind, se_bind at 1, se_get.
  unfold mbind at 1, se_bind at 1, se_lift.
  assert (Ht : time_at (bufidx (to_buffers ring)) (Z.of_nat p1) =
               Ok (Fin (stamp r))).
  { apply (time_at_nat _ _ (idx_of r)).
    - simpl. now rewrite list_lookup_fmap, Hp1.
    - unfold well_formed. simpl. lia. }
  rewrite Ht.
  unfold mbind at 1, se_bind at 1.
  rewrite find_time_index_ring.
  set (p0 := time_index _ _).
  destruct (Z.eqb_spec (Z.of_nat p0) (-1)) as [Heq|_]; [lia|].
  unfold mbind at 1, se_bind at 1, se_get.
  unfold mbind at 1, se_bind at 1, se_lift.
  simpl bufadc.
  rewrite py_slice_window
    by (rewrite length_map; now apply lookup_lt_Some in Hp1).
  rewrite window_map.
  destruct (rmap _ _); reflexivity.
Qed.

Lemma flt_fle (a b : float) : flt a b = true -> fle a b = true.
Proof.
  destruct a as [x|], b as [y|]; try discriminate.
  rewrite flt_Fin, fle_Fin. apply Qlt_le_weak.
Qed.

Lemma increasing_non_decreasing (stamps : list float) :
  Forall (fun u => is_nan u = false) stamps ->
  increasing stamps -> non_decreasing stamps.
Proof.
  intros Hfin Hinc i j u v Hij Hi Hj.
  destruct (Nat.eq_dec i j) as [->|Hne].
  - rewrite Hi in Hj. injection Hj as <-.
    rewrite Forall_forall in Hfin.
    assert (Hu : is_nan u = false)
      by (apply Hfin; apply list_elem_of_lookup; eauto).
    destruct u; [|discriminate]. apply fle_Fin. apply Qle_refl.
  - apply flt_fle. apply (Hinc i j); auto. lia.
Qed.

Lemma ring_stamps_finite (ring : list sample) :
  Forall (fun u => is_nan u = false) (ring_stamps ring).
Proof.
  apply Forall_forall. intros u Hu.
  apply list_elem_of_fmap in Hu as (r & -> & _). reflexivity.
Qed.

Lemma ring_stamps_lookup (ring : list sample) (i : nat) :
  ring_stamps ring !! i = (fun r => Fin (stamp r)) <$> ring !! i.
Proof. unfold ring_stamps. apply list_lookup_fmap. Qed.

(** In a ring of increasing time stamps, the subscript found for the time
    stamp of a record is the subscript of that record. *)
Lemma time_index_of_stamp (ring : list sample) (p : nat) (r : sample)
    (t : Q) :
  increasing (ring_stamps ring) ->
  ring !! p = Some r -> (t == stamp r)%Q ->
  time_index (ring_stamps ring) (Fin t) = p.
Proof.
  intros Hinc Hp Ht.
  pose proof (increasing_non_decreasing _ (ring_stamps_finite ring) Hinc)
    as Hmono.
  assert (Hsp : ring_stamps ring !! p = Some (Fin (stamp r)))
    by (now rewrite ring_stamps_lookup, Hp).
  unfold time_index.
  destruct (head (ring_stamps ring)) as [first|] eqn:Hh.
  2: { rewrite head_lookup in Hh. apply lookup_lt_Some in Hsp.
       apply lookup_ge_None in Hh. lia. }
  destruct (last (ring_stamps ring)) as [lst|] eqn:Hl.
  2: { apply last_None in Hl. rewrite Hl in Hsp. discriminate. }
  assert (H1 : fle first (Fin t) = true).
  { rewrite head_lookup in Hh.
    pose proof (Hmono 0%nat p _ _ (Nat.le_0_l p) Hh Hsp) as H.
    destruct first as [f|]; [|discriminate].
    apply fle_Fin in H. apply fle_Fin. lra. }
  assert (H2 : fle (Fin t) lst = true).
  { rewrite last_lookup in Hl.
    assert (Hle : (p <= Nat.pred (length (ring_stamps ring)))%nat)
      by (apply lookup_lt_Some in Hsp; lia).
    pose proof (Hmono p _ _ _ Hle Hsp Hl) as H.
    destruct lst as [f|]; [|discriminate].
    apply fle_Fin in H. apply fle_Fin. lra. }
  rewrite H1, H2. simpl.
  apply (first_at_or_after_found _ _ p (Fin (stamp r))); auto.
  - apply fle_Fin. lra.
  - intros j v Hj Hv.
    pose proof (Hinc j p _ _ Hj Hv Hsp) as H.
    destruct v as [f|]; [|reflexivity].
    apply flt_Fin in H.
    destruct (fle (Fin t) (Fin f)) eqn:E; [|reflexivity].
    apply fle_Fin in E. lra.
Qed.

Lemma median_avg_zero_ring (ring : list sample) (s p : nat) (r : sample)
    (z : Q) :
  increasing (ring_stamps ring) ->
  ring !! p = Some r -> (z == 0)%Q ->
  median_avg (Z.of_nat s) (Z.of_nat p) (Fin z) (to_buffers ring) =
  (py_index (values r) (Z.of_nat s), to_buffers ring).
Proof.
  intros Hinc Hp Hz.
  rewrite (median_avg_ring ring s p (Fin z) r Hp).
  simpl fsub.
  rewrite (time_index_of_stamp ring p r) by (auto; lra).
  rewrite (window_single _ _ _ Hp). simpl.
  destruct (py_index (values r) (Z.of_nat s)) as [v|e]; simpl;
    [now rewrite np_median_single|reflexivity].
Qed.

(** ** Stepping through monadic code *)

Section Steps.
Context {S : Type}.

Lemma reads_lift {A} (r : result A) : reads (@se_lift S A r).
Proof. now intros s. Qed.

Lemma reads_get : reads (@se_get S).
Proof. now intros s. Qed.

Lemma reads_ret {A} (a : A) : reads (@se_ret S A a).
Proof. now intros s. Qed.

Lemma reads_bind {A B} (m : SE S A) (k : A -> SE S B) :
  reads m -> (forall a, reads (k a)) -> reads (se_bind m k).
Proof.
  intros Hm Hk s. unfold se_bind. specialize (Hm s).
  destruct (m s) as [[a|e] s']; simpl in *; subst; [apply Hk|reflexivity].
Qed.

Lemma reads_try {A} (m : SE S A) (h : exn -> SE S A) :
  reads m -> (forall e, reads (h e)) -> reads (se_try m h).
Proof.
  intros Hm Hh s. unfold se_try. specialize (Hm s).
  destruct (m s) as [[a|e] s']; simpl in *; subst; [reflexivity|apply Hh].
Qed.

Lemma se_bind_ext {A B} (m : SE S A) (k1 k2 : A -> SE S B) (s : S) :
  reads m ->
  (forall a, m s = (Ok a, s) -> k1 a s = k2 a s) ->
  se_bind m k1 s = se_bind m k2 s.
Proof.
  intros Hm H. unfold se_bind. specialize (Hm s).
  destruct (m s) as [[a|e] s']; simpl in *; subst; auto.
Qed.

Lemma se_bind_known {A B} (m : SE S A) (k : A -> SE S B) (s s' : S)
    (r : result A) :
  m s = (r, s') ->
  se_bind m k s = match r with Ok a => k a s' | Raise e => (Raise e, s') end.
Proof. intros H. unfold se_bind. now rewrite H. Qed.

Lemma se_bind_lift {A B} (r : result A) (k : A -> SE S B) (s : S) :
  se_bind (se_lift r) k s =
  match r with Ok a => k a s | Raise e => (Raise e, s) end.
Proof. reflexivity. Qed.

Lemma se_bind_get {B} (k : S -> SE S B) (s : S) :
  se_bind se_get k s = k s s.
Proof. reflexivity. Qed.

Lemma se_bind_ret {A B} (a : A) (k : A -> SE S B) (s : S) :
  se_bind (se_ret a) k s = k a s.
Proof. reflexivity. Qed.

Lemma se_try_ext {A} (m1 m2 : SE S A) (h : exn -> SE S A) (s : S) :
  m1 s = m2 s -> se_try m1 h s = se_try m2 h s.
Proof. intros H. unfold se_try. now rewrite H. Qed.
End Steps.

Ltac solve_reads :=
  repeat first
    [ apply reads_lift | apply reads_get | apply reads_ret
    | apply reads_bind | apply reads_try
    | match goal with
      | |- reads (if ?c then _ else _) => destruct c
      | |- reads (match ?c with _ => _ end) => destruct c
      | |- forall _, reads _ => intro
      end ].

Lemma median_avg_out_of_ring (ring : list sample) (s p1 : nat)
    (period : float) :
  ring !! p1 = None ->
  median_avg (Z.of_nat s) (Z.of_nat p1) period (to_buffers ring) =
  (Raise index_error, to_buffers ring).
Proof.
  intros Hp1. unfold median_avg, mbind, SE_bind.
  rewrite se_bind_get, se_bind_lift.
  unfold time_at. rewrite py_index_nat. simpl bufidx.
  now rewrite list_lookup_fmap, Hp1.
Qed.

Lemma cmd_read_zero (sensors : list Sensor)
    (py_format : string -> float -> string)
    (py_float : string -> option float) (ring : list sample)
    (kw lbl time zero : string) (q : Q) :
  increasing (ring_stamps ring) ->
  conv_float py_float zero = Fin q -> (q == 0)%Q ->
  cmd_read sensors py_format py_float [kw; lbl; time; zero]
           (to_buffers ring) =
  cmd_read sensors py_format py_float [kw; lbl; time] (to_buffers ring).
Proof.
  intros Hinc Hzero Hq.
  unfold cmd_read. apply se_try_ext.
  unfold mbind, mret, SE_bind, SE_ret.
  change (py_index [kw; lbl; time; zero] 1) with (Ok lbl).
  change (py_index [kw; lbl; time] 1) with (Ok lbl).
  rewrite !se_bind_lift. cbv beta iota.
  apply se_bind_ext; [solve_reads|]. intros response _.
  destruct (label_index sensors lbl) as [sns|]; [|reflexivity].
  rewrite !se_bind_get.
  change (2 <? length [kw; lbl; time; zero])%nat with true.
  change (2 <? length [kw; lbl; time])%nat with true.
  change (py_index [kw; lbl; time; zero] 2) with (Ok time).
  change (py_index [kw; lbl; time] 2) with (Ok time).
  cbv iota.
  apply se_bind_ext; [solve_reads|]. intros t _.
  apply se_bind_ext; [solve_reads|]. intros first _.
  apply se_bind_ext; [solve_reads|]. intros in_range _.
  destruct in_range; [|reflexivity].
  rewrite !(se_bind_known _ _ _ _ _ (find_time_index_ring t ring)).
  set (pos := time_index (ring_stamps ring) t).
  rewrite !se_bind_lift.
  destruct (sensor_at sensors sns) as [s|e]; [|reflexivity].
  change (3 <? length [kw; lbl; time; zero])%nat with true.
  change (3 <? length [kw; lbl; time])%nat with false.
  change (py_index [kw; lbl; time; zero] 3) with (Ok zero).
  cbv iota. rewrite se_bind_lift, se_bind_get, Hzero.
  destruct (ring !! pos) as [r|] eqn:Hpos.
  - rewrite (se_bind_known _ _ _ _ _
               (median_avg_zero_ring ring sns pos r q Hinc Hpos Hq)).
    rewrite se_bind_lift. simpl bufadc.
    rewrite (py_index_nat (map values ring)), list_lookup_fmap, Hpos.
    reflexivity.
  - rewrite (se_bind_known _ _ _ _ _
               (median_avg_out_of_ring ring sns pos (Fin q) Hpos)).
    rewrite se_bind_lift. simpl bufadc.
    rewrite (py_index_nat (map values ring)), list_lookup_fmap, Hpos.
    reflexivity.
Qed.

(** *** C6.  On a ring of increasing time stamps, the median over a window
    of length 0 ending at a record is the stored value [bufadc[p][s]] of
    that record, for every channel [s] (and raises as that subscript does
    when the record has no such channel); so [:CMD:READ?] with an averaging
    window of 0 gives the reply of the same request without a window. *)
Theorem median_avg_zero_window_is_point_read
    (sensors : list Sensor) (py_format : string -> float -> string)
    (py_float : string -> option float) (ring : list sample) :
  increasing (ring_stamps ring) ->
  (forall (p s : nat) (r : sample),
      ring !! p = Some r ->
      median_avg (Z.of_nat s) (Z.of_nat p) (Fin 0) (to_buffers ring) =
      (record ← py_index (bufadc (to_buffers ring)) (Z.of_nat p);
       py_index record (Z.of_nat s),
       to_buffers ring)) /\
  (forall (kw lbl time zero : string) (q : Q),
      conv_float py_float zero = Fin q -> (q == 0)%Q ->
      cmd_read sensors py_format py_float [kw; lbl; time; zero]
               (to_buffers ring) =
      cmd_read sensors py_format py_float [kw; lbl; time]
               (to_buffers ring)).
Proof.
  intros Hinc. split.
  - intros p s r Hp.
    rewrite (median_avg_zero_ring ring s p r 0 Hinc Hp) by reflexivity.
    simpl bufadc.
    now rewrite (py_index_nat (map values ring)), list_lookup_fmap, Hp.
  - intros kw lbl time zero q Hzero Hq. now apply cmd_read_zero with q.
Qed.

Lemma example_ring_increasing : increasing (ring_stamps example_ring).
Proof.
  intros i j u v Hij Hi Hj.
  destruct i as [|[|[|i]]]; destruct j as [|[|[|j]]];
    simpl in Hi, Hj; try discriminate; try lia;
    injection Hi as <-; injection Hj as <-; reflexivity.
Defined.

Lemma median_avg_zero_window_is_point_read_witness :
  (forall (p s : nat) (r : sample),
      example_ring !! p = Some r ->
      median_avg (Z.of_nat s) (Z.of_nat p) (Fin 0)
                 (to_buffers example_ring) =
      (record ← py_index (bufadc (to_buffers example_ring)) (Z.of_nat p);
       py_index record (Z.of_nat s),
       to_buffers example_ring)) /\
  (forall (kw lbl time zero : string) (q : Q),
      conv_float example_float zero = Fin q -> (q == 0)%Q ->
      cmd_read example_sensors example_format example_float
               [kw; lbl; time; zero] (to_buffers example_ring) =
      cmd_read example_sensors example_format example_float
               [kw; lbl; time] (to_buffers example_ring)).
Proof.
  exact (median_avg_zero_window_is_point_read
           example_sensors example_format example_float example_ring
           example_ring_increasing).
Defined.

(** ** The historical dump *)

Lemma rmap_map {A B C} (f : B -> result C) (g : A -> B) (l : list A) :
  rmap f (map g l) = rmap (fun x => f (g x)) l.
Proof.
  induction l as [|a l IH]; [reflexivity|]. simpl. now rewrite IH.
Qed.

Lemma zip_map_same {A B C} (f : A -> B) (g : A -> C) (l : list A) :
  zip (map f l) (map g l) = map (fun x => (f x, g x)) l.
Proof.
  induction l as [|a l IH]; [reflexivity|]. simpl. now rewrite IH.
Qed.

Lemma datarec_window (sensors : list Sensor)
    (py_format : string -> float -> string) (ring : list sample)
    (p0 p1 : nat) :
  rmap (datarec sensors py_format)
       (zip (window (map idx_of ring) p0 p1)
            (window (map values ring) p0 p1)) =
  rmap (sample_line sensors py_format) (window ring p0 p1).
Proof.
  rewrite !window_map, zip_map_same, rmap_map. reflexivity.
Qed.

Lemma py_slice_ring_window {A} (l : list A) (p0 p1 : nat) :
  (l = [] \/ (p1 < length l)%nat) ->
  py_slice l (Z.of_nat p0) (Z.of_nat p1 + 1) = window l p0 p1.
Proof.
  intros [->|Hp1]; [|now apply py_slice_window].
  unfold py_slice, window. now rewrite !drop_nil, !take_nil.
Qed.

Lemma time_index_in_ring (ring : list sample) (t : float) :
  ring = [] \/ (time_index (ring_stamps ring) t < length ring)%nat.
Proof.
  destruct ring as [|r ring]; [now left|right].
  pose proof (time_index_lt (ring_stamps (r :: ring)) t) as H.
  replace (length (ring_stamps (r :: ring))) with (length (r :: ring)) in H
    by (unfold ring_stamps; now rewrite length_map).
  apply H. discriminate.
Qed.

Lemma data_read_lines (lines : result (list string)) (b : buffers) :
  se_try (databuf ← se_lift lines; mret (databuf ++ ["OK"]))
         (fun e => mret [err_reply e]) b =
  (Ok (reply_lines lines), b).
Proof. now destruct lines. Qed.

Lemma data_read_two (sensors : list Sensor)
    (py_format : string -> float -> string)
    (py_float : string -> option float) (ring : list sample)
    (kw sa sb : string) :
  data_read sensors py_format py_float [kw; sa; sb] (to_buffers ring) =
  (Ok (reply_lines
         (rmap (sample_line sensors py_format)
               (window ring
                  (time_index (ring_stamps ring) (conv_float py_float sa))
                  (time_index (ring_stamps ring) (conv_float py_float sb))))),
   to_buffers ring).
Proof.
  rewrite <- data_read_lines.
  unfold data_read. apply se_try_ext.
  unfold mbind, mret, SE_bind, SE_ret.
  rewrite se_bind_get.
  change (1 <? length [kw; sa; sb])%nat with true.
  change (2 <? length [kw; sa; sb])%nat with true.
  change (py_index [kw; sa; sb] 1) with (Ok sa).
  change (py_index [kw; sa; sb] 2) with (Ok sb).
  cbv iota.
  unfold se_bind, se_lift, se_get, se_ret. cbv beta iota.
  rewrite find_time_index_ring. cbv beta iota.
  rewrite find_time_index_ring. cbv beta iota.
  simpl bufidx. simpl bufadc.
  pose proof (time_index_in_ring ring (conv_float py_float sb)) as Hp1.
  rewrite !py_slice_ring_window
    by (rewrite length_map; destruct Hp1 as [->|Hp1]; [now left|now right]).
  rewrite datarec_window. reflexivity.
Qed.

Lemma data_read_one (sensors : list Sensor)
    (py_format : string -> float -> string)
    (py_float : string -> option float) (ring : list sample)
    (kw sa : string) :
  let p := time_index (ring_stamps ring) (conv_float py_float sa) in
  data_read sensors py_format py_float [kw; sa] (to_buffers ring) =
  (Ok (reply_lines (rmap (sample_line sensors py_format)
                         (window ring p p))),
   to_buffers ring).
Proof.
  intros p. rewrite <- data_read_lines.
  unfold data_read. apply se_try_ext.
  unfold mbind, mret, SE_bind, SE_ret.
  rewrite se_bind_get.
  change (1 <? length [kw; sa])%nat with true.
  change (2 <? length [kw; sa])%nat with false.
  change (py_index [kw; sa] 1) with (Ok sa).
  cbv iota.
  unfold se_bind, se_lift, se_get, se_ret. cbv beta iota.
  rewrite find_time_index_ring. cbv beta iota.
  simpl bufidx. simpl bufadc. fold p.
  pose proof (time_index_in_ring ring (conv_float py_float sa)) as Hp1.
  rewrite !py_slice_ring_window
    by (rewrite length_map; destruct Hp1 as [->|Hp1]; [now left|now right]).
  rewrite datarec_window. reflexivity.
Qed.

Lemma data_read_none (sensors : list Sensor)
    (py_format : string -> float -> string)
    (py_float : string -> option float) (ring : list sample)
    (kw : string) (r : sample) :
  last ring = Some r ->
  data_read sensors py_format py_float [kw] (to_buffers ring) =
  (Ok (reply_lines (rmap (sample_line sensors py_format) [r])),
   to_buffers ring).
Proof.
  intros Hlast. rewrite <- data_read_lines.
  unfold data_read. apply se_try_ext.
  unfold mbind, mret, SE_bind, SE_ret.
  rewrite se_bind_get.
  change (1 <? length [kw])%nat with false.
  change (2 <? length [kw])%nat with false.
  cbv iota.
  unfold se_bind, se_lift, se_get, se_ret. cbv beta iota.
  simpl bufidx. simpl bufadc. rewrite length_map.
  apply last_Some in Hlast as [ring' ->].
  replace (Z.of_nat (length (ring' ++ [r])) - 1)
    with (Z.of_nat (length ring')) by (rewrite length_app; simpl; lia).
  replace (Z.of_nat (length (ring' ++ [r])))
    with (Z.of_nat (length ring') + 1) by (rewrite length_app; simpl; lia).
  rewrite !py_slice_window by (rewrite length_map, length_app; simpl; lia).
  rewrite datarec_window.
  rewrite (window_single _ _ r); [reflexivity|].
  rewrite lookup_app_r by lia. now rewrite Nat.sub_diag.
Qed.

Lemma ring_monotone (ring : list sample) (i j : nat) (r r' : sample) :
  non_decreasing (ring_stamps ring) ->
  (i <= j)%nat -> ring !! i = Some r -> ring !! j = Some r' ->
  (stamp r <= stamp r')%Q.
Proof.
  intros Hmono Hij Hi Hj. apply fle_Fin.
  apply (Hmono i j); auto; now rewrite ring_stamps_lookup, ?Hi, ?Hj.
Qed.

Lemma first_at_or_after_le (t : float) (stamps : list float) (i : nat)
    (u : float) :
  stamps !! i = Some u -> fle t u = true ->
  (first_at_or_after t stamps <= i)%nat.
Proof.
  intros Hi Hu. unfold first_at_or_after.
  destruct (list_find _ stamps) as [[j v]|] eqn:E.
  - apply list_find_Some in E as (_ & _ & Hmin).
    destruct (Nat.le_gt_cases j i) as [Hle|Hgt]; [assumption|].
    exfalso. exact (Hmin _ _ Hi Hgt Hu).
  - apply list_find_None in E. rewrite Forall_forall in E.
    exfalso. apply (E u); [|assumption].
    apply list_elem_of_lookup. eauto.
Qed.

Lemma time_index_covers (ring : list sample) (a b : float) (i : nat)
    (r : sample) :
  non_decreasing (ring_stamps ring) ->
  ring !! i = Some r ->
  fle a (Fin (stamp r)) = true -> flt (Fin (stamp r)) b = true ->
  (time_index (ring_stamps ring) a <= i <=
   time_index (ring_stamps ring) b)%nat.
Proof.
  intros Hmono Hi Ha Hb.
  destruct a as [qa|]; [|discriminate]. destruct b as [qb|]; [|discriminate].
  apply fle_Fin in Ha. apply flt_Fin in Hb.
  assert (Hsi : ring_stamps ring !! i = Some (Fin (stamp r)))
    by (now rewrite ring_stamps_lookup, Hi).
  assert (Hlen : (i < length (ring_stamps ring))%nat)
    by (now apply lookup_lt_Some in Hsi).
  destruct ring as [|r0 ring'] eqn:Ering; [discriminate|]. rewrite <- Ering in *.
  assert (H0 : ring !! 0%nat = Some r0) by (now rewrite Ering).
  destruct (last ring) as [rn|] eqn:Hlast;
    [|apply last_None in Hlast; congruence].
  assert (Hn : ring !! Nat.pred (length ring) = Some rn)
    by (now rewrite <- last_lookup).
  assert (Hlen' : length (ring_stamps ring) = length ring)
    by (unfold ring_stamps; now rewrite length_map).
  pose proof (ring_monotone ring 0 i r0 r Hmono (Nat.le_0_l i) H0 Hi) as Hfirst.
  assert (Hlst : (stamp r <= stamp rn)%Q).
  { apply (ring_monotone ring i (Nat.pred (length ring)) r rn); auto. lia. }
  unfold time_index.
  replace (head (ring_stamps ring)) with (Some (Fin (stamp r0)))
    by (rewrite Ering; reflexivity).
  replace (last (ring_stamps ring)) with (Some (Fin (stamp rn))).
  2: { unfold ring_stamps. rewrite fmap_last. now rewrite Hlast. }
  split.
  - destruct (fle (Fin (stamp r0)) (Fin qa) && fle (Fin qa) (Fin (stamp rn)))
      eqn:Hin.
    + apply (first_at_or_after_le _ _ i (Fin (stamp r))); auto.
      now apply fle_Fin.
    + destruct (flt (Fin qa) (Fin (stamp r0))) eqn:Hlt; [lia|].
      exfalso. apply andb_false_iff in Hin as [Hin|Hin].
      * destruct (Qlt_le_dec qa (stamp r0)) as [L|L].
        -- apply (flt_Fin qa) in L. congruence.
        -- apply (fle_Fin (stamp r0)) in L. congruence.
      * assert (L : (qa <= stamp rn)%Q) by lra.
        apply (fle_Fin qa) in L. congruence.
  - destruct (fle (Fin (stamp r0)) (Fin qb) && fle (Fin qb) (Fin (stamp rn)))
      eqn:Hin.
    + unfold first_at_or_after.
      destruct (list_find _ (ring_stamps ring)) as [[j v]|] eqn:E; [|lia].
      apply list_find_Some in E as (Hj & Hv & _).
      destruct (Nat.le_gt_cases i j) as [Hle|Hgt]; [assumption|].
      exfalso. rewrite ring_stamps_lookup in Hj.
      destruct (ring !! j) as [rj|] eqn:Ej; [|discriminate].
      injection Hj as <-. apply fle_Fin in Hv.
      assert (Hji : (j <= i)%nat) by lia.
      pose proof (ring_monotone ring j i rj r Hmono Hji Ej Hi). lra.
    + destruct (flt (Fin qb) (Fin (stamp r0))) eqn:Hlt; [|lia].
      exfalso. apply flt_Fin in Hlt. lra.
Qed.

Lemma window_lookup {A} (l : list A) (p0 p1 i : nat) :
  (p0 <= i <= p1)%nat -> window l p0 p1 !! (i - p0)%nat = l !! i.
Proof.
  intros H. unfold window.
  rewrite lookup_take_lt by lia. rewrite lookup_drop. f_equal. lia.
Qed.

Lemma append_assoc (a b c : string) : (a +:+ b) +:+ c = a +:+ b +:+ c.
Proof.
  induction a as [|x a IH]; [reflexivity|].
  change (String x ((a +:+ b) +:+ c) = String x (a +:+ b +:+ c)).
  now rewrite IH.
Qed.

(** A dumped line is the streamed line of the same record, then a
    newline. *)
Lemma sample_line_outrec (sensors : list Sensor)
    (py_format : string -> float -> string) (r : sample) :
  sample_line sensors py_format r =
  (line ← outrec sensors py_format (Fin (stamp r)) (values r);
   mret (line +:+ newline)).
Proof.
  unfold sample_line, datarec, outrec. simpl.
  destruct (format_strings sensors py_format (values r)) as [strings|e];
    simpl; [|reflexivity].
  unfold mret, result_ret. now rewrite append_assoc.
Qed.

(** *** C4, as the code has it.  On a ring of non-decreasing time stamps,
    [:DATA:READ? a, b] sends the lines of the records at the subscripts
    [find_time_index(a) .. find_time_index(b)], both included, in ring
    order, then [OK]; each line is the streamed line of its record followed
    by a newline; every record with [a <= t < b] is in that range.  When a
    record of the range cannot be formatted, the reply is the error alone.
    The record at [find_time_index(b)] is sent whatever its time stamp. *)
Theorem data_read_range_is_index_window
    (sensors : list Sensor) (py_format : string -> float -> string)
    (py_float : string -> option float) (ring : list sample)
    (kw sa sb : string) :
  non_decreasing (ring_stamps ring) ->
  let a := conv_float py_float sa in
  let b := conv_float py_float sb in
  let p0 := time_index (ring_stamps ring) a in
  let p1 := time_index (ring_stamps ring) b in
  data_read sensors py_format py_float [kw; sa; sb] (to_buffers ring) =
    (Ok (reply_lines (rmap (sample_line sensors py_format)
                           (window ring p0 p1))),
     to_buffers ring) /\
  (forall r : sample,
      sample_line sensors py_format r =
      (line ← outrec sensors py_format (Fin (stamp r)) (values r);
       mret (line +:+ newline))) /\
  (forall (i : nat) (r : sample),
      ring !! i = Some r ->
      fle a (Fin (stamp r)) = true -> flt (Fin (stamp r)) b = true ->
      (p0 <= i <= p1)%nat /\ window ring p0 p1 !! (i - p0)%nat = Some r).
Proof.
  intros Hmono a b p0 p1. split; [apply data_read_two|].
  split; [apply sample_line_outrec|].
  intros i r Hi Ha Hb.
  pose proof (time_index_covers ring a b i r Hmono Hi Ha Hb) as Hin.
  split; [exact Hin|]. fold p0 p1 in Hin. now rewrite window_lookup.
Qed.

Lemma example_ring_non_decreasing : non_decreasing (ring_stamps example_ring).
Proof.
  intros i j u v Hij Hi Hj.
  destruct i as [|[|[|i]]]; destruct j as [|[|[|j]]];
    simpl in Hi, Hj; try discriminate; try lia;
    injection Hi as <-; injection Hj as <-; reflexivity.
Defined.

Lemma data_read_range_is_index_window_witness :
  let a := conv_float example_float "0" in
  let b := conv_float example_float "2" in
  let p0 := time_index (ring_stamps example_ring) a in
  let p1 := time_index (ring_stamps example_ring) b in
  data_read example_sensors example_format example_float
            [":DATA:READ?"; "0"; "2"] (to_buffers example_ring) =
    (Ok (reply_lines (rmap (sample_line example_sensors example_format)
                           (window example_ring p0 p1))),
     to_buffers example_ring) /\
  (forall r : sample,
      sample_line example_sensors example_format r =
      (line ← outrec example_sensors example_format (Fin (stamp r))
                     (values r);
       mret (line +:+ newline))) /\
  (forall (i : nat) (r : sample),
      example_ring !! i = Some r ->
      fle a (Fin (stamp r)) = true -> flt (Fin (stamp r)) b = true ->
      (p0 <= i <= p1)%nat /\
      window example_ring p0 p1 !! (i - p0)%nat = Some r).
Proof.
  exact (data_read_range_is_index_window
           example_sensors example_format example_float example_ring
           ":DATA:READ?" "0" "2" example_ring_non_decreasing).
Defined.

(** C4 as claimed fails: asked for [[0, 0.5]] on the ring with samples at
    0 s, 1 s and 2 s, the handler sends the records at 0 s and at 1 s, not
    only those within the interval. *)
Lemma data_read_emits_record_after_end :
  let sent :=
    (data_read example_sensors example_format example_float
               [":DATA:READ?"; "0"; "0.5"] (to_buffers example_ring)).1 in
  sent = Ok (reply_lines (rmap (sample_line example_sensors example_format)
                               (window example_ring 0 1))) /\
  sent <> Ok (reply_lines
                (rmap (sample_line example_sensors example_format)
                      (records_between (Fin 0) (Fin 0.5) example_ring))) /\
  (exists r : sample,
      window example_ring 0 1 !! 1%nat = Some r /\
      flt (conv_float example_float "0.5") (Fin (stamp r)) = true).
Proof.
  split; [now vm_compute|]. split.
  - vm_compute. discriminate.
  - eexists. split; reflexivity.
Qed.

(** *** C10, as the code has it.  With no time token, [:DATA:READ?] on a
    non-empty ring sends one line, that of the newest record, then [OK];
    when the newest record cannot be formatted it sends the error alone. *)
Theorem data_read_default_is_newest
    (sensors : list Sensor) (py_format : string -> float -> string)
    (py_float : string -> option float) (ring : list sample)
    (kw : string) (r : sample) :
  last ring = Some r ->
  data_read sensors py_format py_float [kw] (to_buffers ring) =
  (Ok match sample_line sensors py_format r with
      | Ok line => [line; "OK"]
      | Raise e => ["ERR: " +:+ exn_msg e]
      end,
   to_buffers ring).
Proof.
  intros Hlast. rewrite (data_read_none _ _ _ _ _ r Hlast). simpl.
  now destruct (sample_line sensors py_format r).
Qed.

Lemma data_read_default_is_newest_witness :
  data_read example_sensors example_format example_float [":DATA:READ?"]
            (to_buffers example_ring) =
  (Ok match sample_line example_sensors example_format
                        (Sample 2 2 (example_values 0.7 0.1 1.1)) with
      | Ok line => [line; "OK"]
      | Raise e => ["ERR: " +:+ exn_msg e]
      end,
   to_buffers example_ring).
Proof.
  exact (data_read_default_is_newest
           example_sensors example_format example_float example_ring
           ":DATA:READ?" (Sample 2 2 (example_values 0.7 0.1 1.1)) eq_refl).
Defined.

(** C10 as claimed fails: when the PT100 input of the newest record reads
    10 V its conversion raises, and the only reply is an error. *)
Lemma data_read_default_replies_error :
  example_ring_open_rtd <> [] /\
  data_read example_sensors example_format example_float [":DATA:READ?"]
            (to_buffers example_ring_open_rtd) =
  (Ok ["ERR: math domain error"], to_buffers example_ring_open_rtd).
Proof. split; [discriminate|now vm_compute]. Qed.

(** ** Slot exhaustion *)

(** *** C8, as the code has it.  A connection accepted when no response
    slot is free gets no reply at all: the handler sends nothing, submits
    nothing to the DAQ worker, logs the rejection on [err_Q] unless
    [--silent] is set, and closes the socket; the ring and the pool are as
    before. *)
Theorem cmd_handler_without_slot
    (sensors : list Sensor) (py_format : string -> float -> string)
    (py_float : string -> option float)
    (find_peaks : list float -> float -> Q -> result (list Z))
    (arg_verbose arg_silent : bool) (arg_bufsize : float)
    (script_ver : string) (daq : list request -> string)
    (client_socket : Z) (addr : string) (inbox : list string)
    (w : server) :
  free_Qn w = [] ->
  exists w' : server,
    cmd_handler sensors py_format py_float find_peaks arg_verbose arg_silent
                arg_bufsize script_ver daq client_socket addr inbox w =
      (Ok tt, w') /\
    sent w' = sent w /\
    cmd_Q w' = cmd_Q w /\
    sock_closed w' = true /\
    err_Q w' =
      (if arg_silent then err_Q w
       else err_Q w ++
            ["CMD Handler " +:+ addr +:+
             " ERROR: out of queue resources. Closing connection."]) /\
    free_Qn w' = [] /\
    bufs w' = bufs w.
Proof.
  intros Hfree.
  destruct w as [b cq mq eq fq cl te sn sc hc]. simpl in Hfree. subst fq.
  unfold cmd_handler, when, close_socket, set_pool, err_put, msg_put.
  unfold mbind, mret, SE_bind, SE_ret, se_bind, se_ret, se_get, se_modify.
  destruct arg_silent, arg_verbose; simpl;
    eexists; (split; [reflexivity|]); simpl; repeat split.
Qed.

Lemma cmd_handler_without_slot_witness :
  exists w' : server,
    cmd_handler example_sensors example_format example_float
                example_find_peaks true false (Fin 1200) "1.0"
                (fun _ => "OK") 7 "client" [":CMD:VERS?"]
                (example_server []) = (Ok tt, w') /\
    sent w' = sent (example_server []) /\
    cmd_Q w' = cmd_Q (example_server []) /\
    sock_closed w' = true /\
    err_Q w' =
      err_Q (example_server []) ++
      ["CMD Handler " +:+ "client" +:+
       " ERROR: out of queue resources. Closing connection."] /\
    free_Qn w' = [] /\
    bufs w' = bufs (example_server []).
Proof.
  exact (cmd_handler_without_slot
           example_sensors example_format example_float example_find_peaks
           true false (Fin 1200) "1.0" (fun _ => "OK") 7 "client"
           [":CMD:VERS?"] (example_server []) eq_refl).
Defined.

(** C8 as claimed fails: with no free slot the client is sent nothing, so
    no [ERR] either, before the socket is closed. *)
Lemma cmd_handler_without_slot_sends_nothing :
  let w' :=
    (cmd_handler example_sensors example_format example_float
                 example_find_peaks true false (Fin 1200) "1.0"
                 (fun _ => "OK") 7 "client" [":CMD:VERS?"]
                 (example_server [])).2 in
  sent w' = [] /\ ~ In "ERR" (sent w') /\ sock_closed w' = true.
Proof. vm_compute. repeat split. intros []. Qed.

(** ** The peak search *)

Lemma median_avg_window (ring : list sample) (sns p1 : nat)
    (period : float) :
  median_avg (Z.of_nat sns) (Z.of_nat p1) period (to_buffers ring) =
  (median_window ring sns p1 period, to_buffers ring).
Proof.
  unfold median_window. destruct (ring !! p1) as [r|] eqn:Hp1.
  - rewrite (median_avg_ring ring sns p1 period r Hp1).
    now rewrite rmap_map.
  - now apply median_avg_out_of_ring.
Qed.

(** The loop over the peaks is the running maximum over their points. *)
Lemma peak_loop_running_peak (xs ys : list float) (peaks : list Z)
    (pts : list (float * float)) :
  rmap (peak_point xs ys) peaks = Ok pts ->
  forall pktim pkval : float,
    peak_loop xs ys peaks pktim pkval =
    Ok (running_peak (pktim, pkval) pts).
Proof.
  revert pts. induction peaks as [|i peaks IH]; intros pts Hpts pktim pkval.
  - injection Hpts as <-. reflexivity.
  - cbn [rmap] in Hpts. cbn [peak_loop].
    unfold peak_point at 1 in Hpts.
    unfold mbind, mret, result_bind, result_ret, rbind in *.
    destruct (py_index ys i) as [yi|e]; [|discriminate].
    destruct (py_index xs i) as [xi|e]; [|discriminate].
    destruct (rmap (peak_point xs ys) peaks) as [pts'|e]; [|discriminate].
    injection Hpts as <-. cbn [running_peak snd].
    destruct (flt pkval yi); [now apply IH|].
    destruct (flt (Fin 1000e-6) (fsub pkval yi)); [reflexivity|now apply IH].
Qed.

Lemma monotone_no_peak (ys : list float) (i : Z) :
  monotone ys -> ~ stands_out ys i.
Proof.
  intros Hmono (j & k & yj & yi & yk & [Hji Hik] & Hj & Hi & Hk & Hlo & Hhi).
  destruct Hmono as [Hup|Hdown].
  - assert (H : fle yi yk = true) by (apply (Hup (Z.to_nat i) k); auto; lia).
    apply flt_fle_false in Hhi. congruence.
  - assert (H : fle yi yj = true) by (apply (Hdown j (Z.to_nat i)); auto; lia).
    apply flt_fle_false in Hlo. congruence.
Qed.

Lemma rmap_total {A B} (f : A -> result B) (g : A -> B) (l : list A) :
  (forall a, f a = Ok (g a)) -> rmap f l = Ok (map g l).
Proof.
  intros H. induction l as [|a l IH]; [reflexivity|].
  simpl. now rewrite H, IH.
Qed.

Lemma cmd_peak_ring (sensors : list Sensor)
    (py_format : string -> float -> string)
    (py_float : string -> option float)
    (find_peaks : list float -> float -> Q -> result (list Z))
    (ring : list sample) (kw lbl st0 sint : string) (sns : nat) :
  label_index sensors lbl = Some sns ->
  cmd_peak sensors py_format py_float find_peaks [kw; lbl; st0; sint]
           (to_buffers ring) =
  (Ok (peak_reply py_format
         (inputs ← peak_inputs sensors ring sns (conv_float py_float st0)
                               (conv_float py_float sint);
          peak_pick find_peaks inputs)),
   to_buffers ring).
Proof.
  intros Hlbl. unfold cmd_peak, se_try.
  unfold mbind at 1, SE_bind, se_bind at 1, se_lift.
  change (py_index [kw; lbl; st0; sint] 1) with (Ok lbl). cbv beta iota.
  rewrite Hlbl.
  change (3 <? length [kw; lbl; st0; sint])%nat with true.
  change (py_index [kw; lbl; st0; sint] 2) with (Ok st0).
  change (py_index [kw; lbl; st0; sint] 3) with (Ok sint).
  unfold mbind, mret, SE_bind, SE_ret, se_bind, se_ret, se_lift, se_get.
  cbv beta iota.
  unfold peak_inputs.
  destruct ring as [|r0 ring'] eqn:Ering; [reflexivity|]. rewrite <- Ering.
  assert (Hh : head ring = Some r0) by (now rewrite Ering).
  destruct (last ring) as [rn|] eqn:Hl;
    [|apply last_None in Hl; congruence].
  rewrite Hh.
  assert (Hfirst : time_at (bufidx (to_buffers ring)) 0 = Ok (Fin (stamp r0))).
  { apply (time_at_head _ (idx_of r0)); [|unfold well_formed; simpl; lia].
    simpl. now rewrite Ering. }
  assert (Hlast : time_at (bufidx (to_buffers ring)) (-1) =
                  Ok (Fin (stamp rn))).
  { apply (time_at_last _ (idx_of rn)); [|unfold well_formed; simpl; lia].
    simpl. rewrite fmap_last. now rewrite Hl. }
  rewrite Hfirst, Hlast. cbv beta iota.
  rewrite find_time_index_ring. cbv beta iota.
  rewrite find_time_index_ring. cbv beta iota.
  set (t0 := if flt (conv_float py_float st0) (Fin (stamp r0)) then _ else _).
  set (t1 := if flt (Fin (stamp rn)) _ then _ else _).
  set (p0 := time_index (ring_stamps ring) t0).
  set (p1 := time_index (ring_stamps ring) t1).
  unfold sensor_at.
  destruct (py_index sensors (Z.of_nat sns)) as [s|e]; [|reflexivity].
  cbv beta iota.
  rewrite median_avg_window. cbv beta iota.
  unfold mbind, mret, result_bind, result_ret, rbind.
  destruct (median_window ring sns p0 (Fin 1)) as [m|e]; [|reflexivity].
  destruct (val s m) as [base|e]; [|reflexivity].
  simpl bufidx. simpl bufadc.
  assert (Hp1 : (p1 < length ring)%nat).
  { destruct (time_index_in_ring ring t1) as [E|H]; [congruence|exact H]. }
  rewrite !py_slice_window by (now rewrite length_map).
  rewrite !window_map, !rmap_map.
  rewrite (rmap_total _ (fun r => Fin (stamp r))) by reflexivity.
  change (rmap (fun x : sample =>
                  match py_index (values x) (Z.of_nat sns) with
                  | Ok a => val s a
                  | Raise e => Raise e
                  end) (window ring p0 p1))
    with (rmap (converted s sns) (window ring p0 p1)).
  destruct (rmap (converted s sns) (window ring p0 p1)) as [ys|e];
    [|reflexivity].
  unfold peak_pick, mbind, mret, result_bind, result_ret, rbind.
  destruct (find_peaks ys (fadd base (Fin 1e-3)) _) as [peaks|e];
    [|reflexivity].
  destruct peaks as [|i peaks]; [reflexivity|].
  change (0 <? length (i :: peaks))%nat with true. cbv iota.
  destruct (peak_loop _ ys (i :: peaks) (Fin 0) (Fin (-1e6))) as [pk|e];
    [|reflexivity].
  destruct (flt (fadd base (Fin 1e-3)) pk.2); reflexivity.
Qed.

(** *** C5, as the code has it.  For a request [:CMD:PEAK? label, t0,
    interval] with a known label, the reply is that of the search read off
    the ring: the window [[t0, t0 + interval]] clamped to the ring, the
    height (converted one-second median at the window's start, plus 1e-3),
    the spacing [(p1 - p0) / 2], the peaks [find_peaks] returns walked in
    order as a running maximum that starts at [(0.0, -1e6)] and stops at
    the first peak more than 1e-3 below it; the reply is [pktim,pkval] when
    [pkval] exceeds the height, [ERR] when it does not or no peak was
    found, and [ERR: message] when the median, a conversion or the search
    raises.  On a monotone window whose search returns only samples that
    stand out, the reply is [ERR]. *)
Theorem cmd_peak_reply_is_the_search
    (sensors : list Sensor) (py_format : string -> float -> string)
    (py_float : string -> option float)
    (find_peaks : list float -> float -> Q -> result (list Z))
    (ring : list sample) (kw lbl st0 sint : string) (sns : nat) :
  label_index sensors lbl = Some sns ->
  let inputs := peak_inputs sensors ring sns (conv_float py_float st0)
                            (conv_float py_float sint) in
  let outcome := inputs ≫= peak_pick find_peaks in
  let reply := cmd_peak sensors py_format py_float find_peaks
                        [kw; lbl; st0; sint] (to_buffers ring) in
  reply = (Ok (peak_reply py_format outcome), to_buffers ring) /\
  (forall (xs ys : list float) (height : float) (distance : Q)
          (peaks : list Z) (pts : list (float * float)),
      inputs = Ok (xs, ys, height, distance) ->
      find_peaks ys height distance = Ok peaks -> peaks <> [] ->
      rmap (peak_point xs ys) peaks = Ok pts ->
      outcome =
      Ok (let pk := running_peak (Fin 0, Fin (-1e6)) pts in
          if flt height pk.2 then Some pk else None)) /\
  (forall (xs ys : list float) (height : float) (distance : Q)
          (peaks : list Z),
      inputs = Ok (xs, ys, height, distance) ->
      find_peaks ys height distance = Ok peaks ->
      (forall i, i ∈ peaks -> stands_out ys i) ->
      monotone ys ->
      reply = (Ok "ERR", to_buffers ring)).
Proof.
  intros Hlbl inputs outcome reply.
  assert (Hreply : reply = (Ok (peak_reply py_format outcome),
                            to_buffers ring))
    by (now apply cmd_peak_ring).
  split; [exact Hreply|]. split.
  - intros xs ys height distance peaks pts Hin Hfind Hne Hpts.
    unfold outcome. rewrite Hin.
    unfold peak_pick, mbind, mret, result_bind, result_ret, rbind.
    rewrite Hfind. destruct peaks as [|i peaks]; [congruence|].
    now rewrite (peak_loop_running_peak xs ys (i :: peaks) pts Hpts).
  - intros xs ys height distance peaks Hin Hfind Hout Hmono.
    rewrite Hreply. unfold outcome. rewrite Hin.
    unfold peak_pick, mbind, mret, result_bind, result_ret, rbind.
    rewrite Hfind. destruct peaks as [|i peaks]; [reflexivity|].
    exfalso. apply (monotone_no_peak ys i Hmono). apply Hout. left.
Qed.

Lemma cmd_peak_reply_is_the_search_witness :
  let inputs := peak_inputs example_sensors example_ring 3
                            (conv_float example_float "0")
                            (conv_float example_float "2") in
  let outcome := inputs ≫= peak_pick example_find_peaks in
  let reply := cmd_peak example_sensors example_format example_float
                        example_find_peaks [":CMD:PEAK?"; "H2"; "0"; "2"]
                        (to_buffers example_ring) in
  reply = (Ok (peak_reply example_format outcome),
           to_buffers example_ring) /\
  (forall (xs ys : list float) (height : float) (distance : Q)
          (peaks : list Z) (pts : list (float * float)),
      inputs = Ok (xs, ys, height, distance) ->
      example_find_peaks ys height distance = Ok peaks -> peaks <> [] ->
      rmap (peak_point xs ys) peaks = Ok pts ->
      outcome =
      Ok (let pk := running_peak (Fin 0, Fin (-1e6)) pts in
          if flt height pk.2 then Some pk else None)) /\
  (forall (xs ys : list float) (height : float) (distance : Q)
          (peaks : list Z),
      inputs = Ok (xs, ys, height, distance) ->
      example_find_peaks ys height distance = Ok peaks ->
      (forall i, i ∈ peaks -> stands_out ys i) ->
      monotone ys ->
      reply = (Ok "ERR", to_buffers example_ring)).
Proof.
  exact (cmd_peak_reply_is_the_search
           example_sensors example_format example_float example_find_peaks
           example_ring ":CMD:PEAK?" "H2" "0" "2" 3%nat eq_refl).
Defined.

(** The search on the example ring: the H2 bump at 1 s is reported, the
    rising CH4 channel has no peak. *)
Example cmd_peak_example_bump :
  (cmd_peak example_sensors example_format example_float example_find_peaks
            [":CMD:PEAK?"; "H2"; "0"; "2"] (to_buffers example_ring)).1 =
  Ok "{}1/1,{}9/10".
Proof. now vm_compute. Qed.

Example cmd_peak_example_monotone :
  (cmd_peak example_sensors example_format example_float example_find_peaks
            [":CMD:PEAK?"; "CH4"; "0"; "2"] (to_buffers example_ring)).1 =
  Ok "ERR".
Proof. now vm_compute. Qed.

(** C5 as claimed fails: on a non-empty ring and for the known label
    [PT100], a window holding a 10 V reading makes the conversion raise,
    and the reply is neither a peak nor the bare [ERR]. *)
Lemma cmd_peak_replies_error_message :
  let reply :=
    (cmd_peak example_sensors example_format example_float
              example_find_peaks [":CMD:PEAK?"; "PT100"; "0"; "2"]
              (to_buffers example_ring_open_rtd)).1 in
  example_ring_open_rtd <> [] /\
  label_index example_sensors "PT100" = Some 5%nat /\
  reply = Ok "ERR: math domain error" /\
  reply <> Ok "ERR".
Proof.
  split; [discriminate|]. split; [reflexivity|].
  split; [now vm_compute|]. vm_compute. discriminate.
Qed.

(** ** Calibration *)

Import Calib.

Lemma fold_horner (p : list Q) (x acc : Q) :
  (fold_left (fun y pv => y * x + pv) p acc ==
   acc * Qpow x (length p) + eval p x)%Q.
Proof.
  revert acc. induction p as [|c p IH]; intros acc; simpl.
  - ring.
  - rewrite IH. ring.
Qed.

Lemma horner_eval (p : list Q) (x : Q) : (horner p x == eval p x)%Q.
Proof. unfold horner. rewrite fold_horner. ring. Qed.

Lemma cal_get_Some (cal : gmap string Q) (k : string) (v : Q) :
  cal !! k = Some v -> cal_get cal k = Ok v.
Proof. intros H. unfold cal_get. now rewrite H. Qed.

(** *** C7.  When the calibration dictionary has the seven values and
    [np.polyfit] returns the three fits (degree 1 on
    [(0,0), (cell_h2_50ppm, 50), (cell_h2_100ppm, 100)], degree 2 on
    [(0,0), (50, tgs_h2_50ppm + tgs_comp), (100, tgs_h2_100ppm + tgs_comp)]
    and degree 2 on
    [(0,0), (tgs_ch4_50ppm + tgs_comp, 50), (tgs_ch4_100ppm + tgs_comp, 100)]),
    [compute_calib_curves] stores them and [calc_ppm] returns
    [(h2ppm, ch4ppm)] with [h2ppm] the value of the first fit at [h2adc],
    [h2adj] the value of the second at [h2ppm], and [ch4ppm] the value of
    the third at [(ch4adc + 20e-3) - h2adj]. *)
Theorem calc_ppm_composes_the_fits
    (polyfit : list Q -> list Q -> nat -> result (list Q))
    (cal : gmap string Q) (g0 : curves)
    (c50 c100 h50 h100 m50 m100 comp : Q) (z1 z2 z3 : list Q)
    (h2adc ch4adc : Q) :
  cal !! "cell_h2_50ppm" = Some c50 ->
  cal !! "cell_h2_100ppm" = Some c100 ->
  cal !! "tgs_h2_50ppm" = Some h50 ->
  cal !! "tgs_h2_100ppm" = Some h100 ->
  cal !! "tgs_ch4_50ppm" = Some m50 ->
  cal !! "tgs_ch4_100ppm" = Some m100 ->
  cal !! "tgs_comp" = Some comp ->
  polyfit [0; c50; c100]%Q [0; 50; 100]%Q 1%nat = Ok z1 ->
  polyfit [0; 50; 100]%Q [0; h50 + comp; h100 + comp]%Q 2%nat = Ok z2 ->
  polyfit [0; m50 + comp; m100 + comp]%Q [0; 50; 100]%Q 2%nat = Ok z3 ->
  compute_calib_curves polyfit cal g0 =
    (Ok tt, Curves (Some z1) (Some z2) (Some z3)) /\
  exists h2ppm h2adj ch4ppm : Q,
    calc_ppm (Curves (Some z1) (Some z2) (Some z3)) h2adc ch4adc =
      Ok (h2ppm, ch4ppm) /\
    (h2ppm == eval z1 h2adc)%Q /\
    (h2adj == eval z2 h2ppm)%Q /\
    (ch4ppm == eval z3 ((ch4adc + 20e-3) - h2adj))%Q.
Proof.
  intros H1 H2 H3 H4 H5 H6 H7 F1 F2 F3. split.
  - unfold compute_calib_curves, se_try.
    unfold mbind, mret, SE_bind, SE_ret, se_bind, se_ret, se_lift,
      se_modify.
    rewrite (cal_get_Some _ _ _ H1), (cal_get_Some _ _ _ H2),
      (cal_get_Some _ _ _ H3), (cal_get_Some _ _ _ H4),
      (cal_get_Some _ _ _ H5), (cal_get_Some _ _ _ H6),
      (cal_get_Some _ _ _ H7).
    cbv beta iota zeta. rewrite F1. cbv beta iota.
    rewrite F2. cbv beta iota. rewrite F3. reflexivity.
  - exists (horner z1 h2adc), (horner z2 (horner z1 h2adc)),
      (horner z3 ((ch4adc + 20e-3) - horner z2 (horner z1 h2adc))).
    split; [reflexivity|].
    split; [apply horner_eval|]. split; apply horner_eval.
Qed.

Lemma calc_ppm_composes_the_fits_witness :
  compute_calib_curves example_polyfit example_cal unset =
    (Ok tt,
     Curves (Some [50 / 1; 0]%Q) (Some [0; (0.19 + 0.01) / 50; 0]%Q)
            (Some [0; 50 / (0.99 + 0.01); 0]%Q)) /\
  exists h2ppm h2adj ch4ppm : Q,
    calc_ppm (Curves (Some [50 / 1; 0]%Q)
                     (Some [0; (0.19 + 0.01) / 50; 0]%Q)
                     (Some [0; 50 / (0.99 + 0.01); 0]%Q)) 1 0.5 =
      Ok (h2ppm, ch4ppm) /\
    (h2ppm == eval [50 / 1; 0] 1)%Q /\
    (h2adj == eval [0; (0.19 + 0.01) / 50; 0] h2ppm)%Q /\
    (ch4ppm == eval [0; 50 / (0.99 + 0.01); 0] ((0.5 + 20e-3) - h2adj))%Q.
Proof.
  apply (calc_ppm_composes_the_fits
           example_polyfit example_cal unset
           1 2 0.19 0.39 0.99 1.99 0.01);
    vm_compute; reflexivity.
Defined.

(** * Further properties of the server

    ** The supervisor's ring *)

Lemma py_pop0_snoc {A} (l : list A) (x : A) :
  py_pop0 (l ++ [x]) = Ok (drop 1 (l ++ [x])).
Proof. destruct l; reflexivity. Qed.

Lemma main_append_drops (bufsize : Q) (recno : Z) (wavetime : Q)
    (record : list float) (s : buffers) :
  exists n : nat,
    (n <= 1)%nat /\
    bufidx (main_append bufsize recno wavetime record s).2 =
      drop n (bufidx s ++ [[int_float recno; Fin wavetime]]) /\
    bufadc (main_append bufsize recno wavetime record s).2 =
      drop n (bufadc s ++ [record]).
Proof.
  unfold main_append, mbind, mret, SE_bind, SE_ret, se_bind, se_get, se_put,
    se_lift, se_ret.
  cbn [fst snd].
  destruct (time_at _ (-1)) as [lst|e]; [|exists 0%nat; auto].
  destruct (time_at _ 0) as [first|e]; [|exists 0%nat; auto].
  destruct (flt _ _); [|exists 0%nat; auto].
  rewrite !py_pop0_snoc. exists 1%nat. auto.
Qed.

(** X1. the ring is always a suffix of the history.  Whatever the samples
    and the window, the buffers after a run of appends are the old buffers
    followed by the new samples, in order, less a number of oldest records
    that is the same for [bufidx] and [bufadc] and is at most the number of
    samples appended. *)
Theorem main_feed_keeps_a_suffix_of_history (bufsize : Q)
    (samples : list (Z * Q * list float)) (s : buffers) :
  exists n : nat,
    (n <= length samples)%nat /\
    bufidx (main_feed bufsize samples s) =
      drop n (bufidx s ++
              map (fun x => [int_float x.1.1; Fin x.1.2]) samples) /\
    bufadc (main_feed bufsize samples s) =
      drop n (bufadc s ++ map (fun x => x.2) samples).
Proof.
  revert s. induction samples as [|[[recno wavetime] record] rest IH];
    intros s.
  - exists 0%nat. cbn. rewrite !app_nil_r. auto.
  - cbn [main_feed].
    destruct (main_append_drops bufsize recno wavetime record s)
      as (n1 & Hn1 & Hi & Ha).
    destruct (IH (main_append bufsize recno wavetime record s).2)
      as (n2 & Hn2 & Hi2 & Ha2).
    exists (n1 + n2)%nat. split; [cbn [length]; lia|].
    rewrite Hi2, Ha2, Hi, Ha. cbn [map fst snd].
    split.
    + rewrite <- drop_app_le by (rewrite length_app; cbn; lia).
      rewrite drop_drop, <- app_assoc. reflexivity.
    + rewrite <- drop_app_le by (rewrite length_app; cbn; lia).
      rewrite drop_drop, <- app_assoc. reflexivity.
Qed.

(** ** The time-index lookup on any buffers *)

Lemma strip_head_shape (l : list (list float)) :
  exists n : nat,
    (strip_head l).2 = drop n l /\
    match (strip_head l).1 with
    | Ok _ => exists e, head (strip_head l).2 = Some e /\ well_formed e
    | Raise _ => (strip_head l).2 = []
    end.
Proof.
  induction l as [|e l IH].
  - exists 0%nat. cbn. auto.
  - cbn [strip_head]. destruct (length e <? 2)%nat eqn:E.
    + destruct IH as (n & Hn & Hr). exists (S n). cbn [drop]. auto.
    + exists 0%nat. cbn. split; [reflexivity|]. exists e. split; [reflexivity|].
      apply Nat.ltb_ge in E. exact E.
Qed.

Lemma strip_head_keeps_last (l : list (list float)) (e : list float) :
  last l = Some e -> well_formed e ->
  (strip_head l).1 = Ok tt /\ last (strip_head l).2 = Some e.
Proof.
  intros Hl Hw. induction l as [|x l IH]; [discriminate|].
  cbn [strip_head]. destruct (length x <? 2)%nat eqn:E.
  - destruct l as [|y l].
    + cbn in Hl. injection Hl as ->. apply Nat.ltb_lt in E.
      unfold well_formed in Hw. lia.
    + apply IH. exact Hl.
  - cbn. auto.
Qed.

Lemma strip_tail_shape (l : list (list float)) :
  exists n : nat,
    (strip_tail l).2 = take n l /\
    match (strip_tail l).1 with
    | Ok _ => exists e, last (strip_tail l).2 = Some e /\ well_formed e
    | Raise _ => (strip_tail l).2 = []
    end.
Proof.
  unfold strip_tail.
  destruct (strip_head_shape (reverse l)) as (n & Hn & Hr).
  destruct (strip_head (reverse l)) as [r l'] eqn:E. cbn [fst snd] in *.
  exists (length l - n)%nat. split.
  - rewrite Hn, drop_reverse, reverse_involutive. reflexivity.
  - destruct r.
    + destruct Hr as (e & He & Hw). exists e. rewrite last_reverse. auto.
    + rewrite Hr. reflexivity.
Qed.

Lemma strip_tail_keeps_head (l : list (list float)) (e : list float) :
  head l = Some e -> well_formed e ->
  (strip_tail l).1 = Ok tt /\ head (strip_tail l).2 = Some e.
Proof.
  intros Hl Hw. unfold strip_tail.
  destruct (strip_head_keeps_last (reverse l) e) as [H1 H2];
    [rewrite last_reverse; exact Hl|exact Hw|].
  destruct (strip_head (reverse l)) as [r l'] eqn:E. cbn [fst snd] in *.
  rewrite head_reverse. auto.
Qed.

Lemma scan_shape (t : float) (fuel : nat) :
  forall (p : nat) (l : list (list float)) (e : list float),
    head l = Some e -> well_formed e ->
    (scan t p fuel l).2 `sublist_of` l /\
    head (scan t p fuel l).2 = Some e /\
    match (scan t p fuel l).1 with
    | Ok i => 0 <= i < Z.of_nat (length (scan t p fuel l).2)
    | Raise _ => True
    end.
Proof.
  induction fuel as [|fuel IH]; intros p l e Hl Hw.
  - cbn. split; [reflexivity|]. split; [exact Hl|].
    destruct l; [discriminate|]. cbn [length]. lia.
  - cbn [scan]. destruct (l !! p) as [x|] eqn:Hx;
      [|cbn; split; [reflexivity|auto]].
    destruct (1 <? length x)%nat eqn:E.
    + destruct (py_index x 1) as [tp|err];
        [|cbn; split; [reflexivity|auto]].
      destruct (fle t tp).
      * cbn. split; [reflexivity|]. split; [exact Hl|].
        apply lookup_lt_Some in Hx. lia.
      * apply IH; assumption.
    + assert (Hp : p <> 0%nat).
      { intros ->. destruct l as [|y l]; [discriminate|].
        cbn in Hl, Hx. injection Hl as ->. injection Hx as ->.
        apply Nat.ltb_ge in E. unfold well_formed in Hw. lia. }
      destruct p as [|p]; [congruence|].
      destruct l as [|y l]; [discriminate|].
      cbn in Hl. injection Hl as ->.
      destruct (IH (S (S p)) (delete (S p) (e :: l)) e) as (H1 & H2 & H3);
        [reflexivity|exact Hw|].
      split; [|auto].
      etrans; [exact H1|apply sublist_delete].
Qed.

Lemma find_time_index_body_shape (t : float) (b : buffers) :
  bufadc (find_time_index_body t b).2 = bufadc b /\
  bufidx (find_time_index_body t b).2 `sublist_of` bufidx b /\
  match (find_time_index_body t b).1 with
  | Ok i => 0 <= i < Z.of_nat (length (bufidx (find_time_index_body t b).2))
  | Raise _ => True
  end.
Proof.
  destruct b as [idx adc].
  unfold find_time_index_body, mbind, mret, SE_bind, SE_ret, se_bind,
    on_bufidx, set_bufidx, se_get, se_lift, se_ret.
  cbn [bufidx bufadc].
  destruct (strip_head_shape idx) as (n1 & Hn1 & Hr1).
  destruct (strip_head idx) as [r1 l1]. cbn [fst snd] in *.
  destruct r1 as [[]|x];
    [|cbn; split; [reflexivity|]; split; [subst; apply sublist_drop|auto]].
  destruct Hr1 as (e & He & Hw).
  cbn [bufidx bufadc].
  destruct (strip_tail_shape l1) as (n2 & Hn2 & Hr2).
  destruct (strip_tail_keeps_head l1 e He Hw) as [Hok Hhd].
  destruct (strip_tail l1) as [r2 l2]. cbn [fst snd] in *. subst r2.
  destruct Hr2 as (e2 & He2 & Hw2).
  assert (Hsub : l2 `sublist_of` idx).
  { subst. etrans; [apply sublist_take|apply sublist_drop]. }
  cbn [bufidx bufadc].
  rewrite (time_at_head l2 e Hhd Hw), (time_at_last l2 e2 He2 Hw2).
  destruct (fle (stamp_of e) t && fle t (stamp_of e2)).
  - cbn [bufidx bufadc].
    destruct (scan_shape t (length l2) 0 l2 e Hhd Hw) as (H1 & H2 & H3).
    destruct (scan t 0 (length l2) l2) as [r3 l3]. cbn [fst snd] in *.
    split; [reflexivity|]. split; [etrans; eassumption|exact H3].
  - destruct (flt t (stamp_of e)); cbn; (split; [reflexivity|]);
      (split; [exact Hsub|]); destruct l2; try discriminate; cbn [length]; lia.
Qed.

(** X2. whatever the buffers hold, the lookup returns (it never raises), its
    result is a subscript of the index it leaves, or 0 when that is empty,
    it never touches [bufadc], it only ever deletes entries of [bufidx],
    and it deletes none when every entry has its two fields. *)
Theorem find_time_index_only_drops_index_entries (t : float) (b : buffers) :
  exists (i : Z) (b' : buffers),
    find_time_index t b = (Ok i, b') /\
    bufadc b' = bufadc b /\
    bufidx b' `sublist_of` bufidx b /\
    0 <= i <= Z.max 0 (Z.of_nat (length (bufidx b')) - 1) /\
    (Forall well_formed (bufidx b) -> b' = b).
Proof.
  destruct (find_time_index_body_shape t b) as (Ha & Hs & Hr).
  unfold find_time_index, se_try.
  destruct (find_time_index_body t b) as [r b1] eqn:E. cbn [fst snd] in *.
  assert (Hwf : Forall well_formed (bufidx b) -> b1 = b).
  { intros Hw. destruct b as [idx adc]. cbn [bufidx] in Hw.
    pose proof (find_time_index_wf t idx adc Hw) as F.
    unfold find_time_index, se_try in F. rewrite E in F.
    destruct r as [i|x]; [congruence|].
    apply find_time_index_body_raise in E. subst x. cbn in F.
    unfold mret, SE_ret, se_ret in F. congruence. }
  destruct r as [i|x].
  - exists i, b1. repeat split; try assumption; lia.
  - apply find_time_index_body_raise in E. subst x. cbn.
    exists 0, b1. repeat split; try assumption; lia.
Qed.

(** ** The time reset and the lookup *)







(** ** [:DATA:READ?] with one time *)

(** X4. with a start time and no end time the reply is one record, the one
    at the subscript the lookup gives for that time, followed by [OK]; when
    that record cannot be formatted the reply is the error text alone.  The
    ring is left as it was. *)
Theorem data_read_single_time
    (sensors : list Sensor) (py_format : string -> float -> string)
    (py_float : string -> option float) (ring : list sample)
    (kw sa : string) :
  ring <> [] ->
  let p := time_index (ring_stamps ring) (conv_float py_float sa) in
  exists r : sample,
    ring !! p = Some r /\
    data_read sensors py_format py_float [kw; sa] (to_buffers ring) =
    (Ok match sample_line sensors py_format r with
        | Ok line => [line; "OK"]
        | Raise e => ["ERR: " +:+ exn_msg e]
        end,
     to_buffers ring).
Proof.
  intros Hne p.
  assert (Hp : (p < length ring)%nat).
  { unfold p. rewrite <- (length_map (fun r => Fin (stamp r)) ring).
    apply time_index_lt. unfold ring_stamps. destruct ring; [congruence|].
    discriminate. }
  destruct (lookup_lt_is_Some_2 ring p Hp) as [r Hr].
  exists r. split; [exact Hr|].
  pose proof (data_read_one sensors py_format py_float ring kw sa) as E.
  cbv zeta in E. fold p in E. rewrite E.
  rewrite (window_single ring p r Hr). cbn [rmap].
  destruct (sample_line sensors py_format r); reflexivity.
Qed.

Lemma data_read_single_time_witness :
  exists r : sample,
    example_ring !! time_index (ring_stamps example_ring)
                               (conv_float example_float "0.5") = Some r /\
    data_read example_sensors example_format example_float
              [":DATA:READ?"; "0.5"] (to_buffers example_ring) =
    (Ok match sample_line example_sensors example_format r with
        | Ok line => [line; "OK"]
        | Raise e => ["ERR: " +:+ exn_msg e]
        end,
     to_buffers example_ring).
Proof.
  apply (data_read_single_time example_sensors example_format example_float
           example_ring ":DATA:READ?" "0.5").
  discriminate.
Defined.

(** ** [:CMD:READ?] *)

Lemma time_at_oldest (ring : list sample) (r0 : sample) :
  head ring = Some r0 ->
  time_at (map idx_of ring) 0 = Ok (Fin (stamp r0)).
Proof.
  intros H. destruct ring as [|r ring]; [discriminate|].
  cbn in H. injection H as ->. reflexivity.
Qed.

Lemma time_at_newest (ring : list sample) (rn : sample) :
  last ring = Some rn ->
  time_at (map idx_of ring) (-1) = Ok (Fin (stamp rn)).
Proof.
  intros H.
  rewrite (time_at_last (map idx_of ring) (idx_of rn)).
  - reflexivity.
  - change (map idx_of ring) with (idx_of <$> ring).
    rewrite fmap_last, H. reflexivity.
  - unfold well_formed. cbn. lia.
Qed.

Lemma se_bind_bind {S A B C} (m : SE S A) (k1 : A -> SE S B)
    (k2 : B -> SE S C) (s : S) :
  se_bind (se_bind m k1) k2 s = se_bind m (fun a => se_bind (k1 a) k2) s.
Proof. unfold se_bind. destruct (m s) as [[a|e] s']; reflexivity. Qed.

Lemma se_try_ok {S A} (m : SE S A) (h : exn -> SE S A) (s s' : S) (a : A) :
  m s = (Ok a, s') -> se_try m h s = (Ok a, s').
Proof. intros E. unfold se_try. rewrite E. reflexivity. Qed.

Lemma se_try_raise {S A} (m : SE S A) (h : exn -> SE S A) (s s' : S)
    (e : exn) :
  m s = (Raise e, s') -> se_try m h s = h e s'.
Proof. intros E. unfold se_try. rewrite E. reflexivity. Qed.

(** X5. a read of one channel at a time that lies outside the ring (or is
    not a number) is not clamped to the nearest record: the reply is [ERR]
    and the ring is left as it was. *)
Theorem cmd_read_outside_ring_is_error
    (sensors : list Sensor) (py_format : string -> float -> string)
    (py_float : string -> option float) (ring : list sample)
    (kw lbl st : string) (rest : list string) (sns : nat)
    (r0 rn : sample) :
  label_index sensors lbl = Some sns ->
  String.eqb lbl "ALL" = false ->
  String.eqb (upper st) "MAX" = false ->
  String.eqb (upper st) "MIN" = false ->
  head ring = Some r0 -> last ring = Some rn ->
  fle (Fin (stamp r0)) (conv_float py_float st) &&
    fle (conv_float py_float st) (Fin (stamp rn)) = false ->
  cmd_read sensors py_format py_float (kw :: lbl :: st :: rest)
           (to_buffers ring) =
  (Ok "ERR", to_buffers ring).
Proof.
  intros Hl Hall Hmax Hmin H0 Hn Hout.
  unfold cmd_read. apply se_try_ok.
  unfold mbind, mret, SE_bind, SE_ret.
  change (py_index (kw :: lbl :: st :: rest) 1) with (Ok lbl).
  rewrite se_bind_lift. cbv beta iota. rewrite Hall, se_bind_ret, Hl.
  rewrite se_bind_get.
  assert (Hlen : (2 <? length (kw :: lbl :: st :: rest))%nat = true)
    by (apply Nat.ltb_lt; cbn; lia).
  rewrite Hlen.
  change (py_index (kw :: lbl :: st :: rest) 2) with (Ok st).
  rewrite se_bind_bind, se_bind_lift. cbv beta iota. rewrite Hmax, Hmin.
  rewrite se_bind_ret, se_bind_lift. cbn [to_buffers bufidx].
  rewrite (time_at_oldest ring r0 H0).
  destruct (fle (Fin (stamp r0)) (conv_float py_float st)) eqn:E1.
  - rewrite se_bind_bind, se_bind_lift, (time_at_newest ring rn Hn),
      !se_bind_ret.
    cbn [andb] in Hout. rewrite Hout. reflexivity.
  - rewrite !se_bind_ret. reflexivity.
Qed.

Lemma cmd_read_outside_ring_is_error_witness :
  cmd_read example_sensors example_format example_float
           [":CMD:READ?"; "H2"; "10"] (to_buffers example_ring) =
  (Ok "ERR", to_buffers example_ring).
Proof.
  apply (cmd_read_outside_ring_is_error example_sensors example_format
           example_float example_ring ":CMD:READ?" "H2" "10" [] 3
           (Sample 0 0 (example_values 0.5 0.1 1.1))
           (Sample 2 2 (example_values 0.7 0.1 1.1)));
    reflexivity.
Defined.

Lemma append_evict_newest (bufsize : Q) (ring : list sample) (r : sample) :
  ring <> [] \/ (0 <= bufsize)%Q ->
  last (append_evict bufsize ring r) = Some r.
Proof.
  intros H. unfold append_evict.
  destruct ring as [|r0 ring].
  - destruct H as [H|H]; [congruence|]. cbn [app].
    destruct (Qlt_bool bufsize (stamp r - stamp r)) eqn:E; [|reflexivity].
    change (flt (Fin bufsize) (Fin (stamp r - stamp r)) = true) in E.
    apply flt_Fin in E. lra.
  - cbn [app]. destruct (Qlt_bool _ _).
    + destruct ring as [|r1 ring]; [reflexivity|].
      change (last ((r1 :: ring) ++ [r]) = Some r). apply last_snoc.
    + change (last ((r0 :: ring) ++ [r]) = Some r). apply last_snoc.
Qed.

(** X6. the reply to [:CMD:READ? ALL] is the line that was streamed for the
    newest record.  When a turn of the supervisor's loop has stored a sample
    and streamed [line] for it, a full read that follows replies [line],
    and leaves the ring as it is. *)
Theorem cmd_read_all_is_the_streamed_line
    (sensors : list Sensor) (py_format : string -> float -> string)
    (py_float : string -> option float) (bufsize : Q)
    (ring : list sample) (r : sample) (kw line : string)
    (rest : list string) (s' : buffers) :
  label_index sensors "ALL" = None ->
  ring <> [] \/ (0 <= bufsize)%Q ->
  main_step sensors py_format bufsize (seq r, stamp r, values r)
            (to_buffers ring) = (s', Some line) ->
  cmd_read sensors py_format py_float (kw :: "ALL" :: rest) s' =
  (Ok line, s').
Proof.
  intros Hall Hne Hstep. unfold main_step in Hstep.
  rewrite main_append_ring in Hstep.
  destruct (outrec sensors py_format (Fin (stamp r)) (values r))
    as [l|e] eqn:Hout; [|discriminate].
  injection Hstep as <- ->.
  pose proof (append_evict_newest bufsize ring r Hne) as Hlast.
  set (ring' := append_evict bufsize ring r) in *.
  unfold cmd_read. apply se_try_ok.
  unfold mbind, mret, SE_bind, SE_ret.
  change (py_index (kw :: "ALL" :: rest) 1) with (Ok "ALL").
  rewrite se_bind_lift. cbv beta iota.
  change ("ALL" =? "ALL")%string with true. cbv iota.
  rewrite se_bind_bind, se_bind_get.
  cbn [to_buffers bufidx bufadc].
  rewrite se_bind_bind, se_bind_lift, (time_at_newest ring' r Hlast).
  rewrite se_bind_bind, se_bind_lift, py_index_last.
  change (map values ring') with (values <$> ring').
  rewrite fmap_last, Hlast. cbn [fmap option_fmap option_map].
  unfold outrec, mbind, mret, result_bind, result_ret, rbind in Hout.
  destruct (format_strings sensors py_format (values r)) as [strings|e];
    [|discriminate].
  injection Hout as <-.
  rewrite se_bind_bind, se_bind_lift, !se_bind_ret, Hall. reflexivity.
Qed.

Lemma cmd_read_all_is_the_streamed_line_witness :
  exists line : string,
    cmd_read example_sensors example_format example_float
             [":CMD:READ?"; "ALL"]
             (to_buffers (append_evict 1200 example_ring
                (Sample 3 3 (example_values 0.8 0.2 1.1)))) =
    (Ok line,
     to_buffers (append_evict 1200 example_ring
                   (Sample 3 3 (example_values 0.8 0.2 1.1)))).
Proof.
  eexists.
  apply (cmd_read_all_is_the_streamed_line example_sensors example_format
           example_float 1200 example_ring
           (Sample 3 3 (example_values 0.8 0.2 1.1)) ":CMD:READ?").
  - reflexivity.
  - left. discriminate.
  - vm_compute. reflexivity.
Defined.

(** ** [:CMD:BASE:DRIFT?] *)

(** X7. an interval of 0 is taken as the default of 60 seconds, so the
    request never divides by a zero interval: with an interval that reads
    as 0 the reply, and the state left, are those of the request without
    interval. *)
Theorem cmd_drift_zero_interval_is_default
    (sensors : list Sensor) (py_format : string -> float -> string)
    (py_float : string -> option float) (kw lbl zero : string) (q : Q)
    (b : buffers) :
  conv_float py_float zero = Fin q -> (q == 0)%Q ->
  cmd_drift sensors py_format py_float [kw; lbl; zero] b =
  cmd_drift sensors py_format py_float [kw; lbl] b.
Proof.
  intros Hz Hq. unfold cmd_drift. apply se_try_ext.
  unfold mbind, mret, SE_bind, SE_ret.
  change (py_index [kw; lbl; zero] 1) with (Ok lbl).
  change (py_index [kw; lbl] 1) with (Ok lbl).
  rewrite !se_bind_lift. cbv beta iota.
  destruct (label_index sensors lbl) as [sns|]; [|reflexivity].
  change (2 <? length [kw; lbl; zero])%nat with true.
  change (2 <? length [kw; lbl])%nat with false.
  change (py_index [kw; lbl; zero] 2) with (Ok zero).
  cbv iota.
  rewrite se_bind_bind, se_bind_lift, !se_bind_ret, Hz.
  assert (E0 : feq (Fin q) (Fin 0) = true).
  { cbn. apply Qeq_bool_iff. exact Hq. }
  rewrite E0. reflexivity.
Qed.

Lemma cmd_drift_zero_interval_is_default_witness :
  cmd_drift example_sensors example_format example_float
            [":CMD:BASE:DRIFT?"; "H2"; "0"] (to_buffers example_ring) =
  cmd_drift example_sensors example_format example_float
            [":CMD:BASE:DRIFT?"; "H2"] (to_buffers example_ring).
Proof.
  apply (cmd_drift_zero_interval_is_default example_sensors example_format
           example_float ":CMD:BASE:DRIFT?" "H2" "0" 0);
    reflexivity.
Defined.

(** ** Steps that keep a relation *)

Section Respects.
Context {S : Type} (R : S -> S -> Prop).
Hypothesis R_refl : forall s, R s s.
Hypothesis R_trans : forall a b c, R a b -> R b c -> R a c.

Lemma respects_ret {A} (a : A) : respects R (@se_ret S A a).
Proof. intros s. apply R_refl. Qed.

Lemma respects_lift {A} (r : result A) : respects R (@se_lift S A r).
Proof. intros s. apply R_refl. Qed.

Lemma respects_raise {A} (e : exn) : respects R (@se_raise S A e).
Proof. intros s. apply R_refl. Qed.

Lemma respects_get : respects R (@se_get S).
Proof. intros s. apply R_refl. Qed.

Lemma respects_bind {A B} (m : SE S A) (k : A -> SE S B) :
  respects R m -> (forall a, respects R (k a)) -> respects R (se_bind m k).
Proof.
  intros Hm Hk s. unfold se_bind. specialize (Hm s).
  destruct (m s) as [[a|e] s']; cbn [snd] in *; [|exact Hm].
  eapply R_trans; [exact Hm|apply Hk].
Qed.

Lemma respects_try {A} (m : SE S A) (h : exn -> SE S A) :
  respects R m -> (forall e, respects R (h e)) -> respects R (se_try m h).
Proof.
  intros Hm Hh s. unfold se_try. specialize (Hm s).
  destruct (m s) as [[a|e] s']; cbn [snd] in *; [exact Hm|].
  eapply R_trans; [exact Hm|apply Hh].
Qed.

Lemma respects_modify (f : S -> S) :
  (forall s, R s (f s)) -> respects R (se_modify f).
Proof. intros Hf s. apply Hf. Qed.

(** A step that reads the state first. *)
Lemma respects_bind_get {B} (k : S -> SE S B) :
  (forall s, R s (k s s).2) -> respects R (se_bind se_get k).
Proof. intros Hk s. apply Hk. Qed.
End Respects.

Lemma respects_on_bufs (R : server -> server -> Prop) {A} (m : M A) :
  (forall w b,
      R w (Server b (cmd_Q w) (msg_Q w) (err_Q w) (free_Qn w)
                  (daq_cmd_clients w) (evt_terminate w) (sent w)
                  (sock_closed w) (handler_cmd w))) ->
  respects R (on_bufs m).
Proof.
  intros HR w. unfold on_bufs. destruct (m (bufs w)) as [r b]. apply HR.
Qed.

(** The structure of a handler's code, down to the steps that change the
    state: [leaf] settles those. *)
Ltac respects_with refl trans leaf :=
  unfold mbind, mret, SE_bind, SE_ret;
  repeat first
    [ leaf
    | apply (respects_ret _ refl) | apply (respects_lift _ refl)
    | apply (respects_raise _ refl) | apply (respects_get _ refl)
    | apply (respects_bind _ trans) | apply (respects_try _ trans)
    | match goal with
      | |- respects _ (if ?c then _ else _) => destruct c
      | |- respects _ (match ?c with _ => _ end) => destruct c
      | |- forall _, respects _ _ => intro
      end ].

(** The steps of a command handler that change the state. *)
Ltac handler_leaf tac :=
  idtac;
  match goal with
  | |- respects _ (sendall _) => solve [tac]
  | |- respects _ (msg_put _) => solve [tac]
  | |- respects _ (err_put _) => solve [tac]
  | |- respects _ set_terminate => solve [tac]
  | |- respects _ (submit _) => solve [tac]
  | |- respects _ (set_cmd_text _) => solve [tac]
  | |- respects _ (set_cmd_wait _) => solve [tac]
  | |- respects _ (on_bufs _) => solve [apply respects_on_bufs; tac]
  end.

Ltac run_leaf :=
  intros;
  cbv [sendall msg_put err_put set_terminate submit set_cmd_text
       set_cmd_wait set_cmd cmd_put mbind mret SE_bind SE_ret se_bind
       se_get se_modify se_ret snd].

Lemma se_bind_modify {S B} (f : S -> S) (k : unit -> SE S B) (s : S) :
  se_bind (se_modify f) k s = k tt (f s).
Proof. reflexivity. Qed.

(** Runs the steps of a handler that come before the next call on the
    state, keeping the state a plain record. *)
Ltac run_steps :=
  repeat (first [ rewrite se_bind_bind | rewrite se_bind_modify
                | rewrite se_bind_get | rewrite se_bind_ret ];
          cbv beta;
          cbn [bufs cmd_Q msg_Q err_Q free_Qn daq_cmd_clients evt_terminate
               sent sock_closed handler_cmd]).

(** ** The pool of response slots *)

Lemma same_pool_refl (w : server) : same_pool w w.
Proof. repeat split. Qed.

Lemma same_pool_trans (a b c : server) :
  same_pool a b -> same_pool b c -> same_pool a c.
Proof. unfold same_pool. intros (?&?&?) (?&?&?). repeat split; congruence. Qed.

Ltac pool_leaf := handler_leaf ltac:(run_leaf; repeat split).

Section Handler.
Variable sensors : list Sensor.
Variable py_format : string -> float -> string.
Variable py_float : string -> option float.
Variable find_peaks : list float -> float -> Q -> result (list Z).
Variable arg_verbose arg_silent : bool.
Variable arg_bufsize : float.
Variable script_ver : string.
Variable daq : list request -> string.

Lemma serve_request_same_pool (addr data : string) :
  respects same_pool
    (serve_request sensors py_format py_float find_peaks arg_verbose
                   arg_bufsize script_ver daq addr data).
Proof.
  unfold serve_request, cmd_drop, forward, send_cmd, when.
  respects_with same_pool_refl same_pool_trans pool_leaf.
Qed.

Lemma serve_loop_same_pool (addr : string) (inbox : list string) :
  respects same_pool
    (serve_loop sensors py_format py_float find_peaks arg_verbose arg_silent
                arg_bufsize script_ver daq addr inbox).
Proof.
  induction inbox as [|data rest IH]; cbn [serve_loop]; unfold when;
    respects_with same_pool_refl same_pool_trans
      ltac:(first [pool_leaf | apply serve_request_same_pool | apply IH]).
Qed.

(** The handler's loop ends normally whatever the client sends: an
    exception in a request is logged and ends the loop. *)
Lemma serve_loop_returns (addr : string) (inbox : list string) (w : server) :
  (serve_loop sensors py_format py_float find_peaks arg_verbose arg_silent
              arg_bufsize script_ver daq addr inbox w).1 = Ok tt.
Proof.
  revert w. induction inbox as [|data rest IH]; intros w; cbn [serve_loop];
    unfold mbind, mret, SE_bind, SE_ret; rewrite se_bind_get.
  - destruct (evt_terminate w); [reflexivity|].
    unfold when. destruct arg_verbose; reflexivity.
  - destruct (evt_terminate w); [reflexivity|].
    destruct (String.eqb data ""); [unfold when; destruct arg_verbose; reflexivity|].
    unfold se_bind at 1, se_try.
    destruct (se_bind (serve_request _ _ _ _ _ _ _ _ _ _) _ w)
      as [[[]|e] w1].
    + apply IH.
    + unfold when. destruct arg_silent; reflexivity.
    + unfold when. destruct arg_silent; reflexivity.
Qed.

Lemma list_remove_snoc (x : Z) (l : list Z) :
  x ∉ l -> list_remove x (l ++ [x]) = l.
Proof.
  induction l as [|y l IH]; intros Hx; cbn.
  - rewrite Z.eqb_refl. reflexivity.
  - apply not_elem_of_cons in Hx as [Hxy Hx].
    destruct (Z.eqb_spec x y) as [->|_]; [congruence|].
    rewrite IH by exact Hx. reflexivity.
Qed.

End Handler.

(** X8. a handler that was given a response slot gives it back.  Whatever
    the client sends, the handler returns normally with its socket closed,
    the list of free slots as it found it, and its socket off the list of
    clients. *)
Theorem cmd_handler_releases_its_slot
    (sensors : list Sensor) (py_format : string -> float -> string)
    (py_float : string -> option float)
    (find_peaks : list float -> float -> Q -> result (list Z))
    (arg_verbose arg_silent : bool) (arg_bufsize : float)
    (script_ver : string) (daq : list request -> string)
    (client_socket : Z) (addr : string) (inbox : list string) (w : server)
    (free : list Z) (n : Z) :
  free_Qn w = free ++ [n] ->
  client_socket ∉ daq_cmd_clients w ->
  exists w' : server,
    cmd_handler sensors py_format py_float find_peaks arg_verbose arg_silent
                arg_bufsize script_ver daq client_socket addr inbox w =
      (Ok tt, w') /\
    free_Qn w' = free_Qn w /\
    daq_cmd_clients w' = daq_cmd_clients w /\
    sock_closed w' = true.
Proof.
  intros Hfree Hcs.
  unfold cmd_handler, mbind, mret, SE_bind, SE_ret.
  rewrite se_bind_get, Hfree, reverse_snoc.
  unfold when, set_pool, set_cmd, close_socket, msg_put, mret, SE_ret.
  destruct arg_verbose; cbv iota; run_steps.
  all: lazymatch goal with
    | |- context [se_bind (serve_loop ?a ?b ?c ?d ?e ?f ?g ?h ?i ?j ?k)
                          _ ?w1] =>
        pose proof (serve_loop_returns a b c d e f g h i j k w1) as Hr;
        pose proof (serve_loop_same_pool a b c d e f g h i j k w1)
          as (Hf & Hc & _);
        remember (serve_loop a b c d e f g h i j k w1) as X eqn:E;
        destruct X as [r w2]; symmetry in E
    end.
  all: cbn [fst snd free_Qn daq_cmd_clients] in *; subst r.
  all: rewrite (se_bind_known _ _ _ _ _ E); run_steps.
  all: eexists; (split; [reflexivity|]).
  all: cbn [free_Qn daq_cmd_clients sock_closed].
  all: rewrite Hf, Hc, reverse_involutive, list_remove_snoc by exact Hcs;
    auto.
Qed.

Lemma cmd_handler_releases_its_slot_witness :
  exists w' : server,
    cmd_handler example_sensors example_format example_float
                example_find_peaks true false (Fin 1200) "1.0"
                (fun _ => "OK") 7 "client"
                [":CMD:VERS?"; ":meas?"; "  "; ":CMD:NAMES?"]
                (example_server [0; 1]) = (Ok tt, w') /\
    free_Qn w' = free_Qn (example_server [0; 1]) /\
    daq_cmd_clients w' = daq_cmd_clients (example_server [0; 1]) /\
    sock_closed w' = true.
Proof.
  apply (cmd_handler_releases_its_slot example_sensors example_format
           example_float example_find_peaks true false (Fin 1200) "1.0"
           (fun _ => "OK") 7 "client"
           [":CMD:VERS?"; ":meas?"; "  "; ":CMD:NAMES?"]
           (example_server [0; 1]) [0] 1).
  - reflexivity.
  - cbn. apply not_elem_of_nil.
Defined.

(** ** The response slot of a request *)

Lemma own_slot_refl (w : server) : own_slot w w.
Proof.
  split; [reflexivity|]. exists []. rewrite app_nil_r. split; [reflexivity|].
  constructor.
Qed.

Lemma own_slot_trans (a b c : server) :
  own_slot a b -> own_slot b c -> own_slot a c.
Proof.
  intros (Hab & n1 & Hq1 & Hf1) (Hbc & n2 & Hq2 & Hf2).
  split; [congruence|]. exists (n1 ++ n2). split.
  - rewrite Hq2, Hq1, app_assoc. reflexivity.
  - apply Forall_app. split; [exact Hf1|]. rewrite <- Hab. exact Hf2.
Qed.

Ltac own_leaf :=
  handler_leaf
    ltac:(run_leaf; (split; [reflexivity|]);
          first [ exists []; cbn; rewrite app_nil_r;
                  split; [reflexivity|constructor]
                | eexists [_]; cbn;
                  split; [reflexivity|repeat constructor] ]).

Lemma serve_request_own_slot
    (sensors : list Sensor) (py_format : string -> float -> string)
    (py_float : string -> option float)
    (find_peaks : list float -> float -> Q -> result (list Z))
    (arg_verbose : bool) (arg_bufsize : float)
    (script_ver : string) (daq : list request -> string)
    (addr data : string) :
  respects own_slot
    (serve_request sensors py_format py_float find_peaks arg_verbose
                   arg_bufsize script_ver daq addr data).
Proof.
  unfold serve_request, cmd_drop, forward, send_cmd, when.
  respects_with own_slot_refl own_slot_trans own_leaf.
Qed.

Lemma serve_loop_own_slot
    (sensors : list Sensor) (py_format : string -> float -> string)
    (py_float : string -> option float)
    (find_peaks : list float -> float -> Q -> result (list Z))
    (arg_verbose arg_silent : bool) (arg_bufsize : float)
    (script_ver : string) (daq : list request -> string)
    (addr : string) (inbox : list string) :
  respects own_slot
    (serve_loop sensors py_format py_float find_peaks arg_verbose arg_silent
                arg_bufsize script_ver daq addr inbox).
Proof.
  induction inbox as [|data rest IH]; cbn [serve_loop]; unfold when;
    respects_with own_slot_refl own_slot_trans
      ltac:(first [own_leaf | apply serve_request_own_slot | apply IH]).
Qed.

(** X9. every request a handler submits to the DAQ worker names the
    response slot the handler took from the pool, the last of the free list
    on entry; a handler that found no slot submits nothing.  So a reply can
    only come back on the queue of the connection that asked. *)
Theorem cmd_handler_requests_carry_its_slot
    (sensors : list Sensor) (py_format : string -> float -> string)
    (py_float : string -> option float)
    (find_peaks : list float -> float -> Q -> result (list Z))
    (arg_verbose arg_silent : bool) (arg_bufsize : float)
    (script_ver : string) (daq : list request -> string)
    (client_socket : Z) (addr : string) (inbox : list string) (w : server) :
  exists new : list request,
    cmd_Q (cmd_handler sensors py_format py_float find_peaks arg_verbose
                       arg_silent arg_bufsize script_ver daq client_socket
                       addr inbox w).2 = cmd_Q w ++ new /\
    Forall (fun c => last (free_Qn w) = Some (resp_Qn c)) new.
Proof.
  unfold cmd_handler, mbind, mret, SE_bind, SE_ret.
  rewrite se_bind_get, <- head_reverse.
  destruct (reverse (free_Qn w)) as [|n free_rev].
  - exists []. rewrite app_nil_r. split; [|constructor].
    unfold when, set_pool, set_cmd, close_socket, msg_put, err_put, mret,
      SE_ret.
    destruct arg_verbose, arg_silent; cbv iota; run_steps; reflexivity.
  - unfold when, set_pool, set_cmd, close_socket, msg_put, mret, SE_ret.
    destruct arg_verbose; cbv iota; run_steps;
      match goal with
      | |- context [se_bind (serve_loop ?a ?b ?c ?d ?e ?f ?g ?h ?i ?j ?k)
                            _ ?w1] =>
          pose proof (serve_loop_own_slot a b c d e f g h i j k w1)
            as (_ & new & Hq & Hf);
          remember (serve_loop a b c d e f g h i j k w1) as X eqn:E;
          destruct X as [r w2]; symmetry in E
      end;
      cbn [fst snd cmd_Q handler_cmd resp_Qn] in *;
      rewrite (se_bind_known _ _ _ _ _ E);
      exists new;
      (split; [destruct r; [run_steps|]; exact Hq|]);
      cbn [head]; (eapply Forall_impl; [exact Hf|]);
      intros c Hc; cbn beta in Hc; congruence.
Qed.

(** ** One reply for each request *)

Lemma same_sent_refl (w : server) : same_sent w w.
Proof. reflexivity. Qed.

Lemma same_sent_trans (a b c : server) :
  same_sent a b -> same_sent b c -> same_sent a c.
Proof. unfold same_sent. congruence. Qed.

Ltac sent_leaf :=
  idtac;
  match goal with
  | |- respects _ (sendall _) => fail 1
  | _ => handler_leaf ltac:(run_leaf; reflexivity)
  end.

Ltac silent :=
  unfold cmd_drop, send_cmd, when;
  respects_with same_sent_refl same_sent_trans sent_leaf.

Lemma once_sendall (x : string) : replies_once (sendall x).
Proof. intros w. cbn. eauto. Qed.

Lemma once_bind_silent {A} (m : H A) (k : A -> H unit) :
  respects same_sent m -> (forall a, replies_once (k a)) ->
  replies_once (se_bind m k).
Proof.
  intros Hm Hk w. unfold se_bind. specialize (Hm w).
  destruct (m w) as [[a|e] w1]; cbn [snd] in Hm; [|exact Hm].
  specialize (Hk a w1). unfold same_sent in Hm. rewrite <- Hm. exact Hk.
Qed.

Lemma once_send_then_terminate (x : string) :
  replies_once (se_bind (sendall x) (fun _ => set_terminate)).
Proof. intros w. cbn. eauto. Qed.

Ltac one_reply :=
  unfold mbind, mret, SE_bind, SE_ret;
  repeat first
    [ apply once_sendall
    | apply once_send_then_terminate
    | apply once_bind_silent; [solve [silent]|intro]
    | match goal with
      | |- replies_once (if ?c then _ else _) => destruct c
      end ].

(** X10. a request that is served gets exactly one reply.  Whatever the
    text received and the state, when the body of the handler's loop ends
    normally exactly one text has been sent to the client, and when it
    raises none has. *)
Theorem serve_request_replies_once
    (sensors : list Sensor) (py_format : string -> float -> string)
    (py_float : string -> option float)
    (find_peaks : list float -> float -> Q -> result (list Z))
    (arg_verbose : bool) (arg_bufsize : float)
    (script_ver : string) (daq : list request -> string)
    (addr data : string) (w : server) :
  match serve_request sensors py_format py_float find_peaks arg_verbose
                      arg_bufsize script_ver daq addr data w with
  | (Ok _, w') => exists x, sent w' = sent w ++ [x]
  | (Raise _, w') => sent w' = sent w
  end.
Proof.
  revert w. change (replies_once
    (serve_request sensors py_format py_float find_peaks arg_verbose
                   arg_bufsize script_ver daq addr data)).
  unfold serve_request, forward. one_reply.
Qed.

(** ** Requests served without the DAQ worker *)

Lemma same_worker_queue_refl (w : server) : same_worker_queue w w.
Proof. split; reflexivity. Qed.

Lemma same_worker_queue_trans (a b c : server) :
  same_worker_queue a b -> same_worker_queue b c -> same_worker_queue a c.
Proof. unfold same_worker_queue. intros [] []. split; congruence. Qed.

Ltac queue_leaf :=
  idtac;
  match goal with
  | |- respects _ (submit _) => fail 1
  | |- respects _ (set_cmd_text _) => fail 1
  | |- respects _ (set_cmd_wait _) => fail 1
  | _ => handler_leaf ltac:(run_leaf; split; reflexivity)
  end.

Lemma respects_known {S A B} (R : S -> S -> Prop) (a : A)
    (k : A -> SE S B) :
  respects R (k a) -> respects R (se_bind (se_lift (Ok a)) k).
Proof. intros Hk s. rewrite se_bind_lift. apply Hk. Qed.

(** X11. the requests on the ring and on the server itself never reach the
    DAQ worker.  Serving one of them leaves the command queue and the
    handler's request object as they were, so the acquisition is not
    interrupted. *)
Theorem serve_request_server_side
    (sensors : list Sensor) (py_format : string -> float -> string)
    (py_float : string -> option float)
    (find_peaks : list float -> float -> Q -> result (list Z))
    (arg_verbose : bool) (arg_bufsize : float)
    (script_ver : string) (daq : list request -> string)
    (addr data f0 : string) (w : server) :
  head (tokens (strip data)) = Some f0 ->
  f0 ∈ server_side_commands ->
  let w' := (serve_request sensors py_format py_float find_peaks arg_verbose
                           arg_bufsize script_ver daq addr data w).2 in
  cmd_Q w' = cmd_Q w /\ handler_cmd w' = handler_cmd w.
Proof.
  intros Hf0 Hin. revert w.
  change (respects same_worker_queue
    (serve_request sensors py_format py_float find_peaks arg_verbose
                   arg_bufsize script_ver daq addr data)).
  unfold serve_request, mbind, mret, SE_bind, SE_ret.
  rewrite py_index_0, Hf0. apply respects_known.
  unfold server_side_commands in Hin.
  repeat (apply elem_of_cons in Hin as [->|Hin]);
    [..|apply elem_of_nil in Hin; contradiction];
    repeat match goal with
    | |- context [String.eqb ?a ?b] =>
        let v := eval vm_compute in (String.eqb a b) in
        change (String.eqb a b) with v
    end;
    cbv iota; unfold when;
    respects_with same_worker_queue_refl same_worker_queue_trans queue_leaf.
Qed.

Lemma serve_request_server_side_witness :
  let w' := (serve_request example_sensors example_format example_float
               example_find_peaks true (Fin 1200) "1.0" (fun _ => "OK")
               "client" ":cmd:read? h2, 1" (example_server [0])).2 in
  cmd_Q w' = cmd_Q (example_server [0]) /\
  handler_cmd w' = handler_cmd (example_server [0]).
Proof.
  apply (serve_request_server_side example_sensors example_format
           example_float example_find_peaks true (Fin 1200) "1.0"
           (fun _ => "OK") "client" ":cmd:read? h2, 1" ":CMD:READ?").
  - reflexivity.
  - unfold server_side_commands. set_solver.
Defined.

(** ** Requests forwarded to the DAQ worker *)

Lemma eqb_not_local (f0 x : string) :
  f0 ∉ local_commands -> x ∈ local_commands -> String.eqb x f0 = false.
Proof.
  intros Hn Hx. apply String.eqb_neq. intros ->. contradiction.
Qed.

Lemma serve_request_not_local
    (sensors : list Sensor) (py_format : string -> float -> string)
    (py_float : string -> option float)
    (find_peaks : list float -> float -> Q -> result (list Z))
    (arg_verbose : bool) (arg_bufsize : float)
    (script_ver : string) (daq : list request -> string)
    (addr data f0 : string) (w : server) :
  head (tokens (strip data)) = Some f0 ->
  f0 ∉ local_commands ->
  serve_request sensors py_format py_float find_peaks arg_verbose
                arg_bufsize script_ver daq addr data w =
  (if slow_command f0 then
     set_cmd_text (strip data);;
     set_cmd_wait (Fin 2);;
     resp ← submit daq;
     sendall resp
   else forward daq (strip data)) w.
Proof.
  intros Hf0 Hn.
  unfold serve_request, mbind, mret, SE_bind, SE_ret.
  rewrite py_index_0, Hf0, se_bind_lift.
  assert (HF : Forall (fun x => String.eqb x f0 = false) local_commands).
  { apply Forall_forall. intros x Hx. exact (eqb_not_local f0 x Hn Hx). }
  unfold local_commands in HF.
  repeat (apply Forall_cons in HF as [? HF]).
  repeat match goal with
         | E : String.eqb _ f0 = false |- _ => rewrite E; clear E
         end.
  reflexivity.
Qed.

(** X12. any other text is passed through.  A request whose first token is
    none of the handler's own and is not one of the delayed commands is
    submitted to the DAQ worker once, as received but for the surrounding
    blanks, under the handler's slot and with the delay the handler's
    request object holds at that time; the reply sent to the client is the
    worker's response. *)
Theorem serve_request_passes_through
    (sensors : list Sensor) (py_format : string -> float -> string)
    (py_float : string -> option float)
    (find_peaks : list float -> float -> Q -> result (list Z))
    (arg_verbose : bool) (arg_bufsize : float)
    (script_ver : string) (daq : list request -> string)
    (addr data f0 : string) (w : server) :
  head (tokens (strip data)) = Some f0 ->
  f0 ∉ local_commands ->
  slow_command f0 = false ->
  let req := Request (strip data) (resp_Qn (handler_cmd w))
                     (wait (handler_cmd w)) in
  exists w' : server,
    serve_request sensors py_format py_float find_peaks arg_verbose
                  arg_bufsize script_ver daq addr data w = (Ok tt, w') /\
    cmd_Q w' = cmd_Q w ++ [req] /\
    sent w' = sent w ++ [daq (cmd_Q w ++ [req])] /\
    handler_cmd w' = req /\
    bufs w' = bufs w.
Proof.
  intros Hf0 Hn Hs req.
  rewrite (serve_request_not_local _ _ _ _ _ _ _ _ _ _ f0 w Hf0 Hn), Hs.
  eexists. split; [reflexivity|]. cbn. auto.
Qed.

Lemma serve_request_passes_through_witness :
  let w := example_server [0] in
  let req := Request ":meas:volt? ch0" 0 (Fin 0) in
  exists w' : server,
    serve_request example_sensors example_format example_float
                  example_find_peaks true (Fin 1200) "1.0"
                  (fun _ => "0.5") "client" " :meas:volt? ch0 " w =
      (Ok tt, w') /\
    cmd_Q w' = cmd_Q w ++ [req] /\
    sent w' = sent w ++ ["0.5"] /\
    handler_cmd w' = req /\
    bufs w' = bufs w.
Proof.
  apply (serve_request_passes_through example_sensors example_format
           example_float example_find_peaks true (Fin 1200) "1.0"
           (fun _ => "0.5") "client" " :meas:volt? ch0 " ":MEAS:VOLT?"
           (example_server [0])).
  - reflexivity.
  - unfold local_commands. intros H.
    repeat (apply elem_of_cons in H as [H|H]; [discriminate H|]).
    apply elem_of_nil in H. exact H.
  - reflexivity.
Defined.

(** X13. the 2 s delay of a reset or memory command stays on the
    connection.  The handler writes the delay into the request object it
    reuses and a passed-through request does not reset it, so the request
    that follows a [*RST], [:SAV] or [:RCL] on the same connection is
    submitted with a delay of 2 s as well. *)
Theorem delay_of_reset_stays_on_the_connection
    (sensors : list Sensor) (py_format : string -> float -> string)
    (py_float : string -> option float)
    (find_peaks : list float -> float -> Q -> result (list Z))
    (arg_verbose : bool) (arg_bufsize : float)
    (script_ver : string) (daq : list request -> string)
    (addr d1 f1 d2 f2 : string) (w : server) :
  head (tokens (strip d1)) = Some f1 ->
  f1 ∉ local_commands -> slow_command f1 = true ->
  head (tokens (strip d2)) = Some f2 ->
  f2 ∉ local_commands -> slow_command f2 = false ->
  let serve := serve_request sensors py_format py_float find_peaks
                             arg_verbose arg_bufsize script_ver daq addr in
  let n := resp_Qn (handler_cmd w) in
  cmd_Q (serve d2 (serve d1 w).2).2 =
  cmd_Q w ++ [Request (strip d1) n (Fin 2); Request (strip d2) n (Fin 2)].
Proof.
  intros H1 Hn1 Hs1 H2 Hn2 Hs2 serve n. subst serve.
  rewrite (serve_request_not_local _ _ _ _ _ _ _ _ _ d1 f1 w H1 Hn1), Hs1.
  rewrite (serve_request_not_local _ _ _ _ _ _ _ _ _ d2 f2 _ H2 Hn2), Hs2.
  cbv [forward submit set_cmd_text set_cmd_wait set_cmd cmd_put sendall
       mbind mret SE_bind SE_ret se_bind se_get se_modify se_ret snd
       cmd_Q handler_cmd resp_Qn wait].
  rewrite <- app_assoc. reflexivity.
Qed.

Lemma delay_of_reset_stays_on_the_connection_witness :
  let serve := serve_request example_sensors example_format example_float
                 example_find_peaks true (Fin 1200) "1.0" (fun _ => "OK")
                 "client" in
  cmd_Q (serve ":meas:volt? ch0" (serve "*rst" (example_server [0])).2).2 =
  cmd_Q (example_server [0]) ++
  [Request "*rst" 0 (Fin 2); Request ":meas:volt? ch0" 0 (Fin 2)].
Proof.
  apply (delay_of_reset_stays_on_the_connection example_sensors
           example_format example_float example_find_peaks true (Fin 1200)
           "1.0" (fun _ => "OK") "client" "*rst" "*RST"
           ":meas:volt? ch0" ":MEAS:VOLT?" (example_server [0]));
    try reflexivity;
    unfold local_commands; intros H;
    repeat (apply elem_of_cons in H as [H|H]; [discriminate H|]);
    apply elem_of_nil in H; exact H.
Defined.

(** ** How the handler's loop ends *)

Lemma serve_loop_terminated
    (sensors : list Sensor) (py_format : string -> float -> string)
    (py_float : string -> option float)
    (find_peaks : list float -> float -> Q -> result (list Z))
    (arg_verbose arg_silent : bool) (arg_bufsize : float)
    (script_ver : string) (daq : list request -> string)
    (addr : string) (inbox : list string) (w : server) :
  evt_terminate w = true ->
  serve_loop sensors py_format py_float find_peaks arg_verbose arg_silent
             arg_bufsize script_ver daq addr inbox w = (Ok tt, w).
Proof.
  intros Ht. destruct inbox; cbn [serve_loop];
    unfold mbind, SE_bind; rewrite se_bind_get, Ht; reflexivity.
Qed.

Lemma tokens_nonempty_text (data f0 : string) :
  head (tokens (strip data)) = Some f0 -> String.eqb data "" = false.
Proof.
  intros H. destruct data; [discriminate H|reflexivity].
Qed.

(** X14. the shutdown request is answered [ABORT], sets the termination
    event and ends the handler's loop: what the client sent after it is not
    served, and nothing is submitted to the DAQ worker. *)
Theorem shutdown_ends_the_loop
    (sensors : list Sensor) (py_format : string -> float -> string)
    (py_float : string -> option float)
    (find_peaks : list float -> float -> Q -> result (list Z))
    (arg_verbose arg_silent : bool) (arg_bufsize : float)
    (script_ver : string) (daq : list request -> string)
    (addr data : string) (rest : list string) (w : server) :
  head (tokens (strip data)) = Some ":CMD:HMC:SHUTDOWN" ->
  evt_terminate w = false ->
  exists w' : server,
    serve_loop sensors py_format py_float find_peaks arg_verbose arg_silent
               arg_bufsize script_ver daq addr (data :: rest) w =
      (Ok tt, w') /\
    sent w' = sent w ++ ["ABORT"] /\
    evt_terminate w' = true /\
    cmd_Q w' = cmd_Q w /\
    bufs w' = bufs w.
Proof.
  intros Hf0 Ht.
  assert (exists w1,
    serve_request sensors py_format py_float find_peaks arg_verbose
                  arg_bufsize script_ver daq addr data w = (Ok tt, w1) /\
    sent w1 = sent w ++ ["ABORT"] /\ evt_terminate w1 = true /\
    cmd_Q w1 = cmd_Q w /\ bufs w1 = bufs w) as (w1 & E & Hw1).
  { unfold serve_request, mbind, mret, SE_bind, SE_ret.
    rewrite py_index_0, Hf0, se_bind_lift.
    change (String.eqb ":CMD:HMC:SHUTDOWN" ":CMD:HMC:SHUTDOWN") with true.
    cbv iota. unfold when.
    destruct arg_verbose; eexists; (split; [reflexivity|]); cbn; auto. }
  cbn [serve_loop]. unfold mbind, mret, SE_bind, SE_ret.
  rewrite se_bind_get, Ht, (tokens_nonempty_text _ _ Hf0).
  erewrite se_bind_known
    by (apply se_try_ok; erewrite se_bind_known by exact E; reflexivity).
  cbv beta iota. rewrite serve_loop_terminated by tauto.
  exists w1. tauto.
Qed.

Lemma shutdown_ends_the_loop_witness :
  exists w' : server,
    serve_loop example_sensors example_format example_float
               example_find_peaks true false (Fin 1200) "1.0"
               (fun _ => "OK") "client"
               [":cmd:hmc:shutdown"; ":meas:volt? ch0"]
               (example_server [0]) = (Ok tt, w') /\
    sent w' = sent (example_server [0]) ++ ["ABORT"] /\
    evt_terminate w' = true /\
    cmd_Q w' = cmd_Q (example_server [0]) /\
    bufs w' = bufs (example_server [0]).
Proof.
  apply (shutdown_ends_the_loop example_sensors example_format example_float
           example_find_peaks true false (Fin 1200) "1.0" (fun _ => "OK")
           "client" ":cmd:hmc:shutdown" [":meas:volt? ch0"]
           (example_server [0]));
    reflexivity.
Defined.

(** X15. a request for the oldest or the newest time stamp of an empty ring
    gets no reply.  The subscript raises outside any handler of the
    request, so the loop logs the error, unless silent, and ends: nothing is
    sent, and what the client sent after it is not served. *)
Theorem time_query_on_empty_ring_ends_the_loop
    (sensors : list Sensor) (py_format : string -> float -> string)
    (py_float : string -> option float)
    (find_peaks : list float -> float -> Q -> result (list Z))
    (arg_verbose arg_silent : bool) (arg_bufsize : float)
    (script_ver : string) (daq : list request -> string)
    (addr data f0 : string) (rest : list string) (w : server) :
  head (tokens (strip data)) = Some f0 ->
  f0 = ":CMD:TIME:MIN?" \/ f0 = ":CMD:TIME:MAX?" ->
  bufidx (bufs w) = [] ->
  evt_terminate w = false ->
  exists w' : server,
    serve_loop sensors py_format py_float find_peaks arg_verbose arg_silent
               arg_bufsize script_ver daq addr (data :: rest) w =
      (Ok tt, w') /\
    sent w' = sent w /\
    cmd_Q w' = cmd_Q w /\
    err_Q w' =
      (if arg_silent then err_Q w
       else err_Q w ++ ["cmd_handelr: Error handling client " +:+ addr
                        +:+ ": list index out of range"]).
Proof.
  intros Hf0 Hcmd Hempty Ht.
  assert (serve_request sensors py_format py_float find_peaks arg_verbose
            arg_bufsize script_ver daq addr data w =
          (Raise index_error, w)) as E.
  { unfold serve_request, mbind, mret, SE_bind, SE_ret.
    rewrite py_index_0, Hf0, se_bind_lift.
    destruct Hcmd as [-> | ->];
      repeat match goal with
      | |- context [String.eqb ?a ?b] =>
          let v := eval vm_compute in (String.eqb a b) in
          change (String.eqb a b) with v
      end;
      cbv iota; rewrite se_bind_get, Hempty; reflexivity. }
  cbn [serve_loop]. unfold mbind, mret, SE_bind, SE_ret.
  rewrite se_bind_get, Ht, (tokens_nonempty_text _ _ Hf0).
  destruct arg_silent;
    (erewrite se_bind_known
       by (erewrite se_try_raise
             by (erewrite se_bind_known by exact E; reflexivity);
           reflexivity));
    eexists; (split; [reflexivity|]); cbn; auto.
Qed.

Lemma time_query_on_empty_ring_ends_the_loop_witness :
  let w := Server (Buffers [] []) [] [] [] [0] [] false [] false
                  (Request "" 0 (Fin 0)) in
  exists w' : server,
    serve_loop example_sensors example_format example_float
               example_find_peaks true false (Fin 1200) "1.0"
               (fun _ => "OK") "client"
               [":cmd:time:min?"; ":cmd:vers?"] w = (Ok tt, w') /\
    sent w' = sent w /\
    cmd_Q w' = cmd_Q w /\
    err_Q w' =
      err_Q w ++ ["cmd_handelr: Error handling client " +:+ "client"
                  +:+ ": list index out of range"].
Proof.
  apply (time_query_on_empty_ring_ends_the_loop example_sensors
           example_format example_float example_find_peaks true false
           (Fin 1200) "1.0" (fun _ => "OK") "client" ":cmd:time:min?"
           ":CMD:TIME:MIN?" [":cmd:vers?"]);
    try reflexivity.
  left. reflexivity.
Defined.

(** ** [:CMD:DROP] *)


